(** * Hammer-pattern backtest engine: a shallow embedding

    The development embeds the backtest simulation engine of the trading
    bot (indicator computation, hammer classification, forward first-touch
    simulation, statistics), the readiness check over the data files and
    the decision loop of the live poller with its position guard.

    Sources embedded: [check_accuracy.py], [optimize_fixed.py] and
    [finalBot.py].

    Numbers.  Prices are IEEE doubles in the source.  They are modelled by
    exact rationals [Q]; the only non-finite values the engine itself
    creates are the NaN of an unfilled rolling window (modelled by [None])
    and [float('inf')] in one report field (modelled by [PosInf]).
    Equality of prices is [Qeq] ([==]). *)

From Stdlib Require Import QArith Qabs Qminmax Qround Lqa Ascii.
From stdpp Require Import gmap strings list fin_maps.

Local Open Scope Q_scope.

(** ** Comparisons and folds over rationals *)

Module Num.

(** Python [x <= y] and [x < y] on floats. *)
Definition leb (x y : Q) : bool := Qle_bool x y.
Definition ltb (x y : Q) : bool := negb (Qle_bool y x).

(** Python [x >= y] and [x > y]. *)
Definition geb (x y : Q) : bool := leb y x.
Definition gtb (x y : Q) : bool := ltb y x.

(** [Series.sum()]. *)
Definition sum (xs : list Q) : Q := fold_left Qplus xs 0.

(** [Series.mean()] of a non-empty series. *)
Definition mean (xs : list Q) : Q := sum xs / inject_Z (Z.of_nat (length xs)).

(** [Series.max()] / [Series.min()] of a non-empty series. *)
Definition maximum (xs : list Q) : Q :=
  match xs with
  | [] => 0
  | x :: r => fold_left Qmax r x
  end.

Definition minimum (xs : list Q) : Q :=
  match xs with
  | [] => 0
  | x :: r => fold_left Qmin r x
  end.

End Num.

(** ** Data frames *)

(** A pandas [DataFrame] indexed by time: the index labels and the named
    columns.  Every column has as many cells as the index has labels. *)
Record DataFrame := {
  df_index : list Z;
  df_cols : gmap string (list Q)
}.

(** One row of the frame restricted to the price columns the engine reads
    ([row["open"]], [row["high"]], [row["low"]], [row["close"]]), together
    with its index label. *)
Record Candle := {
  c_time : Z;
  c_open : Q;
  c_high : Q;
  c_low : Q;
  c_close : Q
}.

Definition required_cols : list string :=
  ["open"; "high"; "low"; "close"; "volume"]%string.

(** [col in df.columns] *)
Definition has_col (df : DataFrame) (col : string) : bool :=
  bool_decide (is_Some (df_cols df !! col)).

(** [all(col in df.columns for col in required_cols)] *)
Definition has_required_cols (df : DataFrame) : bool :=
  forallb (has_col df) required_cols.

(** [df[col]]; callers only read columns already checked to exist. *)
Definition column (df : DataFrame) (col : string) : list Q :=
  default [] (df_cols df !! col).

Fixpoint zip_candles (ts : list Z) (os hs ls cs : list Q) : list Candle :=
  match ts, os, hs, ls, cs with
  | t :: ts', o :: os', h :: hs', l :: ls', c :: cs' =>
      {| c_time := t; c_open := o; c_high := h; c_low := l; c_close := c |}
        :: zip_candles ts' os' hs' ls' cs'
  | _, _, _, _, _ => []
  end.

(** The rows of the frame in index order. *)
Definition candles (df : DataFrame) : list Candle :=
  zip_candles (df_index df) (column df "open") (column df "high")
              (column df "low") (column df "close").

(** Builds the frame holding the given candles (volume 0 throughout). *)
Definition frame_of (cs : list Candle) : DataFrame :=
  {| df_index := map c_time cs;
     df_cols :=
       <["open" := map c_open cs]>
       (<["high" := map c_high cs]>
       (<["low" := map c_low cs]>
       (<["close" := map c_close cs]>
       (<["volume" := map (fun _ => 0) cs]> ∅)))) |}.

(** ** Indicator engine *)

Module Indicators.

(** [Series.ewm(span=span, adjust=False).mean()]: pandas defines it by
    [y_0 = x_0] and [y_t = (1 - alpha) * y_(t-1) + alpha * x_t] with
    [alpha = 2 / (span + 1)]; it rejects a span below 1. *)
Definition alpha_of_span (span : Z) : Q := 2 / (inject_Z span + 1).

Fixpoint ewm_from (alpha : Q) (y : Q) (xs : list Q) : list Q :=
  match xs with
  | [] => []
  | x :: r =>
      let y' := (1 - alpha) * y + alpha * x in
      y' :: ewm_from alpha y' r
  end.

Definition ewm_mean (span : Z) (xs : list Q) : list Q :=
  match xs with
  | [] => []
  | x :: r => x :: ewm_from (alpha_of_span span) x r
  end.

(** [df[["a", "b"]].max(axis=1)] over present values. *)
Definition true_range_row (prev_close : option Q) (c : Candle) : Q :=
  let hl := c_high c - c_low c in
  match prev_close with
  | None => hl
  | Some p =>
      let hc := Qabs (c_high c - p) in
      let lc := Qabs (c_low c - p) in
      Qmax (Qmax hl hc) lc
  end.

(** The [tr] column: [close.shift(1)] is absent on the first row, and
    the row-wise [max] skips absent cells. *)
Fixpoint true_range_from (prev_close : option Q) (cs : list Candle) : list Q :=
  match cs with
  | [] => []
  | c :: r => true_range_row prev_close c :: true_range_from (Some (c_close c)) r
  end.

Definition true_range (cs : list Candle) : list Q := true_range_from None cs.

(** [Series.rolling(window=period).mean()]: absent until [period] values
    are available, then the mean of the last [period] values. *)
Definition window (period : nat) (xs : list Q) (i : nat) : list Q :=
  firstn period (skipn (S i - period) xs).

Definition rolling_mean_at (period : nat) (xs : list Q) (i : nat) : option Q :=
  if (S i <? period)%nat then None
  else Some (Num.sum (window period xs i) / inject_Z (Z.of_nat period)).

Definition rolling_mean (period : nat) (xs : list Q) : list (option Q) :=
  map (rolling_mean_at period xs) (seq 0 (length xs)).

(** [calculate_atr] of [check_accuracy.py] / [optimize_fixed.py]. *)
Definition calculate_atr (cs : list Candle) (period : nat) : list (option Q) :=
  rolling_mean period (true_range cs).

(** Columns added by [compute_emas]. *)
Record Emas := {
  EMA_fast : Q;
  EMA_slow : Q;
  EMA_lower : Q;
  EMA_upper : Q
}.

Definition mk_emas (f s : Q) : Emas :=
  {| EMA_fast := f; EMA_slow := s; EMA_lower := Qmin f s; EMA_upper := Qmax f s |}.

Definition compute_emas (cs : list Candle) (fast_period slow_period : Z) : list Emas :=
  zip_with mk_emas (ewm_mean fast_period (map c_close cs))
                   (ewm_mean slow_period (map c_close cs)).

End Indicators.

(** ** Exceptions and results *)

Inductive Exception := ValueError | TypeError.

Inductive Result (A : Type) :=
  | Raises (e : Exception)
  | Returns (a : A).
Arguments Raises {A} e.
Arguments Returns {A} a.

Inductive Side := BUY | SELL.

(** The value of a float that may be [float('inf')]. *)
Inductive ExtQ :=
  | Finite (q : Q)
  | PosInf.

(** ** The working frame and the forward scan shared by the backtests *)

Module Engine.
Import Indicators.

(** A row of the working frame of a backtest after the indicator and
    signal columns have been added.  ([optimize_fixed.py] leaves out the
    [EMA_lower] and [EMA_upper] columns, which no backtest reads.) *)
Record Row := {
  candle : Candle;
  emas : Emas;
  atr : option Q;
  is_bearish : bool;
  is_bullish : bool;
  buy_signal : bool;
  sell_signal : bool
}.

Section Annotate.
Variables bullish bearish : Candle -> bool.

(** [df["is_bullish"] = df.apply(...)], [df["buy_signal"] = df["is_bullish"]]
    and the bearish counterparts. *)
Definition mk_row (c : Candle) (e : Emas) (a : option Q) : Row :=
  {| candle := c; emas := e; atr := a;
     is_bearish := bearish c;
     is_bullish := bullish c;
     buy_signal := bullish c;
     sell_signal := bearish c |}.

Fixpoint zip_rows (cs : list Candle) (es : list Emas) (ats : list (option Q)) : list Row :=
  match cs, es, ats with
  | c :: cs', e :: es', a :: ats' => mk_row c e a :: zip_rows cs' es' ats'
  | _, _, _ => []
  end.

(** The frame after [compute_emas(df, 9, 15)], [calculate_atr(df, 14)]
    and the pattern columns. *)
Definition annotate (cs : list Candle) : list Row :=
  zip_rows cs (compute_emas cs 9 15) (calculate_atr cs 14).

End Annotate.

Definition r_time (r : Row) : Z := c_time (candle r).
Definition r_high (r : Row) : Q := c_high (candle r).
Definition r_low (r : Row) : Q := c_low (candle r).
Definition r_close (r : Row) : Q := c_close (candle r).

(** [atr > 0]; false on NaN. *)
Definition atr_positive (a : option Q) : bool :=
  match a with
  | Some v => Num.gtb v 0
  | None => false
  end.

(** The value read from the [atr] cell in the arithmetic that follows a
    successful [atr > 0] test. *)
Definition atr_value (a : option Q) : Q := default 0 a.

(** [df.iloc[i + 1 : i + 100]]: the 99 rows after position [i]. *)
Definition future_data (rows : list Row) (i : nat) : list Row :=
  firstn 99 (skipn (S i) rows).

(** The forward scan of a BUY: the label of the exit row and [hit_tp]. *)
Fixpoint scan_buy (tp sl : Q) (future : list Row) : option (Z * bool) :=
  match future with
  | [] => None
  | future_row :: rest =>
      if Num.geb (r_high future_row) tp then Some (r_time future_row, true)
      else if Num.leb (r_low future_row) sl then Some (r_time future_row, false)
      else scan_buy tp sl rest
  end.

(** The forward scan of a SELL. *)
Fixpoint scan_sell (tp sl : Q) (future : list Row) : option (Z * bool) :=
  match future with
  | [] => None
  | future_row :: rest =>
      if Num.leb (r_low future_row) tp then Some (r_time future_row, true)
      else if Num.geb (r_high future_row) sl then Some (r_time future_row, false)
      else scan_sell tp sl rest
  end.

End Engine.

(** ** [check_accuracy.py]: classifier, simulator and aggregator *)

Module CheckAccuracy.
Import Indicators Engine.

Definition is_bearish_hammer (row : Candle) : bool :=
  let o := c_open row in
  let h := c_high row in
  let l := c_low row in
  let c := c_close row in
  if Num.geb c o then false
  else
    let body := o - c in
    let upper_shadow := h - o in
    let lower_shadow := c - l in
    if Num.gtb lower_shadow ((13 # 20) * body) then false
    else if Num.ltb upper_shadow ((3 # 2) * body) then false
    else true.

Definition is_bullish_hammer (row : Candle) : bool :=
  let o := c_open row in
  let h := c_high row in
  let l := c_low row in
  let c := c_close row in
  if Num.leb c o then false
  else
    let body := c - o in
    let upper_shadow := h - c in
    let lower_shadow := o - l in
    if Num.gtb upper_shadow ((13 # 20) * body) then false
    else if Num.ltb lower_shadow ((3 # 2) * body) then false
    else true.

(** The frame after [compute_emas(df, 9, 15)], [calculate_atr(df, 14)]
    and the pattern columns. *)
Definition with_indicators (cs : list Candle) : list Row :=
  annotate is_bullish_hammer is_bearish_hammer cs.

(** Looking a label up in the index: the rows that carry it, with their
    positions.  The loop looks up only labels it has read from the index,
    so there is at least one. *)
Definition has_label (label : Z) (r : Row) : bool := Z.eqb (r_time r) label.

Fixpoint matches_from (pos : nat) (rows : list Row) (label : Z) : list (nat * Row) :=
  match rows with
  | [] => []
  | r :: rest =>
      if has_label label r then (pos, r) :: matches_from (S pos) rest label
      else matches_from (S pos) rest label
  end.

Definition matches (rows : list Row) (label : Z) : list (nat * Row) :=
  matches_from 0 rows label.

(** [df.index.is_monotonic_increasing]: no label is below the one before. *)
Fixpoint is_monotonic_increasing (ts : list Z) : bool :=
  match ts with
  | [] => true
  | t :: r =>
      match r with
      | [] => true
      | u :: _ => (t <=? u)%Z && is_monotonic_increasing r
      end
  end.

(** [df.loc[label, "close"]]: the close of the row when the label occurs
    once; for a label that occurs more than once pandas returns a Series
    of closes, which is [None] here. *)
Definition loc_close (rows : list Row) (label : Z) : option Q :=
  match matches rows label with
  | [(_, r)] => Some (r_close r)
  | _ => None
  end.

(** [df.index.get_loc(label)]: the position when the label occurs once;
    otherwise a slice when the index is sorted and a boolean mask when it
    is not. *)
Inductive Loc :=
  | Position (pos : nat)
  | Slice
  | Mask.

Definition get_loc (rows : list Row) (label : Z) : Loc :=
  match matches rows label with
  | [(pos, _)] => Position pos
  | _ => if is_monotonic_increasing (map r_time rows) then Slice else Mask
  end.

Record Trade := {
  t_entry_time : Z;
  t_entry_price : Q;
  t_exit_time : Z;
  t_exit_price : Q;
  t_type : Side;
  t_profit : Q;
  t_profit_pct : Q;
  t_hit_tp : bool;
  t_sl : Q;
  t_tp : Q;
  t_candles_held : Z
}.

Definition buy_levels (use_atr : bool) (entry : Q) (a : option Q) : Q * Q :=
  if use_atr && atr_positive a
  then (entry - 1 * atr_value a, entry + 2 * atr_value a)
  else (entry - 5, entry + 10).

Definition sell_levels (use_atr : bool) (entry : Q) (a : option Q) : Q * Q :=
  if use_atr && atr_positive a
  then (entry + 2 * atr_value a, entry - 4 * atr_value a)
  else (entry + 10, entry - 20).

(** The [if row["buy_signal"]] branch of the loop body at position [i]:
    the record it appends, if any, or the exception that ends the call.
    With an exit label that occurs once the record is built from scalars.
    With one that occurs more than once, [exit_pos - i] raises [TypeError]
    when the position is a slice; when it is a mask the record is appended
    with a Series in its price cells, and the call ends in the
    [ValueError] that [trades_df["profit"] > 0] raises on such a cell. *)
Definition buy_trade (use_atr : bool) (rows : list Row) (i : nat) (row : Row)
  : Result (option Trade) :=
  let entry := r_close row in
  let '(sl, tp) := buy_levels use_atr entry (atr row) in
  match scan_buy tp sl (future_data rows i) with
  | None => Returns None
  | Some (exit_idx, hit_tp) =>
      match loc_close rows exit_idx, get_loc rows exit_idx with
      | Some exit_price, Position exit_pos =>
          let profit := if hit_tp then exit_price - entry else - (entry - exit_price) in
          let profit_pct := (profit / entry) * 100 in
          Returns (Some {| t_entry_time := r_time row;
                           t_entry_price := entry;
                           t_exit_time := exit_idx;
                           t_exit_price := exit_price;
                           t_type := BUY;
                           t_profit := profit;
                           t_profit_pct := profit_pct;
                           t_hit_tp := hit_tp;
                           t_sl := sl;
                           t_tp := tp;
                           t_candles_held := Z.of_nat exit_pos - Z.of_nat i |})
      | _, Slice => Raises TypeError
      | _, _ => Raises ValueError
      end
  end.

(** The [elif row["sell_signal"]] branch. *)
Definition sell_trade (use_atr : bool) (rows : list Row) (i : nat) (row : Row)
  : Result (option Trade) :=
  let entry := r_close row in
  let '(sl, tp) := sell_levels use_atr entry (atr row) in
  match scan_sell tp sl (future_data rows i) with
  | None => Returns None
  | Some (exit_idx, hit_tp) =>
      match loc_close rows exit_idx, get_loc rows exit_idx with
      | Some exit_price, Position exit_pos =>
          let profit := if hit_tp then entry - exit_price else - (exit_price - entry) in
          let profit_pct := (profit / entry) * 100 in
          Returns (Some {| t_entry_time := r_time row;
                           t_entry_price := entry;
                           t_exit_time := exit_idx;
                           t_exit_price := exit_price;
                           t_type := SELL;
                           t_profit := profit;
                           t_profit_pct := profit_pct;
                           t_hit_tp := hit_tp;
                           t_sl := sl;
                           t_tp := tp;
                           t_candles_held := Z.of_nat exit_pos - Z.of_nat i |})
      | _, Slice => Raises TypeError
      | _, _ => Raises ValueError
      end
  end.

(** One iteration of [for i in range(100, len(df))]. *)
Definition loop_body (use_atr : bool) (rows : list Row) (i : nat)
  : Result (option Trade) :=
  match rows !! i with
  | None => Returns None
  | Some row =>
      if buy_signal row then buy_trade use_atr rows i row
      else if sell_signal row then sell_trade use_atr rows i row
      else Returns None
  end.

(** The record the iteration at position [i] appends to [trades], if it
    appends one. *)
Definition trade_at (use_atr : bool) (rows : list Row) (i : nat) : option Trade :=
  match loop_body use_atr rows i with
  | Returns appended => appended
  | Raises _ => None
  end.

Definition append_trade (use_atr : bool) (rows : list Row)
    (trades : list Trade) (i : nat) : list Trade :=
  match trade_at use_atr rows i with
  | Some t => trades ++ [t]
  | None => trades
  end.

(** [range(100, len(df))] *)
Definition loop_range (rows : list Row) : list nat :=
  seq 100 (length rows - 100).

(** The records appended over the whole range. *)
Definition extract_trades (use_atr : bool) (rows : list Row) : list Trade :=
  fold_left (append_trade use_atr rows) (loop_range rows) [].

(** The loop as the call runs it: the first iteration that raises ends it. *)
Definition step (use_atr : bool) (rows : list Row)
    (acc : Result (list Trade)) (i : nat) : Result (list Trade) :=
  match acc with
  | Raises e => Raises e
  | Returns trades =>
      match loop_body use_atr rows i with
      | Raises e => Raises e
      | Returns None => Returns trades
      | Returns (Some t) => Returns (trades ++ [t])
      end
  end.

Definition run_loop (use_atr : bool) (rows : list Row) : Result (list Trade) :=
  fold_left (step use_atr rows) (loop_range rows) (Returns []).

(** The report of [backtest_vectorized]. *)
Record Stats := {
  total_trades : nat;
  win_count : nat;
  loss_count : nat;
  win_rate : Q;
  total_profit : Q;
  avg_win : Q;
  avg_loss : Q;
  profit_factor : Q;
  max_win : Q;
  max_loss : Q;
  avg_candles_held : Q;
  total_return_pct : Q;
  trades : list Trade;
  total_bullish_hammers : nat;
  total_bearish_hammers : nat;
  total_bullish_buy_signals : nat;
  total_bearish_sell_signals : nat;
  buy_trades : nat;
  sell_trades : nat;
  buy_wins : nat;
  sell_wins : nat
}.

Definition is_winner (t : Trade) : bool := Num.gtb (t_profit t) 0.
Definition is_loser (t : Trade) : bool := Num.leb (t_profit t) 0.
Definition is_buy (t : Trade) : bool :=
  match t_type t with BUY => true | SELL => false end.
Definition is_sell (t : Trade) : bool :=
  match t_type t with BUY => false | SELL => true end.

Definition count_true {A} (f : A -> bool) (xs : list A) : nat :=
  length (List.filter f xs).

Definition Qnat (n : nat) : Q := inject_Z (Z.of_nat n).

(** The statistics block, reached with a non-empty [trades] list.  The
    two percentage fields divide by the entry price; where that is zero
    the source yields a non-finite float, which no statement below reads. *)
Definition compute_stats (rows : list Row) (trades_df : list Trade) : Stats :=
  let winners := List.filter is_winner trades_df in
  let losers := List.filter is_loser trades_df in
  let buy_trades_df := List.filter is_buy trades_df in
  let sell_trades_df := List.filter is_sell trades_df in
  let n_buy_wins := length (List.filter is_winner buy_trades_df) in
  let n_sell_wins := length (List.filter is_winner sell_trades_df) in
  let n_win := length winners in
  let n_loss := length losers in
  let n_total := length trades_df in
  let rate := if (0 <? n_total)%nat then (Qnat n_win / Qnat n_total) * 100 else 0 in
  let profit_sum := Num.sum (map t_profit trades_df) in
  let mean_win := if (0 <? length winners)%nat then Num.mean (map t_profit winners) else 0 in
  let mean_loss :=
    if (0 <? length losers)%nat then Qabs (Num.mean (map t_profit losers)) else 0 in
  let pf :=
    if (0 <? length losers)%nat && negb (Qeq_bool (Num.sum (map t_profit losers)) 0)
    then Num.sum (map t_profit winners) / Qabs (Num.sum (map t_profit losers))
    else 0 in
  let worst := if (0 <? length losers)%nat then Num.minimum (map t_profit losers) else 0 in
  let best := if (0 <? length winners)%nat then Num.maximum (map t_profit winners) else 0 in
  let avg_candles := Num.mean (map (fun t => inject_Z (t_candles_held t)) trades_df) in
  let ret := (profit_sum / (Num.sum (map t_entry_price trades_df) / Qnat n_total)) * 100 in
  {| total_trades := n_total;
     win_count := n_win;
     loss_count := n_loss;
     win_rate := rate;
     total_profit := profit_sum;
     avg_win := mean_win;
     avg_loss := mean_loss;
     profit_factor := pf;
     max_win := best;
     max_loss := worst;
     avg_candles_held := avg_candles;
     total_return_pct := ret;
     trades := trades_df;
     total_bullish_hammers := count_true is_bullish rows;
     total_bearish_hammers := count_true is_bearish rows;
     total_bullish_buy_signals := count_true buy_signal rows;
     total_bearish_sell_signals := count_true sell_signal rows;
     buy_trades := length buy_trades_df;
     sell_trades := length sell_trades_df;
     buy_wins := n_buy_wins;
     sell_wins := n_sell_wins |}.

(** [backtest_vectorized(df, use_atr)]: raises when a required column is
    missing or when a trade exits on a label that occurs more than once;
    returns the empty dict ([None]) when no trade was generated, the
    report otherwise. *)
Definition backtest_vectorized (df : DataFrame) (use_atr : bool)
  : Result (option Stats) :=
  if negb (has_required_cols df) then Raises ValueError
  else
    let rows := with_indicators (candles df) in
    match run_loop use_atr rows with
    | Raises e => Raises e
    | Returns trades_list =>
        match trades_list with
        | [] => Returns None
        | _ :: _ => Returns (Some (compute_stats rows trades_list))
        end
    end.

End CheckAccuracy.

(** ** [optimize_fixed.py]: the multiple-based backtest *)

Module OptimizeFixed.
Import Indicators Engine.

Definition is_bearish_hammer (row : Candle)
    (max_lower_shadow_factor min_upper_shadow_ratio : Q) : bool :=
  let o := c_open row in
  let h := c_high row in
  let l := c_low row in
  let c := c_close row in
  if Num.geb c o then false
  else
    let body := o - c in
    let upper_shadow := h - o in
    let lower_shadow := c - l in
    if Num.gtb lower_shadow (max_lower_shadow_factor * body) then false
    else if Num.ltb upper_shadow (min_upper_shadow_ratio * body) then false
    else true.

Definition is_bullish_hammer (row : Candle)
    (max_upper_shadow_factor min_lower_shadow_ratio : Q) : bool :=
  let o := c_open row in
  let h := c_high row in
  let l := c_low row in
  let c := c_close row in
  if Num.leb c o then false
  else
    let body := c - o in
    let upper_shadow := h - c in
    let lower_shadow := o - l in
    if Num.gtb upper_shadow (max_upper_shadow_factor * body) then false
    else if Num.ltb lower_shadow (min_lower_shadow_ratio * body) then false
    else true.

Record Trade := {
  t_type : Side;
  t_entry : Q;
  t_profit : Q;
  t_hit_tp : bool
}.

(** The report dict; the last three keys are absent from the report of a
    run without trades. *)
Record Stats := {
  total_trades : nat;
  win_rate : Q;
  profit_factor : ExtQ;
  total_return : Q;
  avg_win : Q;
  avg_loss : Q;
  total_profit : option Q;
  winners : option nat;
  losers : option nat
}.

Section Params.
Variables buy_sl_mult buy_tp_mult sell_sl_mult sell_tp_mult : Q.

(** The [if row["buy_signal"]] branch; [None] covers both [continue] on a
    non-positive ATR and a scan that finds no exit. *)
Definition buy_trade (rows : list Row) (i : nat) (row : Row) : option Trade :=
  let entry := r_close row in
  if atr_positive (atr row) then
    let a := atr_value (atr row) in
    let sl := entry - (buy_sl_mult * a) in
    let tp := entry + (buy_tp_mult * a) in
    match scan_buy tp sl (future_data rows i) with
    | None => None
    | Some (exit_idx, hit_tp) =>
        let profit := if hit_tp then buy_tp_mult * a else - (buy_sl_mult * a) in
        Some {| t_type := BUY; t_entry := entry; t_profit := profit; t_hit_tp := hit_tp |}
    end
  else None.

Definition sell_trade (rows : list Row) (i : nat) (row : Row) : option Trade :=
  let entry := r_close row in
  if atr_positive (atr row) then
    let a := atr_value (atr row) in
    let sl := entry + (sell_sl_mult * a) in
    let tp := entry - (sell_tp_mult * a) in
    match scan_sell tp sl (future_data rows i) with
    | None => None
    | Some (exit_idx, hit_tp) =>
        let profit := if hit_tp then sell_tp_mult * a else - (sell_sl_mult * a) in
        Some {| t_type := SELL; t_entry := entry; t_profit := profit; t_hit_tp := hit_tp |}
    end
  else None.

Definition trade_at (rows : list Row) (i : nat) : option Trade :=
  match rows !! i with
  | None => None
  | Some row =>
      if buy_signal row then buy_trade rows i row
      else if sell_signal row then sell_trade rows i row
      else None
  end.

Definition append_trade (rows : list Row) (trades : list Trade) (i : nat) : list Trade :=
  match trade_at rows i with
  | Some t => trades ++ [t]
  | None => trades
  end.

Definition extract_trades (rows : list Row) : list Trade :=
  fold_left (append_trade rows) (seq 100 (length rows - 100)) [].

End Params.

Definition is_winner (t : Trade) : bool := Num.gtb (t_profit t) 0.
Definition is_loser (t : Trade) : bool := Num.leb (t_profit t) 0.

Definition Qnat (n : nat) : Q := inject_Z (Z.of_nat n).

Definition empty_stats : Stats :=
  {| total_trades := 0; win_rate := 0; profit_factor := Finite 0; total_return := 0;
     avg_win := 0; avg_loss := 0;
     total_profit := None; winners := None; losers := None |}.

Definition compute_stats (trades_df : list Trade) : Stats :=
  let winners_df := List.filter is_winner trades_df in
  let losers_df := List.filter is_loser trades_df in
  let n_win := length winners_df in
  let n_total := length trades_df in
  let rate := if (0 <? n_total)%nat then (Qnat n_win / Qnat n_total) * 100 else 0 in
  let profit_sum := Num.sum (map t_profit trades_df) in
  let win_sum := Num.sum (map t_profit winners_df) in
  let loss_sum := Num.sum (map t_profit losers_df) in
  let pf :=
    if (0 <? length losers_df)%nat && negb (Qeq_bool loss_sum 0)
    then Finite (win_sum / Qabs loss_sum)
    else if Num.gtb profit_sum 0 then PosInf else Finite 0 in
  let ret :=
    if Num.gtb (Qabs loss_sum) 0 then (win_sum / Qabs loss_sum) * 100
    else if Num.gtb profit_sum 0 then 100 else 0 in
  let mean_win :=
    if (0 <? length winners_df)%nat then Num.mean (map t_profit winners_df) else 0 in
  let mean_loss :=
    if (0 <? length losers_df)%nat then Qabs (Num.mean (map t_profit losers_df)) else 0 in
  {| total_trades := n_total;
     win_rate := rate;
     profit_factor := pf;
     total_return := ret;
     avg_win := mean_win;
     avg_loss := mean_loss;
     total_profit := Some profit_sum;
     winners := Some (length winners_df);
     losers := Some (length losers_df) |}.

(** [backtest_with_params(df, buy_sl_mult, buy_tp_mult, sell_sl_mult,
    sell_tp_mult, max_lower_shadow, min_upper_shadow)].  Both classifiers
    receive the two thresholds positionally. *)
Definition backtest_with_params (df : DataFrame)
    (buy_sl_mult buy_tp_mult sell_sl_mult sell_tp_mult : Q)
    (max_lower_shadow min_upper_shadow : Q) : Result Stats :=
  if negb (has_required_cols df) then Raises ValueError
  else
    let rows :=
      annotate (fun row => is_bullish_hammer row max_lower_shadow min_upper_shadow)
               (fun row => is_bearish_hammer row max_lower_shadow min_upper_shadow)
               (candles df) in
    let trades_list :=
      extract_trades buy_sl_mult buy_tp_mult sell_sl_mult sell_tp_mult rows in
    match trades_list with
    | [] => Returns empty_stats
    | _ :: _ => Returns (compute_stats trades_list)
    end.

End OptimizeFixed.

(** ** [finalBot.py]: the live poller and its position table *)

Module FinalBot.
Import Indicators.

(** The fields of [OandaConfig] read by the polling loop. *)
Record OandaConfig := {
  units : Z;
  ema_fast : Z;
  ema_slow : Z;
  atr_period : nat;
  use_atr : bool;
  max_lower_shadow_factor : Q;
  min_upper_shadow_ratio : Q;
  buy_sl_mult : Q;
  buy_tp_mult : Q;
  sell_sl_mult : Q;
  sell_tp_mult : Q
}.

Definition CFG : OandaConfig :=
  {| units := 1;
     ema_fast := 9;
     ema_slow := 15;
     atr_period := 14;
     use_atr := true;
     max_lower_shadow_factor := 2 # 5;
     min_upper_shadow_ratio := 5 # 2;
     buy_sl_mult := 1;
     buy_tp_mult := 3 # 2;
     sell_sl_mult := 3 # 2;
     sell_tp_mult := 3 |}.

Definition INSTRUMENT_PRECISION : gmap string Z :=
  <["BTC_USD" := 2%Z]> (<["XAU_USD" := 3%Z]> ∅).

(** A value of the global [active_positions] dict. *)
Record Position := {
  p_type : Side;
  p_entry : Q;
  p_timestamp : Q
}.

Definition get_position_key (instrument timeframe : string) : string :=
  (instrument ++ "_" ++ timeframe)%string.

Definition has_active_position (active_positions : gmap string Position)
    (instrument timeframe : string) : bool :=
  let key := get_position_key instrument timeframe in
  bool_decide (is_Some (active_positions !! key)).

Definition add_active_position (active_positions : gmap string Position)
    (instrument timeframe : string) (trade_type : Side) (entry_price now : Q)
  : gmap string Position :=
  let key := get_position_key instrument timeframe in
  <[key := {| p_type := trade_type; p_entry := entry_price; p_timestamp := now |}]>
    active_positions.

Definition remove_active_position (active_positions : gmap string Position)
    (instrument timeframe : string) : gmap string Position :=
  let key := get_position_key instrument timeframe in
  if bool_decide (is_Some (active_positions !! key))
  then delete key active_positions
  else active_positions.

(** [calculate_atr(df, period)]: the ATR of the last row, 0.0 on a frame
    shorter than [period + 1], 1.0 when the value is not positive. *)
Definition calculate_atr (cs : list Candle) (period : nat) : Q :=
  if (length cs <? period + 1)%nat then 0
  else
    match rolling_mean_at period (true_range cs) (length cs - 1) with
    | Some a => if Num.gtb a 0 then a else 1
    | None => 1
    end.

(** Python [round(x, ndigits)] for [ndigits >= 0]: to the nearest multiple
    of [10^-ndigits], ties to the even one. *)
Definition py_round (x : Q) (ndigits : Z) : Q :=
  let scale := inject_Z (10 ^ ndigits) in
  let y := x * scale in
  let f := Qfloor y in
  let frac := y - inject_Z f in
  let n :=
    if Num.ltb frac (1 # 2) then f
    else if Num.gtb frac (1 # 2) then (f + 1)%Z
    else if Z.even f then f else (f + 1)%Z in
  inject_Z n / scale.

Definition calculate_dynamic_sl_tp (entry a : Q) (precision : Z) (trade_type : Side)
  : Q * Q * Q * Q :=
  match trade_type with
  | BUY =>
      let sl_distance := py_round (buy_sl_mult CFG * a) precision in
      let tp_distance := py_round (buy_tp_mult CFG * a) precision in
      let sl_price := py_round (entry - sl_distance) precision in
      let tp_price := py_round (entry + tp_distance) precision in
      (sl_price, tp_price, sl_distance, tp_distance)
  | SELL =>
      let sl_distance := py_round (sell_sl_mult CFG * a) precision in
      let tp_distance := py_round (sell_tp_mult CFG * a) precision in
      let sl_price := py_round (entry + sl_distance) precision in
      let tp_price := py_round (entry - tp_distance) precision in
      (sl_price, tp_price, sl_distance, tp_distance)
  end.

(** A row returned by [fetch_ohlc]. *)
Record LiveCandle := {
  lc_candle : Candle;
  lc_complete : bool
}.

(** A row after [compute_emas]. *)
Record Row := {
  candle : Candle;
  emas : Emas
}.

Definition compute_emas (cs : list Candle) (fast_period slow_period : Z) : list Row :=
  zip_with (fun c e => {| candle := c; emas := e |})
           cs (Indicators.compute_emas cs fast_period slow_period).

Definition is_bearish_hammer (row : Row) : bool :=
  let o := c_open (candle row) in
  let h := c_high (candle row) in
  let l := c_low (candle row) in
  let c := c_close (candle row) in
  if Num.geb c o then false
  else
    let body := o - c in
    if Num.ltb body (1 # 10000) then false
    else
      let upper_shadow := h - o in
      let lower_shadow := c - l in
      if Num.gtb lower_shadow (max_lower_shadow_factor CFG * body) then false
      else if Num.ltb upper_shadow (min_upper_shadow_ratio CFG * body) then false
      else true.

Definition is_bullish_hammer (row : Row) : bool :=
  let o := c_open (candle row) in
  let h := c_high (candle row) in
  let l := c_low (candle row) in
  let c := c_close (candle row) in
  if Num.leb c o then false
  else
    let body := c - o in
    if Num.ltb body (1 # 10000) then false
    else
      let upper_shadow := h - c in
      let lower_shadow := o - l in
      if Num.gtb upper_shadow (max_lower_shadow_factor CFG * body) then false
      else if Num.ltb lower_shadow (min_upper_shadow_ratio CFG * body) then false
      else true.

Definition is_uptrend (row : Row) : bool :=
  Num.gtb (c_close (candle row)) (EMA_lower (emas row)).

Definition is_downtrend (row : Row) : bool :=
  Num.ltb (c_close (candle row)) (EMA_upper (emas row)).

(** The market order posted to the broker. *)
Record Order := {
  o_side : Side;
  o_units : Z;
  o_instrument : string;
  o_stop_loss : Q;
  o_take_profit : Q
}.

(** What the outside world supplies to one pass of the loop: the result of
    [fetch_ohlc] ([None] when it raises), the HTTP status answering a
    posted order ([None] when the request raises) and [time.time()]. *)
Record Poll := {
  fetched : option (list LiveCandle);
  post_status : option Z;
  clock : Q
}.

(** The local [last_time] of a poller and the global dict. *)
Record LoopState := {
  last_time : option Z;
  active_positions : gmap string Position
}.

(** What one pass did at the broker. *)
Inductive Event :=
  | Idle
  | Posted (o : Order) (accepted : bool).

(** The common body of the two order functions: round the levels, post the
    order, and record the position only on status 201. *)
Definition place_market_order (side : Side) (instrument : string) (n : Z)
    (sl_price tp_price entry : Q) (timeframe : string)
    (positions : gmap string Position) (p : Poll)
  : gmap string Position * Event :=
  let precision := default 2%Z (INSTRUMENT_PRECISION !! instrument) in
  let sl_price := py_round sl_price precision in
  let tp_price := py_round tp_price precision in
  let order :=
    {| o_side := side;
       o_units := match side with BUY => n | SELL => (- n)%Z end;
       o_instrument := instrument;
       o_stop_loss := sl_price;
       o_take_profit := tp_price |} in
  match post_status p with
  | Some 201%Z =>
      (add_active_position positions instrument timeframe side entry (clock p),
       Posted order true)
  | _ => (positions, Posted order false)
  end.

Definition place_market_buy_with_sl_tp (instrument : string) (n : Z)
    (sl_price tp_price entry : Q) (timeframe : string)
    (positions : gmap string Position) (p : Poll)
  : gmap string Position * Event :=
  place_market_order BUY instrument n sl_price tp_price entry timeframe positions p.

Definition place_market_sell_with_sl_tp (instrument : string) (n : Z)
    (sl_price tp_price entry : Q) (timeframe : string)
    (positions : gmap string Position) (p : Poll)
  : gmap string Position * Event :=
  place_market_order SELL instrument n sl_price tp_price entry timeframe positions p.

Definition set_last_time (st : LoopState) (t : Z) : LoopState :=
  {| last_time := Some t; active_positions := active_positions st |}.

Definition set_positions (st : LoopState) (m : gmap string Position) : LoopState :=
  {| last_time := last_time st; active_positions := m |}.

(** One pass through the body of [while True] in
    [run_for_instrument_and_timeframe]. *)
Definition iteration (instrument timeframe : string) (st : LoopState) (p : Poll)
  : LoopState * Event :=
  let precision := default 2%Z (INSTRUMENT_PRECISION !! instrument) in
  match fetched p with
  | None => (st, Idle)
  | Some df =>
      if (length df =? 0)%nat || (Z.of_nat (length df) <? ema_slow CFG + 1)%Z
      then (st, Idle)
      else
        let df := List.filter lc_complete df in
        if (length df =? 0)%nat then (st, Idle)
        else
          let cs := map lc_candle df in
          let rows := compute_emas cs (ema_fast CFG) (ema_slow CFG) in
          match List.last (map Some rows) None with
          | None => (st, Idle)
          | Some last =>
              let time_stamp := c_time (candle last) in
              if bool_decide (last_time st = Some time_stamp) then (st, Idle)
              else
                let st := set_last_time st time_stamp in
                let a := if use_atr CFG then calculate_atr cs (atr_period CFG) else 1 in
                if has_active_position (active_positions st) instrument timeframe
                then (st, Idle)
                else if is_bearish_hammer last && is_downtrend last then
                  let entry := c_close (candle last) in
                  let '(sl_price, tp_price, _, _) :=
                    calculate_dynamic_sl_tp entry a precision SELL in
                  if Num.leb sl_price entry && Num.ltb tp_price entry then
                    let '(m, ev) :=
                      place_market_sell_with_sl_tp instrument (units CFG) sl_price
                        tp_price entry timeframe (active_positions st) p in
                    (set_positions st m, ev)
                  else (st, Idle)
                else if is_bullish_hammer last && is_uptrend last then
                  let entry := c_close (candle last) in
                  let '(sl_price, tp_price, _, _) :=
                    calculate_dynamic_sl_tp entry a precision BUY in
                  if Num.ltb sl_price entry && Num.gtb tp_price entry then
                    let '(m, ev) :=
                      place_market_buy_with_sl_tp instrument (units CFG) sl_price
                        tp_price entry timeframe (active_positions st) p in
                    (set_positions st m, ev)
                  else (st, Idle)
                else (st, Idle)
          end
  end.

(** [run_for_instrument_and_timeframe] over a finite prefix of its endless
    loop, one pass per poll: the state reached and the events in order. *)
Fixpoint run_for_instrument_and_timeframe (instrument timeframe : string)
    (st : LoopState) (polls : list Poll) : LoopState * list Event :=
  match polls with
  | [] => (st, [])
  | p :: rest =>
      let '(st1, ev) := iteration instrument timeframe st p in
      let '(st2, evs) := run_for_instrument_and_timeframe instrument timeframe st1 rest in
      (st2, ev :: evs)
  end.

Definition accepted (ev : Event) : bool :=
  match ev with
  | Posted _ true => true
  | _ => false
  end.

End FinalBot.

(** ** [check_accuracy.py]: the readiness check over the data files *)

Module AccuracyCheck.

(** What [pd.read_csv(filename, parse_dates=["time"], index_col="time")]
    can do: raise [FileNotFoundError], raise something else, or return a
    frame indexed by time. *)
Inductive ReadResult :=
| FileNotFoundError
| OtherError
| Frame (df : DataFrame).

Definition test_files : list (string * string) :=
  [("BTC_USD_M5.csv", "BTC_USD M5"); ("XAU_USD_M5.csv", "XAU_USD M5")]%string.

(** [df[["open", "high", "low", "close", "volume"]]]: [None] is the
    [KeyError] for a missing column. *)
Definition select_columns (df : DataFrame) : option DataFrame :=
  if has_required_cols df
  then Some {| df_index := df_index df;
               df_cols := filter (fun kv => kv.1 ∈ required_cols) (df_cols df) |}
  else None.

(** The entry stored in [results[label]]. *)
Record Metrics := {
  win_rate : Q;
  profit_factor : Q;
  total_return : Q;
  total_trades : nat;
  buy_trades : nat;
  sell_trades : nat;
  buy_wins : nat;
  sell_wins : nat;
  avg_win : Q;
  avg_loss : Q;
  max_win : Q;
  max_loss : Q
}.

Definition metrics_of (stats : CheckAccuracy.Stats) : Metrics :=
  {| win_rate := CheckAccuracy.win_rate stats;
     profit_factor := CheckAccuracy.profit_factor stats;
     total_return := CheckAccuracy.total_return_pct stats;
     total_trades := CheckAccuracy.total_trades stats;
     buy_trades := CheckAccuracy.buy_trades stats;
     sell_trades := CheckAccuracy.sell_trades stats;
     buy_wins := CheckAccuracy.buy_wins stats;
     sell_wins := CheckAccuracy.sell_wins stats;
     avg_win := CheckAccuracy.avg_win stats;
     avg_loss := CheckAccuracy.avg_loss stats;
     max_win := CheckAccuracy.max_win stats;
     max_loss := CheckAccuracy.max_loss stats |}.

(** [results[label] = ...] on a dict kept in insertion order: an existing
    key keeps its place and takes the new value. *)
Fixpoint dict_set (d : list (string * Metrics)) (k : string) (v : Metrics)
  : list (string * Metrics) :=
  match d with
  | [] => [(k, v)]
  | (k', v') :: r =>
      if bool_decide (k' = k) then (k', v) :: r else (k', v') :: dict_set r k v
  end.

(** The counters the first loop updates, beside [results]. *)
Record Tally := {
  results : list (string * Metrics);
  n_tested : nat;
  n_failed : nat
}.

Record TotalStats := {
  total_files : nat;
  files_passed : nat;
  files_failed : nat;
  avg_win_rate : Q;
  avg_profit_factor : Q;
  avg_return : Q
}.

Inductive Verdict := READY | NOT_READY.

Section Files.
Variable read_csv : string -> ReadResult.

(** The body of the [try] block up to the report: [None] stands for every
    path that ends in [files_failed += 1], that is an exception of the
    read, of the column selection or of the backtest, or the empty report. *)
Definition report_of (filename : string) : option Metrics :=
  match read_csv filename with
  | FileNotFoundError => None
  | OtherError => None
  | Frame df =>
      match select_columns df with
      | None => None
      | Some df' =>
          match CheckAccuracy.backtest_vectorized df' true with
          | Raises _ => None
          | Returns None => None
          | Returns (Some stats) => Some (metrics_of stats)
          end
      end
  end.

(** One round of [for filename, label in test_files]. *)
Definition load_file (t : Tally) (file : string * string) : Tally :=
  let '(filename, label) := file in
  match report_of filename with
  | None =>
      {| results := results t; n_tested := n_tested t; n_failed := S (n_failed t) |}
  | Some metrics =>
      {| results := dict_set (results t) label metrics;
         n_tested := S (n_tested t);
         n_failed := n_failed t |}
  end.

Definition load_all (files : list (string * string)) : Tally :=
  fold_left load_file files {| results := []; n_tested := 0; n_failed := 0 |}.

(** [passes_win_rate and passes_pf and passes_return] *)
Definition passes (metrics : Metrics) : bool :=
  Num.geb (win_rate metrics) 55
  && Num.geb (profit_factor metrics) (3 # 2)
  && Num.gtb (total_return metrics) 0.

(** One round of [for label, metrics in results.items()], on the pair
    [(all_ready, passed_count)]. *)
Definition judge (acc : bool * nat) (item : string * Metrics) : bool * nat :=
  let '(all_ready, passed_count) := acc in
  if passes item.2 then (all_ready, S passed_count) else (false, passed_count).

Definition judge_all (rs : list (string * Metrics)) : bool * nat :=
  fold_left judge rs (true, 0%nat).

Definition average (f : Metrics -> Q) (rs : list (string * Metrics)) : Q :=
  Num.sum (map (fun r => f r.2) rs) / inject_Z (Z.of_nat (length rs)).

(** [check_accuracy()] over a list of files: the summary counters and the
    banner that is printed. *)
Definition check_files (files : list (string * string)) : TotalStats * Verdict :=
  let t := load_all files in
  let '(all_ready, passed_count) := judge_all (results t) in
  let total_stats :=
    match results t with
    | [] =>
        {| total_files := n_tested t; files_passed := 0; files_failed := n_failed t;
           avg_win_rate := 0; avg_profit_factor := 0; avg_return := 0 |}
    | _ :: _ =>
        {| total_files := n_tested t; files_passed := passed_count;
           files_failed := n_failed t;
           avg_win_rate := average win_rate (results t);
           avg_profit_factor := average profit_factor (results t);
           avg_return := average total_return (results t) |}
    end in
  (total_stats,
   if all_ready && (files_passed total_stats =? total_files total_stats)%nat
   then READY else NOT_READY).

Definition check_accuracy : TotalStats * Verdict := check_files test_files.

End Files.

End AccuracyCheck.

(** ** [optimize_fixed.py]: the mark printed beside a result *)

Module Optimizer.

(** [x >= y] for a profit factor that may be [float('inf')]. *)
Definition ext_geb (x : ExtQ) (y : Q) : bool :=
  match x with
  | PosInf => true
  | Finite q => Num.geb q y
  end.

(** [r["win_rate"] >= 55 and r["profit_factor"] >= 1.5] in the report
    loop of [optimize_strategy_fixed]. *)
Definition ready (r : OptimizeFixed.Stats) : bool :=
  Num.geb (OptimizeFixed.win_rate r) 55 && ext_geb (OptimizeFixed.profit_factor r) (3 # 2).

End Optimizer.

(** ** Specification vocabulary *)

Module Spec.
Import Engine.

(** Touch conditions of a future row, per direction. *)
Definition take_touch (side : Side) (tp : Q) (r : Row) : Prop :=
  match side with
  | BUY => tp <= r_high r
  | SELL => r_low r <= tp
  end.

Definition stop_touch (side : Side) (sl : Q) (r : Row) : Prop :=
  match side with
  | BUY => r_low r <= sl
  | SELL => sl <= r_high r
  end.

Definition touch (side : Side) (tp sl : Q) (r : Row) : Prop :=
  take_touch side tp r \/ stop_touch side sl r.

(** Row [r] sits at offset [k] of [future] and is the first one, in index
    order, that touches a level. *)
Definition first_touch (side : Side) (tp sl : Q) (future : list Row)
    (k : nat) (r : Row) : Prop :=
  future !! k = Some r /\
  touch side tp sl r /\
  forall j r', (j < k)%nat -> future !! j = Some r' -> ~ touch side tp sl r'.

(** The scan of the given direction. *)
Definition scan (side : Side) : Q -> Q -> list Row -> option (Z * bool) :=
  match side with
  | BUY => scan_buy
  | SELL => scan_sell
  end.

(** Which branch of the loop body a row takes: the buy branch is tested
    first, the sell branch only when there is no buy signal. *)
Definition signal (side : Side) (row : Row) : Prop :=
  match side with
  | BUY => buy_signal row = true
  | SELL => buy_signal row = false /\ sell_signal row = true
  end.

(** Stop and take levels of the price-based backtest, as [(sl, tp)]. *)
Definition levels (use_atr : bool) (side : Side) (entry : Q) (a : option Q) : Q * Q :=
  match side with
  | BUY => CheckAccuracy.buy_levels use_atr entry a
  | SELL => CheckAccuracy.sell_levels use_atr entry a
  end.

(** Stop and take levels of the multiple-based backtest, as [(sl, tp)]. *)
Definition levels_params (buy_sl buy_tp sell_sl sell_tp : Q)
    (side : Side) (entry : Q) (a : Q) : Q * Q :=
  match side with
  | BUY => (entry - buy_sl * a, entry + buy_tp * a)
  | SELL => (entry + sell_sl * a, entry - sell_tp * a)
  end.

(** The signed price move from entry to exit in the trade's direction. *)
Definition price_delta (side : Side) (entry exit_price : Q) : Q :=
  match side with
  | BUY => exit_price - entry
  | SELL => entry - exit_price
  end.

(** The candle invariant [low <= min(open, close) <= max(open, close) <= high]. *)
Definition well_formed (c : Candle) : Prop :=
  c_low c <= Qmin (c_open c) (c_close c) /\
  Qmax (c_open c) (c_close c) <= c_high c.

(** Index labels strictly increasing. *)
Fixpoint increasing (ts : list Z) : bool :=
  match ts with
  | [] => true
  | t :: r =>
      match r with
      | [] => true
      | u :: _ => (t <? u)%Z && increasing r
      end
  end.

(** The reference EMA recurrence, by position. *)
Fixpoint ema_ref (k : Q) (closes : list Q) (i : nat) : Q :=
  match i with
  | O => nth 0 closes 0
  | S j => nth i closes 0 * k + ema_ref k closes j * (1 - k)
  end.

(** An ATR cell that is undefined (window not filled) or not positive. *)
Definition atr_unusable (a : option Q) : Prop :=
  match a with
  | Some v => v <= 0
  | None => True
  end.

(** The fixed offsets the price-based backtest falls back to, as [(sl, tp)]. *)
Definition fixed_levels (side : Side) (entry : Q) : Q * Q :=
  match side with
  | BUY => (entry - 5, entry + 10)
  | SELL => (entry + 10, entry - 20)
  end.

(** Win and loss counts of a report partition its trades, and the win
    rate is the winners' share in percent. *)
Definition counts_consistent (st : CheckAccuracy.Stats) : Prop :=
  CheckAccuracy.total_trades st = length (CheckAccuracy.trades st) /\
  (0 < CheckAccuracy.total_trades st)%nat /\
  CheckAccuracy.win_count st
    = length (List.filter (fun t => Num.gtb (CheckAccuracy.t_profit t) 0)
                          (CheckAccuracy.trades st)) /\
  CheckAccuracy.loss_count st
    = length (List.filter (fun t => Num.leb (CheckAccuracy.t_profit t) 0)
                          (CheckAccuracy.trades st)) /\
  (CheckAccuracy.win_count st + CheckAccuracy.loss_count st
   = CheckAccuracy.total_trades st)%nat /\
  CheckAccuracy.win_rate st
    == (inject_Z (Z.of_nat (CheckAccuracy.win_count st))
        / inject_Z (Z.of_nat (CheckAccuracy.total_trades st))) * 100 /\
  0 <= CheckAccuracy.win_rate st <= 100.

(** No label occurs twice. *)
Fixpoint distinct (ts : list Z) : bool :=
  match ts with
  | [] => true
  | t :: r => negb (existsb (Z.eqb t) r) && distinct r
  end.

(** The number of trades with a profit above zero, and the number of
    those with a profit of zero or less. *)
Fixpoint count_wins (ts : list CheckAccuracy.Trade) : nat :=
  match ts with
  | [] => 0
  | t :: r =>
      if Qlt_le_dec 0 (CheckAccuracy.t_profit t) then S (count_wins r) else count_wins r
  end.

Fixpoint count_losses (ts : list CheckAccuracy.Trade) : nat :=
  match ts with
  | [] => 0
  | t :: r =>
      if Qlt_le_dec 0 (CheckAccuracy.t_profit t) then count_losses r else S (count_losses r)
  end.

(** The number of trades of a direction, and of its winners. *)
Definition has_side (side : Side) (t : CheckAccuracy.Trade) : bool :=
  match side, CheckAccuracy.t_type t with
  | BUY, BUY => true
  | SELL, SELL => true
  | _, _ => false
  end.

Fixpoint count_side (side : Side) (ts : list CheckAccuracy.Trade) : nat :=
  match ts with
  | [] => 0
  | t :: r => if has_side side t then S (count_side side r) else count_side side r
  end.

Fixpoint count_side_wins (side : Side) (ts : list CheckAccuracy.Trade) : nat :=
  match ts with
  | [] => 0
  | t :: r =>
      if has_side side t
      then (if Qlt_le_dec 0 (CheckAccuracy.t_profit t)
            then S (count_side_wins side r) else count_side_wins side r)
      else count_side_wins side r
  end.

(** Some required column is absent from the frame. *)
Definition missing_column (df : DataFrame) : Prop :=
  exists col, In col required_cols /\ df_cols df !! col = None.

End Spec.

(** ** Sample frames *)

Module Samples.

Definition flat (p : Q) (t : Z) : Candle :=
  {| c_time := t; c_open := p; c_high := p; c_low := p; c_close := p |}.

Definition bar (t : Z) (o h l c : Q) : Candle :=
  {| c_time := t; c_open := o; c_high := h; c_low := l; c_close := c |}.

(** A hundred motionless candles at price [p], labelled 0..99. *)
Definition warmup (p : Q) : list Candle :=
  map (fun i => flat p (Z.of_nat i)) (seq 0 100).

(** One bullish hammer at position 100, take-profit reached on the next
    candle, which closes above the entry. *)
Definition one_winner : list Candle :=
  warmup 100 ++ [bar 100 100 101 98 101; bar 101 101 102 101 102].

(** As above, but the exit candle spikes through the take level and
    closes below the entry. *)
Definition spike_then_drop : list Candle :=
  warmup 100 ++ [bar 100 100 101 98 101; bar 101 101 102 (1009 # 10) (1009 # 10)].

(** The exit candle spans both the take and the stop level. *)
Definition both_levels : list Candle :=
  warmup 100 ++ [bar 100 100 101 98 101; bar 101 101 102 100 101].

(** Two consecutive hammers; neither level of the first is reached before
    position 103. *)
Definition two_hammers : list Candle :=
  warmup 100 ++
  [bar 100 100 101 98 101;
   bar 101 (1011 # 10) (1012 # 10) (1009 # 10) (1012 # 10);
   flat (1012 # 10) 102;
   bar 103 (1012 # 10) 103 (1012 # 10) 103].

(** A motionless market followed by a candle whose open and close lie
    above its high: its true range, and the ATR over it, are zero. *)
Definition zero_atr_signal : list Candle :=
  warmup 5 ++ [bar 100 10 5 5 11; flat 21 101].


(** [one_winner] with the candle at position 50 labelled 49, like the one
    before it. *)
Definition repeated_label : list Candle :=
  map (fun c => if (c_time c =? 50)%Z then flat 100 49 else c) one_winner.

(** [one_winner] followed by a candle that repeats the label 101 of the
    exit candle. *)
Definition repeated_exit : list Candle :=
  one_winner ++ [flat 102 101].

(** A candle with [high < low] at position 100. *)
Definition inverted_candle : list Candle :=
  warmup 100 ++ [bar 100 100 97 98 101; bar 101 101 102 101 102].

(** [one_winner] with the labels running backwards, 101 down to 0. *)
Definition backwards : list Candle :=
  map (fun c => bar (101 - c_time c) (c_open c) (c_high c) (c_low c) (c_close c))
      one_winner.

(** A frame of one row without a volume column. *)
Definition no_volume : DataFrame :=
  {| df_index := [0%Z];
     df_cols :=
       <["open" := [10]]> (<["high" := [12]]> (<["low" := [9]]>
       (<["close" := [11]]> ∅))) |}.

(** A short series and a continuation of it. *)
Definition opening : list Candle :=
  [bar 0 10 12 9 11; bar 1 11 13 10 9; bar 2 9 10 8 10].

Definition continuation : list Candle :=
  [bar 3 10 14 10 13; bar 4 13 13 11 12].

(** A rising candle with a body of 0.00005 and a long lower shadow. *)
Definition doji : Candle :=
  bar 0 1 (20001 # 20000) (999 # 1000) (20001 # 20000).

(** The same candle as a row of the live frame. *)
Definition doji_row : FinalBot.Row :=
  {| FinalBot.candle := doji;
     FinalBot.emas := Indicators.mk_emas 1 1 |}.

(** What [fetch_ohlc] returns when fifteen motionless candles are followed
    by a completed bullish hammer; labels start at [t0]. *)
Definition live_frame (t0 : Z) : list FinalBot.LiveCandle :=
  map (fun c => {| FinalBot.lc_candle := c; FinalBot.lc_complete := true |})
      (map (fun i => flat 100 (t0 + Z.of_nat i)) (seq 0 15)
       ++ [bar (t0 + 15) 100 101 97 101]).

(** Two successive polls, each ending in a fresh hammer; the broker
    answers 201 to whatever is posted. *)
Definition first_poll : FinalBot.Poll :=
  {| FinalBot.fetched := Some (live_frame 0);
     FinalBot.post_status := Some 201%Z;
     FinalBot.clock := 1000 |}.

Definition second_poll : FinalBot.Poll :=
  {| FinalBot.fetched := Some (live_frame 1);
     FinalBot.post_status := Some 201%Z;
     FinalBot.clock := 1030 |}.

Definition fresh_poller : FinalBot.LoopState :=
  {| FinalBot.last_time := None; FinalBot.active_positions := ∅ |}.

End Samples.

(** ** Worked runs used as instances *)

Module Runs.
Import Engine.

Definition no_trade : CheckAccuracy.Trade :=
  {| CheckAccuracy.t_entry_time := 0; CheckAccuracy.t_entry_price := 0;
     CheckAccuracy.t_exit_time := 0; CheckAccuracy.t_exit_price := 0;
     CheckAccuracy.t_type := BUY; CheckAccuracy.t_profit := 0;
     CheckAccuracy.t_profit_pct := 0; CheckAccuracy.t_hit_tp := false;
     CheckAccuracy.t_sl := 0; CheckAccuracy.t_tp := 0;
     CheckAccuracy.t_candles_held := 0 |}.

Definition both_levels_rows : list Row :=
  CheckAccuracy.with_indicators Samples.both_levels.

(** The trade the loop body records at position 100 of [both_levels]. *)
Definition both_levels_trade : CheckAccuracy.Trade :=
  Eval vm_compute in
    default no_trade (CheckAccuracy.trade_at true both_levels_rows 100).

Definition no_row : Row :=
  mk_row (fun _ => false) (fun _ => false) (Samples.flat 0 0)
         (Indicators.mk_emas 0 0) None.

(** [rows.iloc[i]], [no_row] out of range. *)
Definition row_at (rows : list Row) (i : nat) : Row := default no_row (rows !! i).

(** The signal row of [both_levels], its ATR and the row after it. *)
Definition both_levels_signal : Row :=
  Eval vm_compute in row_at both_levels_rows 100.

Definition both_levels_atr : Q :=
  Eval vm_compute in atr_value (atr both_levels_signal).

Definition both_levels_exit : Row :=
  Eval vm_compute in row_at both_levels_rows 101.

Definition no_stats : CheckAccuracy.Stats := CheckAccuracy.compute_stats [] [].

(** The report of a price-based run over the given candles (with ATR
    sizing), [no_stats] when the run reports nothing. *)
Definition report_of (cs : list Candle) : CheckAccuracy.Stats :=
  match CheckAccuracy.backtest_vectorized (frame_of cs) true with
  | Returns (Some st) => st
  | _ => no_stats
  end.

Definition zero_atr_rows : list Row :=
  CheckAccuracy.with_indicators Samples.zero_atr_signal.

Definition zero_atr_row : Row :=
  Eval vm_compute in default no_row (zero_atr_rows !! 100%nat).

Definition zero_atr_trade : CheckAccuracy.Trade :=
  Eval vm_compute in
    default no_trade (CheckAccuracy.trade_at true zero_atr_rows 100).

Definition zero_atr_stats : CheckAccuracy.Stats :=
  Eval vm_compute in report_of Samples.zero_atr_signal.


Definition two_hammers_stats : CheckAccuracy.Stats :=
  Eval vm_compute in report_of Samples.two_hammers.

Definition two_hammers_first : CheckAccuracy.Trade :=
  Eval vm_compute in nth 0 (CheckAccuracy.trades two_hammers_stats) no_trade.

Definition two_hammers_second : CheckAccuracy.Trade :=
  Eval vm_compute in nth 1 (CheckAccuracy.trades two_hammers_stats) no_trade.

(** The poller for BTC_USD on M5 after its first poll. *)
Definition after_first_poll : FinalBot.LoopState :=
  fst (FinalBot.iteration "BTC_USD" "M5" Samples.fresh_poller Samples.first_poll).

Definition one_winner_stats : CheckAccuracy.Stats :=
  Eval vm_compute in report_of Samples.one_winner.

Definition one_winner_first : CheckAccuracy.Trade :=
  Eval vm_compute in nth 0 (CheckAccuracy.trades one_winner_stats) no_trade.

Definition repeated_label_stats : CheckAccuracy.Stats :=
  Eval vm_compute in report_of Samples.repeated_label.

(** The multiple-based run over [one_winner] with multiples 1, 2, 2, 4 and
    the default thresholds. *)
Definition one_winner_params_stats : OptimizeFixed.Stats :=
  Eval vm_compute in
    match OptimizeFixed.backtest_with_params (frame_of Samples.one_winner)
                                             1 2 2 4 (13 # 20) (3 # 2) with
    | Returns st => st
    | Raises _ => OptimizeFixed.empty_stats
    end.

Definition inverted_stats : CheckAccuracy.Stats :=
  Eval vm_compute in report_of Samples.inverted_candle.

Definition inverted_trade : CheckAccuracy.Trade :=
  Eval vm_compute in nth 0 (CheckAccuracy.trades inverted_stats) no_trade.

Definition backwards_stats : CheckAccuracy.Stats :=
  Eval vm_compute in report_of Samples.backwards.

Definition spike_rows : list Row :=
  CheckAccuracy.with_indicators Samples.spike_then_drop.

Definition spike_stats : CheckAccuracy.Stats :=
  Eval vm_compute in report_of Samples.spike_then_drop.

Definition spike_trade : CheckAccuracy.Trade :=
  Eval vm_compute in nth 0 (CheckAccuracy.trades spike_stats) no_trade.

End Runs.

(** ** Vocabulary for the further properties *)

Module Spec2.

(** No underscore occurs in the string. *)
Fixpoint no_underscore (s : string) : bool :=
  match s with
  | EmptyString => true
  | String c r => negb (Ascii.eqb c "_"%char) && no_underscore r
  end.

(** The row the poller decides on: the last completed candle of the
    fetched frame, with its EMAs. *)
Definition decision_row (df : list FinalBot.LiveCandle) : option FinalBot.Row :=
  List.last
    (map Some (FinalBot.compute_emas
                 (map FinalBot.lc_candle (List.filter FinalBot.lc_complete df))
                 (FinalBot.ema_fast FinalBot.CFG) (FinalBot.ema_slow FinalBot.CFG)))
    None.

(** The precision the poller uses for an instrument. *)
Definition precision_of (instrument : string) : Z :=
  default 2%Z (FinalBot.INSTRUMENT_PRECISION !! instrument).

(** The ATR the poller sizes its levels with. *)
Definition decision_atr (df : list FinalBot.LiveCandle) : Q :=
  if FinalBot.use_atr FinalBot.CFG
  then FinalBot.calculate_atr
         (map FinalBot.lc_candle (List.filter FinalBot.lc_complete df))
         (FinalBot.atr_period FinalBot.CFG)
  else 1.

(** The label of the candle a poll offers for a decision: absent when the
    fetch raised, when fewer than [ema_slow + 1] candles came back or when
    none of them is complete. *)
Definition offered_label (p : FinalBot.Poll) : option Z :=
  match FinalBot.fetched p with
  | None => None
  | Some df =>
      if (length df =? 0)%nat
         || (Z.of_nat (length df) <? FinalBot.ema_slow FinalBot.CFG + 1)%Z
      then None
      else option_map (fun row => c_time (FinalBot.candle row)) (decision_row df)
  end.

(** Where the stop and the take of a trade lie before rounding. *)
Definition stop_target (side : Side) (entry distance : Q) : Q :=
  match side with
  | BUY => entry - distance
  | SELL => entry + distance
  end.

Definition take_target (side : Side) (entry distance : Q) : Q :=
  match side with
  | BUY => entry + distance
  | SELL => entry - distance
  end.

(** The configured ATR multiples of a direction. *)
Definition sl_mult (side : Side) : Q :=
  match side with
  | BUY => FinalBot.buy_sl_mult FinalBot.CFG
  | SELL => FinalBot.sell_sl_mult FinalBot.CFG
  end.

Definition tp_mult (side : Side) : Q :=
  match side with
  | BUY => FinalBot.buy_tp_mult FinalBot.CFG
  | SELL => FinalBot.sell_tp_mult FinalBot.CFG
  end.

(** What both backtests record of a trade: direction, entry price and
    whether the take level was hit. *)
Definition outcome_of (t : CheckAccuracy.Trade) : Side * Q * bool :=
  (CheckAccuracy.t_type t, CheckAccuracy.t_entry_price t, CheckAccuracy.t_hit_tp t).

Definition params_outcome_of (t : OptimizeFixed.Trade) : Side * Q * bool :=
  (OptimizeFixed.t_type t, OptimizeFixed.t_entry t, OptimizeFixed.t_hit_tp t).

(** The profit the multiple-based backtest books for an exit. *)
Definition booked_profit (buy_sl buy_tp sell_sl sell_tp : Q)
    (side : Side) (hit_tp : bool) (a : Q) : Q :=
  match side, hit_tp with
  | BUY, true => buy_tp * a
  | BUY, false => - (buy_sl * a)
  | SELL, true => sell_tp * a
  | SELL, false => - (sell_sl * a)
  end.

(** The number of trades behind a report of either backtest; the
    rule-based one returns [None] and the multiple-based one the empty
    report when no trade was recorded. *)
Definition trades_reported (r : Result (option CheckAccuracy.Stats)) : option nat :=
  match r with
  | Raises _ => None
  | Returns None => Some 0%nat
  | Returns (Some st) => Some (CheckAccuracy.total_trades st)
  end.

Definition params_trades_reported (r : Result OptimizeFixed.Stats) : option nat :=
  match r with
  | Raises _ => None
  | Returns st => Some (OptimizeFixed.total_trades st)
  end.

(** [Spec.well_formed] as a test. *)
Definition well_formedb (c : Candle) : bool :=
  Qle_bool (c_low c) (Qmin (c_open c) (c_close c))
  && Qle_bool (Qmax (c_open c) (c_close c)) (c_high c).

(** The reports of the files that yield one, under their labels and in
    file order. *)
Definition reports (read_csv : string -> AccuracyCheck.ReadResult)
    (files : list (string * string)) : list (string * AccuracyCheck.Metrics) :=
  omap (fun file => option_map (fun m => (file.2, m))
                               (AccuracyCheck.report_of read_csv file.1)) files.

End Spec2.

(** ** Further sample inputs *)

Module Samples2.

(** Fifteen incomplete candles followed by one completed hammer. *)
Definition lone_frame : list FinalBot.LiveCandle :=
  map (fun i => {| FinalBot.lc_candle := Samples.flat 100 (Z.of_nat i);
                   FinalBot.lc_complete := false |}) (seq 0 15)
  ++ [{| FinalBot.lc_candle := Samples.bar 15 100 101 97 101;
         FinalBot.lc_complete := true |}].

Definition lone_poll : FinalBot.Poll :=
  {| FinalBot.fetched := Some lone_frame;
     FinalBot.post_status := Some 201%Z;
     FinalBot.clock := 1000 |}.

(** A reader that finds no file, and one that returns the same candles
    for every file. *)
Definition no_files : string -> AccuracyCheck.ReadResult :=
  fun _ => AccuracyCheck.FileNotFoundError.

Definition always (cs : list Candle) : string -> AccuracyCheck.ReadResult :=
  fun _ => AccuracyCheck.Frame (frame_of cs).

End Samples2.

(** ** Further worked runs *)

Module Runs2.

Definition no_order : FinalBot.Order :=
  {| FinalBot.o_side := BUY; FinalBot.o_units := 0; FinalBot.o_instrument := "";
     FinalBot.o_stop_loss := 0; FinalBot.o_take_profit := 0 |}.

(** The order posted by the first poll of a fresh poller for BTC_USD on M5. *)
Definition first_order : FinalBot.Order :=
  Eval vm_compute in
    match snd (FinalBot.iteration "BTC_USD" "M5" Samples.fresh_poller
                                  Samples.first_poll) with
    | FinalBot.Posted o _ => o
    | FinalBot.Idle => no_order
    end.

(** The EMA columns on the last row of [opening]. *)
Definition opening_last_emas : Indicators.Emas :=
  Eval vm_compute in
    default (Indicators.mk_emas 0 0)
            (Indicators.compute_emas Samples.opening 9 15 !! 2%nat).

Definition one_winner_rows : list Engine.Row :=
  CheckAccuracy.with_indicators Samples.one_winner.

Definition no_params_trade : OptimizeFixed.Trade :=
  {| OptimizeFixed.t_type := BUY; OptimizeFixed.t_entry := 0;
     OptimizeFixed.t_profit := 0; OptimizeFixed.t_hit_tp := false |}.

(** The trade the multiple-based loop body records at position 100 of
    [one_winner] with multiples 1, 2, 2, 4. *)
Definition one_winner_params_trade : OptimizeFixed.Trade :=
  Eval vm_compute in
    default no_params_trade (OptimizeFixed.trade_at 1 2 2 4 one_winner_rows 100).

End Runs2.

(** ** Evaluations on small inputs *)

Module Checks.
Import Indicators.

Example ewm_mean_three :
  map Qred (ewm_mean 9 [11; 9; 10]) = [11; 53 # 5; 262 # 25].
Proof. vm_compute. reflexivity. Qed.

Example emas_of_opening :
  map (fun e => (Qred (EMA_fast e), Qred (EMA_slow e)))
      (compute_emas Samples.opening 9 15)
  = [(11, 11); (53 # 5, 43 # 4); (262 # 25, 341 # 32)].
Proof. vm_compute. reflexivity. Qed.

Example true_range_of_opening :
  map Qred (true_range Samples.opening) = [3; 3; 2].
Proof. vm_compute. reflexivity. Qed.

Example atr_of_opening :
  map (option_map Qred) (calculate_atr Samples.opening 2) = [None; Some 3; Some (5 # 2)].
Proof. vm_compute. reflexivity. Qed.

Example strict_bearish_hammer :
  OptimizeFixed.is_bearish_hammer (Samples.bar 1 11 13 10 9) (1 # 2) 1 = true.
Proof. vm_compute. reflexivity. Qed.

Example py_round_ties_to_even :
  map Qred [FinalBot.py_round (5 # 2) 0; FinalBot.py_round (7 # 2) 0;
            FinalBot.py_round (2 # 7) 2; FinalBot.py_round (- (5 # 2)) 0]
  = [2; 4; 29 # 100; -2].
Proof. vm_compute. reflexivity. Qed.

Example live_atr_of_first_poll :
  Qred (FinalBot.calculate_atr (map FinalBot.lc_candle (Samples.live_frame 0)) 14)
  = 2 # 7.
Proof. vm_compute. reflexivity. Qed.

Example first_poll_posts_buy :
  match snd (FinalBot.iteration "BTC_USD" "M5" Samples.fresh_poller Samples.first_poll) with
  | FinalBot.Posted o ok =>
      Some (FinalBot.o_side o, Qred (FinalBot.o_stop_loss o),
            Qred (FinalBot.o_take_profit o), ok)
  | FinalBot.Idle => None
  end
  = Some (BUY, 10071 # 100, 10143 # 100, true).
Proof. vm_compute. reflexivity. Qed.

Example one_winner_trade :
  CheckAccuracy.trades Runs.one_winner_stats
  = [ {| CheckAccuracy.t_entry_time := 100;
         CheckAccuracy.t_entry_price := 101;
         CheckAccuracy.t_exit_time := 101;
         CheckAccuracy.t_exit_price := 102;
         CheckAccuracy.t_type := BUY;
         CheckAccuracy.t_profit := 1;
         CheckAccuracy.t_profit_pct := 100 # 101;
         CheckAccuracy.t_hit_tp := true;
         CheckAccuracy.t_sl := 1411 # 14;
         CheckAccuracy.t_tp := 1420 # 14;
         CheckAccuracy.t_candles_held := 1 |} ].
Proof. vm_compute. reflexivity. Qed.

(** In [both_levels] the exit row reaches the take level and the stop
    level alike; the trade is recorded as a take-profit. *)
Example both_levels_is_take_profit :
  CheckAccuracy.t_hit_tp Runs.both_levels_trade = true /\
  CheckAccuracy.t_exit_time Runs.both_levels_trade = 101%Z /\
  Spec.take_touch BUY (CheckAccuracy.t_tp Runs.both_levels_trade)
                  (Runs.row_at Runs.both_levels_rows 101) /\
  Spec.stop_touch BUY (CheckAccuracy.t_sl Runs.both_levels_trade)
                  (Runs.row_at Runs.both_levels_rows 101).
Proof. repeat split; vm_compute; try reflexivity; discriminate. Qed.

(** With no row after the signal the scan finds no exit and no trade is
    recorded. *)
Example signal_on_last_row :
  CheckAccuracy.trade_at true Runs.both_levels_rows 101 = None /\
  CheckAccuracy.extract_trades true (take 101 Runs.both_levels_rows) = [].
Proof. split; vm_compute; reflexivity. Qed.

End Checks.

(** ** Facts about comparisons *)

Module NumFacts.

Lemma leb_le x y : Num.leb x y = true <-> x <= y.
Proof. apply Qle_bool_iff. Qed.

Lemma ltb_lt x y : Num.ltb x y = true <-> x < y.
Proof.
  unfold Num.ltb. rewrite negb_true_iff. split.
  - intros H. apply Qnot_le_lt. intros Hle.
    apply Qle_bool_iff in Hle. congruence.
  - intros H. destruct (Qle_bool y x) eqn:E; [|reflexivity].
    apply Qle_bool_iff in E. exfalso. apply (Qlt_not_le _ _ H E).
Qed.

Lemma leb_gt x y : Num.leb x y = false <-> y < x.
Proof.
  rewrite <- ltb_lt. unfold Num.ltb, Num.leb.
  destruct (Qle_bool x y); simpl; split; congruence.
Qed.

Lemma ltb_ge x y : Num.ltb x y = false <-> y <= x.
Proof.
  rewrite <- leb_le. unfold Num.ltb, Num.leb.
  destruct (Qle_bool y x); simpl; split; congruence.
Qed.

Lemma geb_ge x y : Num.geb x y = true <-> y <= x.
Proof. apply leb_le. Qed.

Lemma geb_lt x y : Num.geb x y = false <-> x < y.
Proof. apply leb_gt. Qed.

Lemma gtb_gt x y : Num.gtb x y = true <-> y < x.
Proof. apply ltb_lt. Qed.

Lemma gtb_le x y : Num.gtb x y = false <-> x <= y.
Proof. apply ltb_ge. Qed.

(** A trade is a winner or a loser, never both. *)
Lemma gtb_leb_negb x : Num.leb x 0 = negb (Num.gtb x 0).
Proof.
  unfold Num.gtb, Num.ltb. now rewrite negb_involutive.
Qed.

End NumFacts.

Ltac bool_to_prop :=
  repeat match goal with
  | H : Num.leb _ _ = true |- _ => apply NumFacts.leb_le in H
  | H : Num.leb _ _ = false |- _ => apply NumFacts.leb_gt in H
  | H : Num.ltb _ _ = true |- _ => apply NumFacts.ltb_lt in H
  | H : Num.ltb _ _ = false |- _ => apply NumFacts.ltb_ge in H
  | H : Num.geb _ _ = true |- _ => apply NumFacts.geb_ge in H
  | H : Num.geb _ _ = false |- _ => apply NumFacts.geb_lt in H
  | H : Num.gtb _ _ = true |- _ => apply NumFacts.gtb_gt in H
  | H : Num.gtb _ _ = false |- _ => apply NumFacts.gtb_le in H
  end.

(** ** Facts about the forward scan *)

Module ScanFacts.
Import Engine Spec.

Lemma future_data_lookup (rows : list Row) (i k : nat) :
  (k < 99)%nat -> future_data rows i !! k = rows !! (S i + k)%nat.
Proof.
  intros Hk. unfold future_data.
  change (firstn 99) with (@take Row 99). change (skipn (S i)) with (@drop Row (S i)).
  rewrite lookup_take_lt by lia. now rewrite lookup_drop.
Qed.

Lemma future_data_length (rows : list Row) (i : nat) :
  (length (future_data rows i) <= 99)%nat.
Proof. unfold future_data. rewrite length_firstn. lia. Qed.

Lemma future_data_bound (rows : list Row) (i k : nat) (r : Row) :
  future_data rows i !! k = Some r -> (k < 99)%nat /\ rows !! (S i + k)%nat = Some r.
Proof.
  intros H. assert (Hk : (k < 99)%nat).
  { apply lookup_lt_Some in H. pose proof (future_data_length rows i). lia. }
  split; [exact Hk|]. now rewrite <- future_data_lookup.
Qed.

(** Soundness: a scan that reports an exit reports the first touching row,
    and [hit_tp] says whether that row touches the take level. *)
Lemma scan_sound (side : Side) (tp sl : Q) (future : list Row) (ts : Z) (b : bool) :
  scan side tp sl future = Some (ts, b) ->
  exists k r, first_touch side tp sl future k r /\ ts = r_time r /\
              (b = true <-> take_touch side tp r).
Proof.
  induction future as [|x rest IH]; intros H.
  - destruct side; discriminate.
  - assert (Hstep :
      (take_touch side tp x /\ ts = r_time x /\ b = true) \/
      (~ take_touch side tp x /\ stop_touch side sl x /\ ts = r_time x /\ b = false) \/
      (~ touch side tp sl x /\ scan side tp sl rest = Some (ts, b))).
    { destruct side; simpl in H.
      - destruct (Num.geb (r_high x) tp) eqn:E1.
        + left. bool_to_prop. inversion H; subst. simpl. auto.
        + destruct (Num.leb (r_low x) sl) eqn:E2.
          * right; left. bool_to_prop. inversion H; subst. simpl.
            repeat split; auto. intros Hc. apply (Qlt_not_le _ _ E1 Hc).
          * right; right. bool_to_prop. split; [|exact H].
            intros [Hc|Hc]; simpl in Hc.
            -- apply (Qlt_not_le _ _ E1 Hc).
            -- apply (Qlt_not_le _ _ E2 Hc).
      - destruct (Num.leb (r_low x) tp) eqn:E1.
        + left. bool_to_prop. inversion H; subst. simpl. auto.
        + destruct (Num.geb (r_high x) sl) eqn:E2.
          * right; left. bool_to_prop. inversion H; subst. simpl.
            repeat split; auto. intros Hc. apply (Qlt_not_le _ _ E1 Hc).
          * right; right. bool_to_prop. split; [|exact H].
            intros [Hc|Hc]; simpl in Hc.
            -- apply (Qlt_not_le _ _ E1 Hc).
            -- apply (Qlt_not_le _ _ E2 Hc). }
    destruct Hstep as [(Ht & -> & ->) | [(Hn & Hs & -> & ->) | (Hn & Hr)]].
    + exists 0%nat, x. split; [|split].
      * split; [reflexivity|]. split; [left; exact Ht|].
        intros j r' Hj. lia.
      * reflexivity.
      * tauto.
    + exists 0%nat, x. split; [|split].
      * split; [reflexivity|]. split; [right; exact Hs|].
        intros j r' Hj. lia.
      * reflexivity.
      * split; [discriminate | intros Ht; contradiction].
    + destruct (IH Hr) as (k & r & (Hk & Ht & Hfirst) & Hts & Hb).
      exists (S k), r. split; [|split].
      * split; [exact Hk|]. split; [exact Ht|].
        intros [|j] r' Hj Hl; simpl in Hl.
        -- inversion Hl; subst. exact Hn.
        -- apply (Hfirst j r'); [lia | exact Hl].
      * exact Hts.
      * exact Hb.
Qed.

(** Completeness: whenever some row of the window touches a level, the
    scan reports the first such row. *)
Lemma scan_complete (side : Side) (tp sl : Q) (future : list Row) (k : nat) (r : Row) :
  first_touch side tp sl future k r ->
  exists b, scan side tp sl future = Some (r_time r, b) /\
            (b = true <-> take_touch side tp r).
Proof.
  revert k. induction future as [|x rest IH]; intros k (Hk & Ht & Hfirst).
  - discriminate.
  - destruct k as [|k]; simpl in Hk.
    + inversion Hk; subst x. clear Hk Hfirst IH.
      destruct side; simpl in *.
      * destruct (Num.geb (r_high r) tp) eqn:E1.
        -- exists true. bool_to_prop. tauto.
        -- destruct (Num.leb (r_low r) sl) eqn:E2.
           ++ exists false. bool_to_prop. split; [reflexivity|].
              split; [discriminate|]. intros Hc. exfalso. apply (Qlt_not_le _ _ E1 Hc).
           ++ bool_to_prop. exfalso. destruct Ht as [Hc|Hc]; simpl in Hc.
              ** apply (Qlt_not_le _ _ E1 Hc).
              ** apply (Qlt_not_le _ _ E2 Hc).
      * destruct (Num.leb (r_low r) tp) eqn:E1.
        -- exists true. bool_to_prop. tauto.
        -- destruct (Num.geb (r_high r) sl) eqn:E2.
           ++ exists false. bool_to_prop. split; [reflexivity|].
              split; [discriminate|]. intros Hc. exfalso. apply (Qlt_not_le _ _ E1 Hc).
           ++ bool_to_prop. exfalso. destruct Ht as [Hc|Hc]; simpl in Hc.
              ** apply (Qlt_not_le _ _ E1 Hc).
              ** apply (Qlt_not_le _ _ E2 Hc).
    + assert (Hx : ~ touch side tp sl x).
      { apply (Hfirst 0%nat x); [lia | reflexivity]. }
      destruct (IH k) as (b & Hscan & Hb).
      { split; [exact Hk|]. split; [exact Ht|].
        intros j r' Hj Hl. apply (Hfirst (S j) r'); [lia | exact Hl]. }
      exists b. split; [|exact Hb].
      destruct side; simpl in *.
      * destruct (Num.geb (r_high x) tp) eqn:E1.
        { bool_to_prop. exfalso. apply Hx. left. exact E1. }
        destruct (Num.leb (r_low x) sl) eqn:E2.
        { bool_to_prop. exfalso. apply Hx. right. exact E2. }
        exact Hscan.
      * destruct (Num.leb (r_low x) tp) eqn:E1.
        { bool_to_prop. exfalso. apply Hx. left. exact E1. }
        destruct (Num.geb (r_high x) sl) eqn:E2.
        { bool_to_prop. exfalso. apply Hx. right. exact E2. }
        exact Hscan.
Qed.

(** No exit is reported exactly when no row of the window touches. *)
Lemma scan_none (side : Side) (tp sl : Q) (future : list Row) :
  scan side tp sl future = None <->
  forall k r, future !! k = Some r -> ~ touch side tp sl r.
Proof.
  split.
  - intros Hnone. induction future as [|x rest IH]; intros k r Hk.
    + discriminate.
    + assert (Hx : ~ touch side tp sl x /\ scan side tp sl rest = None).
      { destruct side; simpl in Hnone.
        - destruct (Num.geb (r_high x) tp) eqn:E1; [discriminate|].
          destruct (Num.leb (r_low x) sl) eqn:E2; [discriminate|].
          bool_to_prop. split; [|exact Hnone].
          intros [Hc|Hc]; simpl in Hc.
          + apply (Qlt_not_le _ _ E1 Hc).
          + apply (Qlt_not_le _ _ E2 Hc).
        - destruct (Num.leb (r_low x) tp) eqn:E1; [discriminate|].
          destruct (Num.geb (r_high x) sl) eqn:E2; [discriminate|].
          bool_to_prop. split; [|exact Hnone].
          intros [Hc|Hc]; simpl in Hc.
          + apply (Qlt_not_le _ _ E1 Hc).
          + apply (Qlt_not_le _ _ E2 Hc). }
      destruct Hx as [Hx Hrest]. destruct k as [|k]; simpl in Hk.
      * inversion Hk; subst. exact Hx.
      * apply (IH Hrest k r Hk).
  - intros Hall. destruct (scan side tp sl future) as [[ts b]|] eqn:E; [|reflexivity].
    apply scan_sound in E. destruct E as (k & r & (Hk & Ht & _) & _).
    exfalso. apply (Hall k r Hk Ht).
Qed.

End ScanFacts.

(** ** Facts about the trade loops *)

Module LoopFacts.
Import Engine Spec.

(** A loop that appends what each iteration yields collects exactly the
    yields, in order. *)
Lemma fold_append_omap {A B} (f : A -> option B) (l : list A) (acc : list B) :
  fold_left (fun out i => match f i with Some t => out ++ [t] | None => out end) l acc
  = acc ++ omap f l.
Proof.
  revert acc. induction l as [|i l IH]; intros acc; simpl.
  - now rewrite app_nil_r.
  - rewrite IH. destruct (f i); [|reflexivity].
    now rewrite <- app_assoc.
Qed.

Lemma extract_trades_omap use_atr rows :
  CheckAccuracy.extract_trades use_atr rows
  = omap (CheckAccuracy.trade_at use_atr rows) (CheckAccuracy.loop_range rows).
Proof.
  unfold CheckAccuracy.extract_trades, CheckAccuracy.append_trade.
  now rewrite fold_append_omap.
Qed.

Lemma extract_trades_params_omap bs bt ss st rows :
  OptimizeFixed.extract_trades bs bt ss st rows
  = omap (OptimizeFixed.trade_at bs bt ss st rows) (seq 100 (length rows - 100)).
Proof.
  unfold OptimizeFixed.extract_trades, OptimizeFixed.append_trade.
  now rewrite fold_append_omap.
Qed.

Lemma elem_of_loop_range rows i :
  i ∈ CheckAccuracy.loop_range rows <-> (100 <= i < length rows)%nat.
Proof.
  unfold CheckAccuracy.loop_range. rewrite elem_of_seq. lia.
Qed.



(** *** Label lookups *)

Lemma distinct_not_later (rows : list Row) (x r : Row) (j : nat) :
  negb (existsb (Z.eqb (r_time x)) (map r_time rows)) = true ->
  rows !! j = Some r -> r_time x <> r_time r.
Proof.
  intros Hne Hj Heq. apply negb_true_iff in Hne.
  assert (Hex : existsb (Z.eqb (r_time x)) (map r_time rows) = true).
  { apply existsb_exists. exists (r_time r). split.
    - apply in_map. apply list_elem_of_In, list_elem_of_lookup. eauto.
    - now apply Z.eqb_eq. }
  congruence.
Qed.

Lemma matches_from_none (rows : list Row) (label : Z) : forall pos,
  existsb (Z.eqb label) (map r_time rows) = false ->
  CheckAccuracy.matches_from pos rows label = [].
Proof.
  induction rows as [|x rest IH]; intros pos H; [reflexivity|].
  simpl in H. apply orb_false_iff in H. destruct H as [Hx Hrest].
  simpl. unfold CheckAccuracy.has_label. rewrite Z.eqb_sym, Hx. now apply IH.
Qed.

(** With distinct labels, a row is the only match of its own label. *)
Lemma matches_from_distinct (rows : list Row) : forall pos j r,
  distinct (map r_time rows) = true ->
  rows !! j = Some r ->
  CheckAccuracy.matches_from pos rows (r_time r) = [((pos + j)%nat, r)].
Proof.
  induction rows as [|x rest IH]; intros pos j r Hd Hj; [discriminate|].
  simpl in Hd. apply andb_true_iff in Hd. destruct Hd as [Hx Hrest].
  destruct j as [|j]; simpl in Hj.
  - inversion Hj; subst x. simpl. unfold CheckAccuracy.has_label. rewrite Z.eqb_refl.
    rewrite matches_from_none by now apply negb_true_iff.
    now rewrite Nat.add_0_r.
  - pose proof (distinct_not_later rest x r j Hx Hj) as Hne.
    simpl. unfold CheckAccuracy.has_label.
    destruct (Z.eqb_spec (r_time x) (r_time r)) as [Heq|_]; [contradiction|].
    rewrite (IH (S pos) j r Hrest Hj). do 2 f_equal. lia.
Qed.

(** With distinct labels, looking a row up by its label finds that row. *)
Lemma loc_unique (rows : list Row) (j : nat) (r : Row) :
  distinct (map r_time rows) = true ->
  rows !! j = Some r ->
  CheckAccuracy.loc_close rows (r_time r) = Some (r_close r) /\
  CheckAccuracy.get_loc rows (r_time r) = CheckAccuracy.Position j.
Proof.
  intros Hd Hj. unfold CheckAccuracy.loc_close, CheckAccuracy.get_loc, CheckAccuracy.matches.
  rewrite (matches_from_distinct rows 0 j r Hd Hj). auto.
Qed.

(** The label a scan stops at is the label of a row of the frame. *)
Lemma scan_label (side : Side) (tp sl : Q) (rows : list Row) (i : nat) (ts : Z) (b : bool) :
  scan side tp sl (future_data rows i) = Some (ts, b) ->
  exists k r, (k < 99)%nat /\ rows !! (S i + k)%nat = Some r /\ ts = r_time r.
Proof.
  intros H. destruct (ScanFacts.scan_sound _ _ _ _ _ _ H) as (k & r & Hfirst & Hts & _).
  destruct (ScanFacts.future_data_bound rows i k r (proj1 Hfirst)) as [Hk Hr].
  eauto.
Qed.

(** *** The loop body *)

Lemma trade_at_body use_atr rows i t :
  CheckAccuracy.trade_at use_atr rows i = Some t <->
  CheckAccuracy.loop_body use_atr rows i = Returns (Some t).
Proof.
  unfold CheckAccuracy.trade_at.
  destruct (CheckAccuracy.loop_body use_atr rows i) as [e|o]; split; intros H;
    try discriminate; congruence.
Qed.

(** Everything the price-based loop body records in a trade. *)
Lemma trade_at_inv use_atr rows i t :
  CheckAccuracy.trade_at use_atr rows i = Some t ->
  exists row,
    rows !! i = Some row /\
    signal (CheckAccuracy.t_type t) row /\
    (CheckAccuracy.t_sl t, CheckAccuracy.t_tp t)
      = levels use_atr (CheckAccuracy.t_type t) (r_close row) (atr row) /\
    scan (CheckAccuracy.t_type t) (CheckAccuracy.t_tp t) (CheckAccuracy.t_sl t)
         (future_data rows i)
      = Some (CheckAccuracy.t_exit_time t, CheckAccuracy.t_hit_tp t) /\
    CheckAccuracy.t_entry_time t = r_time row /\
    CheckAccuracy.t_entry_price t = r_close row /\
    CheckAccuracy.loc_close rows (CheckAccuracy.t_exit_time t)
      = Some (CheckAccuracy.t_exit_price t) /\
    CheckAccuracy.t_profit t
      = (match CheckAccuracy.t_type t, CheckAccuracy.t_hit_tp t with
         | BUY, true => CheckAccuracy.t_exit_price t - CheckAccuracy.t_entry_price t
         | BUY, false => - (CheckAccuracy.t_entry_price t - CheckAccuracy.t_exit_price t)
         | SELL, true => CheckAccuracy.t_entry_price t - CheckAccuracy.t_exit_price t
         | SELL, false => - (CheckAccuracy.t_exit_price t - CheckAccuracy.t_entry_price t)
         end) /\
    exists exit_pos,
      CheckAccuracy.get_loc rows (CheckAccuracy.t_exit_time t)
        = CheckAccuracy.Position exit_pos /\
      CheckAccuracy.t_candles_held t = (Z.of_nat exit_pos - Z.of_nat i)%Z.
Proof.
  intros H. apply trade_at_body in H. unfold CheckAccuracy.loop_body in H.
  destruct (rows !! i) as [row|] eqn:Hrow; [|discriminate].
  exists row. split; [reflexivity|].
  destruct (buy_signal row) eqn:Hb.
  - unfold CheckAccuracy.buy_trade in H.
    destruct (CheckAccuracy.buy_levels use_atr (r_close row) (atr row)) as [sl tp] eqn:Hl.
    destruct (scan_buy tp sl (future_data rows i)) as [[ts b]|] eqn:Hs; [|discriminate].
    destruct (CheckAccuracy.loc_close rows ts) as [p|] eqn:Hp;
      destruct (CheckAccuracy.get_loc rows ts) as [pos| |] eqn:Hg; try discriminate.
    inversion H; subst t; clear H; simpl.
    rewrite Hl. destruct b; repeat split; eauto.
  - destruct (sell_signal row) eqn:Hsell; [|discriminate].
    unfold CheckAccuracy.sell_trade in H.
    destruct (CheckAccuracy.sell_levels use_atr (r_close row) (atr row)) as [sl tp] eqn:Hl.
    destruct (scan_sell tp sl (future_data rows i)) as [[ts b]|] eqn:Hs; [|discriminate].
    destruct (CheckAccuracy.loc_close rows ts) as [p|] eqn:Hp;
      destruct (CheckAccuracy.get_loc rows ts) as [pos| |] eqn:Hg; try discriminate.
    inversion H; subst t; clear H; simpl.
    rewrite Hl. destruct b; repeat split; eauto.
Qed.

(** On a frame with distinct labels, a signal row whose window holds an
    exit yields a trade. *)
Lemma trade_at_intro use_atr rows i row side sl tp ts b :
  distinct (map r_time rows) = true ->
  rows !! i = Some row ->
  signal side row ->
  levels use_atr side (r_close row) (atr row) = (sl, tp) ->
  scan side tp sl (future_data rows i) = Some (ts, b) ->
  exists t, CheckAccuracy.trade_at use_atr rows i = Some t /\
            CheckAccuracy.t_type t = side /\
            CheckAccuracy.t_sl t = sl /\ CheckAccuracy.t_tp t = tp /\
            CheckAccuracy.t_exit_time t = ts /\ CheckAccuracy.t_hit_tp t = b.
Proof.
  intros Hd Hrow Hsig Hl Hs.
  destruct (scan_label _ _ _ _ _ _ _ Hs) as (k & r & _ & Hr & ->).
  destruct (loc_unique rows _ r Hd Hr) as [Hp Hg].
  unfold CheckAccuracy.trade_at, CheckAccuracy.loop_body. rewrite Hrow.
  destruct side; simpl in Hsig, Hl, Hs.
  - rewrite Hsig. unfold CheckAccuracy.buy_trade. rewrite Hl, Hs, Hp, Hg.
    eexists. split; [reflexivity|]. simpl. auto.
  - destruct Hsig as [Hb Hsell]. rewrite Hb, Hsell.
    unfold CheckAccuracy.sell_trade. rewrite Hl, Hs, Hp, Hg.
    eexists. split; [reflexivity|]. simpl. auto.
Qed.

(** On a frame with distinct labels no iteration raises. *)
Lemma loop_body_distinct use_atr rows i :
  distinct (map r_time rows) = true ->
  CheckAccuracy.loop_body use_atr rows i
  = Returns (CheckAccuracy.trade_at use_atr rows i).
Proof.
  intros Hd. unfold CheckAccuracy.trade_at.
  destruct (CheckAccuracy.loop_body use_atr rows i) as [e|o] eqn:E; [|reflexivity].
  exfalso. unfold CheckAccuracy.loop_body in E.
  destruct (rows !! i) as [row|]; [|discriminate].
  destruct (buy_signal row).
  - unfold CheckAccuracy.buy_trade in E.
    destruct (CheckAccuracy.buy_levels use_atr (r_close row) (atr row)) as [sl tp].
    destruct (scan_buy tp sl (future_data rows i)) as [[ts b]|] eqn:Hs; [|discriminate].
    destruct (scan_label BUY _ _ _ _ _ _ Hs) as (k & r & _ & Hr & ->).
    destruct (loc_unique rows _ r Hd Hr) as [Hp Hg].
    rewrite Hp, Hg in E. discriminate.
  - destruct (sell_signal row); [|discriminate].
    unfold CheckAccuracy.sell_trade in E.
    destruct (CheckAccuracy.sell_levels use_atr (r_close row) (atr row)) as [sl tp].
    destruct (scan_sell tp sl (future_data rows i)) as [[ts b]|] eqn:Hs; [|discriminate].
    destruct (scan_label SELL _ _ _ _ _ _ Hs) as (k & r & _ & Hr & ->).
    destruct (loc_unique rows _ r Hd Hr) as [Hp Hg].
    rewrite Hp, Hg in E. discriminate.
Qed.

(** An iteration without a row after it appends nothing and does not
    raise. *)
Lemma loop_body_last use_atr rows i :
  (length rows <= S i)%nat -> CheckAccuracy.loop_body use_atr rows i = Returns None.
Proof.
  intros Hlen. unfold CheckAccuracy.loop_body.
  assert (Hf : future_data rows i = []).
  { unfold future_data. change (skipn (S i)) with (@drop Row (S i)).
    now rewrite drop_ge. }
  destruct (rows !! i) as [row|]; [|reflexivity].
  destruct (buy_signal row).
  - unfold CheckAccuracy.buy_trade. rewrite Hf.
    destruct (CheckAccuracy.buy_levels _ _ _). reflexivity.
  - destruct (sell_signal row); [|reflexivity].
    unfold CheckAccuracy.sell_trade. rewrite Hf.
    destruct (CheckAccuracy.sell_levels _ _ _). reflexivity.
Qed.

(** *** The loop *)

Lemma step_raises use_atr rows (l : list nat) (e : Exception) :
  fold_left (CheckAccuracy.step use_atr rows) l (Raises e) = Raises e.
Proof. induction l as [|i l IH]; simpl; [reflexivity | exact IH]. Qed.

(** A loop that returns leaves the records its iterations appended. *)
Lemma step_returns use_atr rows (l : list nat) : forall acc ts,
  fold_left (CheckAccuracy.step use_atr rows) l (Returns acc) = Returns ts ->
  ts = fold_left (CheckAccuracy.append_trade use_atr rows) l acc.
Proof.
  induction l as [|i l IH]; intros acc ts H; simpl in *; [congruence|].
  unfold CheckAccuracy.append_trade at 2. unfold CheckAccuracy.trade_at.
  destruct (CheckAccuracy.loop_body use_atr rows i) as [e|[t|]].
  - rewrite step_raises in H. discriminate.
  - now apply IH.
  - now apply IH.
Qed.

(** A loop none of whose iterations raises returns. *)
Lemma step_total use_atr rows (l : list nat) : forall acc,
  (forall i, i ∈ l ->
     CheckAccuracy.loop_body use_atr rows i
     = Returns (CheckAccuracy.trade_at use_atr rows i)) ->
  fold_left (CheckAccuracy.step use_atr rows) l (Returns acc)
  = Returns (fold_left (CheckAccuracy.append_trade use_atr rows) l acc).
Proof.
  induction l as [|i l IH]; intros acc H; simpl; [reflexivity|].
  rewrite (H i) by apply list_elem_of_here.
  unfold CheckAccuracy.append_trade at 2.
  destruct (CheckAccuracy.trade_at use_atr rows i);
    apply IH; intros j Hj; apply H; now apply list_elem_of_further.
Qed.

Lemma run_loop_returns use_atr rows ts :
  CheckAccuracy.run_loop use_atr rows = Returns ts ->
  ts = CheckAccuracy.extract_trades use_atr rows.
Proof. apply step_returns. Qed.

Lemma run_loop_total use_atr rows :
  (forall i, (100 <= i < length rows)%nat ->
     CheckAccuracy.loop_body use_atr rows i
     = Returns (CheckAccuracy.trade_at use_atr rows i)) ->
  CheckAccuracy.run_loop use_atr rows
  = Returns (CheckAccuracy.extract_trades use_atr rows).
Proof.
  intros H. apply step_total. intros i Hi. apply H. now apply elem_of_loop_range.
Qed.

Lemma run_loop_distinct use_atr rows :
  distinct (map r_time rows) = true ->
  CheckAccuracy.run_loop use_atr rows
  = Returns (CheckAccuracy.extract_trades use_atr rows).
Proof. intros Hd. apply run_loop_total. intros i _. now apply loop_body_distinct. Qed.

(** What a returned report is made of. *)
Lemma backtest_returns df use_atr o :
  CheckAccuracy.backtest_vectorized df use_atr = Returns o ->
  has_required_cols df = true /\
  CheckAccuracy.run_loop use_atr (CheckAccuracy.with_indicators (candles df))
  = Returns (CheckAccuracy.extract_trades use_atr
               (CheckAccuracy.with_indicators (candles df))) /\
  o = match CheckAccuracy.extract_trades use_atr
              (CheckAccuracy.with_indicators (candles df)) with
      | [] => None
      | t :: ts =>
          Some (CheckAccuracy.compute_stats
                  (CheckAccuracy.with_indicators (candles df)) (t :: ts))
      end.
Proof.
  unfold CheckAccuracy.backtest_vectorized. intros H.
  destruct (has_required_cols df); [|discriminate]. cbn [negb] in H. cbv zeta in H.
  destruct (CheckAccuracy.run_loop use_atr _) as [e|ts] eqn:E; [discriminate|].
  pose proof (run_loop_returns _ _ _ E) as Hts. subst ts.
  split; [reflexivity|]. split; [reflexivity|].
  destruct (CheckAccuracy.extract_trades use_atr _); congruence.
Qed.

(** The report of a loop that does not raise. *)
Lemma backtest_of_loop df use_atr :
  has_required_cols df = true ->
  CheckAccuracy.run_loop use_atr (CheckAccuracy.with_indicators (candles df))
  = Returns (CheckAccuracy.extract_trades use_atr
               (CheckAccuracy.with_indicators (candles df))) ->
  CheckAccuracy.backtest_vectorized df use_atr
  = Returns (match CheckAccuracy.extract_trades use_atr
                     (CheckAccuracy.with_indicators (candles df)) with
             | [] => None
             | t :: ts =>
                 Some (CheckAccuracy.compute_stats
                         (CheckAccuracy.with_indicators (candles df)) (t :: ts))
             end).
Proof.
  intros Hcols Hrun. unfold CheckAccuracy.backtest_vectorized.
  rewrite Hcols. cbn [negb]. cbv zeta. rewrite Hrun.
  destruct (CheckAccuracy.extract_trades use_atr _); reflexivity.
Qed.

(** A signal row of the multiple-based loop with a positive ATR whose
    window holds an exit yields a trade. *)
Lemma trade_at_params_intro bs bt ss st rows i row side a sl tp ts b :
  rows !! i = Some row ->
  signal side row ->
  atr row = Some a -> 0 < a ->
  levels_params bs bt ss st side (r_close row) a = (sl, tp) ->
  scan side tp sl (future_data rows i) = Some (ts, b) ->
  exists t, OptimizeFixed.trade_at bs bt ss st rows i = Some t /\
            OptimizeFixed.t_type t = side /\
            OptimizeFixed.t_entry t = r_close row /\
            OptimizeFixed.t_hit_tp t = b.
Proof.
  intros Hrow Hsig Ha Hpos Hl Hs. unfold OptimizeFixed.trade_at. rewrite Hrow.
  assert (Hp : atr_positive (atr row) = true).
  { rewrite Ha. simpl. now apply NumFacts.gtb_gt. }
  destruct side; simpl in Hsig, Hl, Hs; inversion Hl; subst sl tp; clear Hl.
  - rewrite Hsig. unfold OptimizeFixed.buy_trade. rewrite Hp, Ha. simpl.
    simpl in Hs. rewrite Hs. eexists. split; [reflexivity|]. simpl. auto.
  - destruct Hsig as [Hb Hsell]. rewrite Hb, Hsell.
    unfold OptimizeFixed.sell_trade. rewrite Hp, Ha. simpl.
    simpl in Hs. rewrite Hs. eexists. split; [reflexivity|]. simpl. auto.
Qed.

(** Everything the multiple-based loop body records in a trade. *)
Lemma trade_at_params_inv bs bt ss st rows i t :
  OptimizeFixed.trade_at bs bt ss st rows i = Some t ->
  exists row a sl tp ts,
    rows !! i = Some row /\
    signal (OptimizeFixed.t_type t) row /\
    atr row = Some a /\ 0 < a /\
    levels_params bs bt ss st (OptimizeFixed.t_type t) (r_close row) a = (sl, tp) /\
    scan (OptimizeFixed.t_type t) tp sl (future_data rows i)
      = Some (ts, OptimizeFixed.t_hit_tp t) /\
    OptimizeFixed.t_entry t = r_close row.
Proof.
  unfold OptimizeFixed.trade_at. intros H.
  destruct (rows !! i) as [row|] eqn:Hrow; [|discriminate].
  exists row.
  destruct (buy_signal row) eqn:Hb.
  - unfold OptimizeFixed.buy_trade in H.
    destruct (atr row) as [a|] eqn:Ha; simpl in H; [|discriminate].
    destruct (Num.gtb a 0) eqn:Hpos; [|discriminate].
    destruct (scan_buy _ _ (future_data rows i)) as [[ts b]|] eqn:Hs; [|discriminate].
    inversion H; subst t; clear H; simpl.
    exists a. eexists. eexists. exists ts. bool_to_prop.
    repeat split; auto.
  - destruct (sell_signal row) eqn:Hsell; [|discriminate].
    unfold OptimizeFixed.sell_trade in H.
    destruct (atr row) as [a|] eqn:Ha; simpl in H; [|discriminate].
    destruct (Num.gtb a 0) eqn:Hpos; [|discriminate].
    destruct (scan_sell _ _ (future_data rows i)) as [[ts b]|] eqn:Hs; [|discriminate].
    inversion H; subst t; clear H; simpl.
    exists a. eexists. eexists. exists ts. bool_to_prop.
    repeat split; auto.
Qed.

End LoopFacts.

(** ** The forward scan decides the outcome *)

(** C1.  A trade recorded for the signal at position [i] exits at the first
    row, in index order, of the window [rows[i+1 .. i+99]] at which the take
    level or the stop level is touched (BUY: [high >= tp] or [low <= sl];
    SELL: [low <= tp] or [high >= sl]); [hit_tp] holds exactly when that
    row touches the take level, whether or not it also touches the stop
    level.  This holds in the price-based backtest (first part) and in the
    multiple-based one (second part).  Conversely a signal whose window
    holds such a first row yields the trade with that outcome: in the
    price-based backtest on a frame with distinct labels (third part), in
    the multiple-based one on a signal row with a positive ATR (fourth
    part). *)
Theorem first_touch_decides_outcome :
  (forall use_atr rows i t,
     CheckAccuracy.trade_at use_atr rows i = Some t ->
     exists k r,
       (k < 99)%nat /\ rows !! (S i + k)%nat = Some r /\
       Spec.first_touch (CheckAccuracy.t_type t) (CheckAccuracy.t_tp t)
                        (CheckAccuracy.t_sl t) (Engine.future_data rows i) k r /\
       CheckAccuracy.t_exit_time t = Engine.r_time r /\
       (CheckAccuracy.t_hit_tp t = true <->
        Spec.take_touch (CheckAccuracy.t_type t) (CheckAccuracy.t_tp t) r)) /\
  (forall bs bt ss st rows i t,
     OptimizeFixed.trade_at bs bt ss st rows i = Some t ->
     exists row a sl tp k r,
       rows !! i = Some row /\ Engine.atr row = Some a /\
       Spec.levels_params bs bt ss st (OptimizeFixed.t_type t) (Engine.r_close row) a
         = (sl, tp) /\
       (k < 99)%nat /\ rows !! (S i + k)%nat = Some r /\
       Spec.first_touch (OptimizeFixed.t_type t) tp sl (Engine.future_data rows i) k r /\
       (OptimizeFixed.t_hit_tp t = true <->
        Spec.take_touch (OptimizeFixed.t_type t) tp r)) /\
  (forall use_atr rows i row side sl tp k r,
     Spec.distinct (map Engine.r_time rows) = true ->
     rows !! i = Some row ->
     Spec.signal side row ->
     Spec.levels use_atr side (Engine.r_close row) (Engine.atr row) = (sl, tp) ->
     Spec.first_touch side tp sl (Engine.future_data rows i) k r ->
     exists t,
       CheckAccuracy.trade_at use_atr rows i = Some t /\
       CheckAccuracy.t_type t = side /\
       CheckAccuracy.t_exit_time t = Engine.r_time r /\
       (CheckAccuracy.t_hit_tp t = true <-> Spec.take_touch side tp r)) /\
  (forall bs bt ss st rows i row side a sl tp k r,
     rows !! i = Some row ->
     Spec.signal side row ->
     Engine.atr row = Some a -> 0 < a ->
     Spec.levels_params bs bt ss st side (Engine.r_close row) a = (sl, tp) ->
     Spec.first_touch side tp sl (Engine.future_data rows i) k r ->
     exists t,
       OptimizeFixed.trade_at bs bt ss st rows i = Some t /\
       OptimizeFixed.t_type t = side /\
       OptimizeFixed.t_entry t = Engine.r_close row /\
       (OptimizeFixed.t_hit_tp t = true <-> Spec.take_touch side tp r)).
Proof.
  split; [|split; [|split]].
  - intros use_atr rows i t Ht.
    destruct (LoopFacts.trade_at_inv _ _ _ _ Ht) as (row & _ & _ & _ & Hscan & _).
    destruct (ScanFacts.scan_sound _ _ _ _ _ _ Hscan) as (k & r & Hfirst & Hts & Hb).
    exists k, r.
    destruct (ScanFacts.future_data_bound rows i k r (proj1 Hfirst)) as [Hk Hr].
    auto.
  - intros bs bt ss st rows i t Ht.
    destruct (LoopFacts.trade_at_params_inv _ _ _ _ _ _ _ Ht)
      as (row & a & sl & tp & ts & Hrow & _ & Ha & _ & Hl & Hscan & _).
    destruct (ScanFacts.scan_sound _ _ _ _ _ _ Hscan) as (k & r & Hfirst & Hts & Hb).
    exists row, a, sl, tp, k, r.
    destruct (ScanFacts.future_data_bound rows i k r (proj1 Hfirst)) as [Hk Hr].
    auto 10.
  - intros use_atr rows i row side sl tp k r Hd Hrow Hsig Hl Hfirst.
    destruct (ScanFacts.scan_complete _ _ _ _ _ _ Hfirst) as (b & Hscan & Hb).
    destruct (LoopFacts.trade_at_intro _ _ _ _ _ _ _ _ _ Hd Hrow Hsig Hl Hscan)
      as (t & Ht & Hside & _ & _ & Hexit & Hhit).
    exists t. rewrite Hhit. auto.
  - intros bs bt ss st rows i row side a sl tp k r Hrow Hsig Ha Hpos Hl Hfirst.
    destruct (ScanFacts.scan_complete _ _ _ _ _ _ Hfirst) as (b & Hscan & Hb).
    destruct (LoopFacts.trade_at_params_intro _ _ _ _ _ _ _ _ _ _ _ _ _
                Hrow Hsig Ha Hpos Hl Hscan)
      as (t & Ht & Hside & Hentry & Hhit).
    exists t. rewrite Hhit. auto.
Qed.

(** Instance of C1: in [both_levels] the candle after the hammer spans both
    levels.  The trade the price-based loop records exits there, and each
    of the two loops, the multiple-based one with multiples 1, 2, 2, 4,
    yields a trade for that signal whose [hit_tp] says whether that candle
    touches the take level. *)
Lemma first_touch_decides_outcome_witness :
  (exists k r,
     (k < 99)%nat /\ Runs.both_levels_rows !! (S 100 + k)%nat = Some r /\
     Spec.first_touch (CheckAccuracy.t_type Runs.both_levels_trade)
                      (CheckAccuracy.t_tp Runs.both_levels_trade)
                      (CheckAccuracy.t_sl Runs.both_levels_trade)
                      (Engine.future_data Runs.both_levels_rows 100) k r /\
     CheckAccuracy.t_exit_time Runs.both_levels_trade = Engine.r_time r /\
     (CheckAccuracy.t_hit_tp Runs.both_levels_trade = true <->
      Spec.take_touch (CheckAccuracy.t_type Runs.both_levels_trade)
                      (CheckAccuracy.t_tp Runs.both_levels_trade) r)) /\
  (exists t,
     CheckAccuracy.trade_at true Runs.both_levels_rows 100 = Some t /\
     CheckAccuracy.t_type t = BUY /\
     CheckAccuracy.t_exit_time t = Engine.r_time Runs.both_levels_exit /\
     (CheckAccuracy.t_hit_tp t = true <->
      Spec.take_touch BUY
        (Engine.r_close Runs.both_levels_signal + 2 * Runs.both_levels_atr)
        Runs.both_levels_exit)) /\
  (exists t,
     OptimizeFixed.trade_at 1 2 2 4 Runs.both_levels_rows 100 = Some t /\
     OptimizeFixed.t_type t = BUY /\
     OptimizeFixed.t_entry t = Engine.r_close Runs.both_levels_signal /\
     (OptimizeFixed.t_hit_tp t = true <->
      Spec.take_touch BUY
        (Engine.r_close Runs.both_levels_signal + 2 * Runs.both_levels_atr)
        Runs.both_levels_exit)).
Proof.
  split; [|split].
  - apply (proj1 first_touch_decides_outcome true Runs.both_levels_rows 100%nat
                 Runs.both_levels_trade).
    vm_compute. reflexivity.
  - apply (proj1 (proj2 (proj2 first_touch_decides_outcome)) true
                 Runs.both_levels_rows 100%nat Runs.both_levels_signal BUY
                 (Engine.r_close Runs.both_levels_signal - 1 * Runs.both_levels_atr)
                 (Engine.r_close Runs.both_levels_signal + 2 * Runs.both_levels_atr)
                 0%nat Runs.both_levels_exit).
    + vm_compute. reflexivity.
    + vm_compute. reflexivity.
    + vm_compute. reflexivity.
    + vm_compute. reflexivity.
    + split; [vm_compute; reflexivity|].
      split; [left; vm_compute; discriminate|].
      intros j r' Hj. lia.
  - apply (proj2 (proj2 (proj2 first_touch_decides_outcome)) 1 2 2 4
                 Runs.both_levels_rows 100%nat Runs.both_levels_signal BUY
                 Runs.both_levels_atr
                 (Engine.r_close Runs.both_levels_signal - 1 * Runs.both_levels_atr)
                 (Engine.r_close Runs.both_levels_signal + 2 * Runs.both_levels_atr)
                 0%nat Runs.both_levels_exit).
    + vm_compute. reflexivity.
    + vm_compute. reflexivity.
    + vm_compute. reflexivity.
    + vm_compute. reflexivity.
    + reflexivity.
    + split; [vm_compute; reflexivity|].
      split; [left; vm_compute; discriminate|].
      intros j r' Hj. lia.
Defined.

(** ** The hammer classifiers *)

Module ClassifierFacts.

Ltac split_tests :=
  repeat match goal with
  | |- context [if ?b then _ else _] => destruct b eqn:?
  end;
  bool_to_prop.

(** The live classifier: a bullish hammer closes up with a body of at
    least 0.0001 and shadows within the configured thresholds. *)
Lemma live_bullish_iff (row : FinalBot.Row) :
  FinalBot.is_bullish_hammer row = true <->
  c_open (FinalBot.candle row) < c_close (FinalBot.candle row) /\
  1 # 10000 <= c_close (FinalBot.candle row) - c_open (FinalBot.candle row) /\
  c_high (FinalBot.candle row) - c_close (FinalBot.candle row)
    <= (2 # 5) * (c_close (FinalBot.candle row) - c_open (FinalBot.candle row)) /\
  (5 # 2) * (c_close (FinalBot.candle row) - c_open (FinalBot.candle row))
    <= c_open (FinalBot.candle row) - c_low (FinalBot.candle row).
Proof.
  unfold FinalBot.is_bullish_hammer. cbn [FinalBot.max_lower_shadow_factor
    FinalBot.min_upper_shadow_ratio FinalBot.CFG].
  split_tests; split; try discriminate; try reflexivity; intros; try tauto;
    exfalso; lra.
Qed.

Lemma live_bearish_iff (row : FinalBot.Row) :
  FinalBot.is_bearish_hammer row = true <->
  c_close (FinalBot.candle row) < c_open (FinalBot.candle row) /\
  1 # 10000 <= c_open (FinalBot.candle row) - c_close (FinalBot.candle row) /\
  c_close (FinalBot.candle row) - c_low (FinalBot.candle row)
    <= (2 # 5) * (c_open (FinalBot.candle row) - c_close (FinalBot.candle row)) /\
  (5 # 2) * (c_open (FinalBot.candle row) - c_close (FinalBot.candle row))
    <= c_high (FinalBot.candle row) - c_open (FinalBot.candle row).
Proof.
  unfold FinalBot.is_bearish_hammer. cbn [FinalBot.max_lower_shadow_factor
    FinalBot.min_upper_shadow_ratio FinalBot.CFG].
  split_tests; split; try discriminate; try reflexivity; intros; try tauto;
    exfalso; lra.
Qed.

Lemma live_not_both (row : FinalBot.Row) :
  FinalBot.is_bullish_hammer row && FinalBot.is_bearish_hammer row = false.
Proof.
  destruct (FinalBot.is_bullish_hammer row) eqn:Hb; [|reflexivity].
  destruct (FinalBot.is_bearish_hammer row) eqn:Hs; [|reflexivity].
  apply live_bullish_iff in Hb. apply live_bearish_iff in Hs. exfalso. lra.
Qed.

(** The backtest classifiers: the same shape conditions with their own
    thresholds, and any positive body. *)
Lemma params_bullish_iff (row : Candle) (factor ratio : Q) :
  OptimizeFixed.is_bullish_hammer row factor ratio = true <->
  c_open row < c_close row /\
  c_high row - c_close row <= factor * (c_close row - c_open row) /\
  ratio * (c_close row - c_open row) <= c_open row - c_low row.
Proof.
  unfold OptimizeFixed.is_bullish_hammer.
  split_tests; split; try discriminate; try reflexivity; intros; try tauto;
    exfalso; lra.
Qed.

Lemma params_bearish_iff (row : Candle) (factor ratio : Q) :
  OptimizeFixed.is_bearish_hammer row factor ratio = true <->
  c_close row < c_open row /\
  c_close row - c_low row <= factor * (c_open row - c_close row) /\
  ratio * (c_open row - c_close row) <= c_high row - c_open row.
Proof.
  unfold OptimizeFixed.is_bearish_hammer.
  split_tests; split; try discriminate; try reflexivity; intros; try tauto;
    exfalso; lra.
Qed.

Lemma backtest_bullish_iff (row : Candle) :
  CheckAccuracy.is_bullish_hammer row = true <->
  c_open row < c_close row /\
  c_high row - c_close row <= (13 # 20) * (c_close row - c_open row) /\
  (3 # 2) * (c_close row - c_open row) <= c_open row - c_low row.
Proof. apply (params_bullish_iff row (13 # 20) (3 # 2)). Qed.

Lemma backtest_bearish_iff (row : Candle) :
  CheckAccuracy.is_bearish_hammer row = true <->
  c_close row < c_open row /\
  c_close row - c_low row <= (13 # 20) * (c_open row - c_close row) /\
  (3 # 2) * (c_open row - c_close row) <= c_high row - c_open row.
Proof. apply (params_bearish_iff row (13 # 20) (3 # 2)). Qed.

Lemma backtest_not_both (row : Candle) :
  CheckAccuracy.is_bullish_hammer row && CheckAccuracy.is_bearish_hammer row = false.
Proof.
  destruct (CheckAccuracy.is_bullish_hammer row) eqn:Hb; [|reflexivity].
  destruct (CheckAccuracy.is_bearish_hammer row) eqn:Hs; [|reflexivity].
  apply backtest_bullish_iff in Hb. apply backtest_bearish_iff in Hs. exfalso. lra.
Qed.

(** A well-formed hammer has a positive high-low range. *)
Lemma bullish_range_positive (row : Candle) :
  Spec.well_formed row -> CheckAccuracy.is_bullish_hammer row = true ->
  0 < c_high row - c_low row.
Proof.
  intros [Hlo Hhi] Hb. apply backtest_bullish_iff in Hb.
  pose proof (Q.le_min_l (c_open row) (c_close row)).
  pose proof (Q.le_max_r (c_open row) (c_close row)).
  lra.
Qed.

End ClassifierFacts.

(** C2.  The candle [doji] rises by 0.00005, below the epsilon 0.0001 of the
    live classifier, and meets both shadow conditions.  The live classifier
    rejects it; the classifiers of the two backtests, which have no body
    test, report a bullish hammer. *)
Theorem backtest_classifier_accepts_doji :
  c_open Samples.doji < c_close Samples.doji /\
  c_close Samples.doji - c_open Samples.doji < 1 # 10000 /\
  FinalBot.is_bullish_hammer Samples.doji_row = false /\
  CheckAccuracy.is_bullish_hammer Samples.doji = true /\
  OptimizeFixed.is_bullish_hammer Samples.doji (13 # 20) (3 # 2) = true.
Proof.
  repeat split; vm_compute; reflexivity.
Qed.

(** ** Signals on a row without a usable ATR *)

Module AtrFacts.
Import Engine Spec.

Lemma atr_positive_false (a : option Q) :
  atr_positive a = false <-> atr_unusable a.
Proof.
  destruct a as [v|]; simpl.
  - apply NumFacts.gtb_le.
  - tauto.
Qed.

Lemma atr_positive_true (a : option Q) :
  atr_positive a = true <-> exists v, a = Some v /\ 0 < v.
Proof.
  destruct a as [v|]; simpl.
  - rewrite NumFacts.gtb_gt. split.
    + intros H. exists v. auto.
    + intros (w & Hw & Hpos). inversion Hw; subst. exact Hpos.
  - split; [discriminate|]. intros (w & Hw & _). discriminate.
Qed.

Lemma levels_fallback use_atr side entry a :
  atr_unusable a -> levels use_atr side entry a = fixed_levels side entry.
Proof.
  intros H. apply atr_positive_false in H.
  destruct side; simpl; unfold CheckAccuracy.buy_levels, CheckAccuracy.sell_levels;
    rewrite H, andb_false_r; reflexivity.
Qed.

End AtrFacts.

(** Outside the candle invariant the price-based loop can meet a signal row
    without a usable ATR: the candle at position 100 of [zero_atr_signal]
    has its open and close above its high, the ATR over it is zero, and
    the backtest records a trade entered there, at the fixed offsets. *)
Lemma zero_atr_signal_enters_trade :
  CheckAccuracy.backtest_vectorized (frame_of Samples.zero_atr_signal) true
    = Returns (Some Runs.zero_atr_stats) /\
  CheckAccuracy.with_indicators (candles (frame_of Samples.zero_atr_signal)) !! 100%nat
    = Some Runs.zero_atr_row /\
  Engine.buy_signal Runs.zero_atr_row = true /\
  Engine.atr Runs.zero_atr_row = Some (0 # 14) /\
  Spec.atr_unusable (Engine.atr Runs.zero_atr_row) /\
  CheckAccuracy.trades Runs.zero_atr_stats = [Runs.zero_atr_trade] /\
  CheckAccuracy.t_entry_time Runs.zero_atr_trade = Engine.r_time Runs.zero_atr_row /\
  CheckAccuracy.t_entry_time Runs.zero_atr_trade = 100%Z /\
  (CheckAccuracy.t_sl Runs.zero_atr_trade, CheckAccuracy.t_tp Runs.zero_atr_trade)
    = Spec.fixed_levels BUY (Engine.r_close Runs.zero_atr_row).
Proof.
  repeat split; try (vm_compute; reflexivity); vm_compute; discriminate.
Qed.

(** ** The position guard of the live poller *)

Module LiveFacts.
Import FinalBot.

Lemma place_market_order_spec side instrument n sl tp entry timeframe positions p m ev :
  place_market_order side instrument n sl tp entry timeframe positions p = (m, ev) ->
  (exists o, ev = Posted o false /\ m = positions) \/
  (exists o, ev = Posted o true /\
             m = add_active_position positions instrument timeframe side entry (clock p)).
Proof.
  unfold place_market_order. intros H.
  repeat case_match; simplify_eq; eauto.
Qed.

(** One pass either leaves the table alone, or found the key free and
    posted an order, recording the position when the broker accepted. *)
Lemma iteration_spec instrument timeframe st p st1 ev :
  iteration instrument timeframe st p = (st1, ev) ->
  (ev = Idle /\ active_positions st1 = active_positions st) \/
  (has_active_position (active_positions st) instrument timeframe = false /\
   ((exists o, ev = Posted o false /\ active_positions st1 = active_positions st) \/
    (exists o side entry,
       ev = Posted o true /\
       active_positions st1
         = add_active_position (active_positions st) instrument timeframe
                               side entry (clock p)))).
Proof.
  unfold iteration, place_market_buy_with_sl_tp, place_market_sell_with_sl_tp.
  intros H.
  repeat case_match; simplify_eq; cbn [active_positions set_last_time set_positions] in *;
    try (left; split; reflexivity).
  all: right; split; [assumption|].
  all: match goal with
       | Hp : place_market_order _ _ _ _ _ _ _ _ _ = _ |- _ =>
           apply place_market_order_spec in Hp;
           destruct Hp as [(o & -> & ->) | (o & -> & ->)]
       end; eauto 10.
Qed.

Lemma has_position_after_add m instrument timeframe side entry now :
  has_active_position (add_active_position m instrument timeframe side entry now)
                      instrument timeframe = true.
Proof.
  unfold has_active_position, add_active_position.
  apply bool_decide_eq_true. rewrite lookup_insert_eq. eauto.
Qed.

Lemma iteration_guarded instrument timeframe st p :
  has_active_position (active_positions st) instrument timeframe = true ->
  snd (iteration instrument timeframe st p) = Idle /\
  active_positions (fst (iteration instrument timeframe st p)) = active_positions st.
Proof.
  intros Hpos. destruct (iteration instrument timeframe st p) as [st1 ev] eqn:E.
  apply iteration_spec in E. simpl.
  destruct E as [[-> ->] | [Hfree _]]; [auto | congruence].
Qed.

Lemma iteration_accepted instrument timeframe st p o :
  snd (iteration instrument timeframe st p) = Posted o true ->
  has_active_position (active_positions st) instrument timeframe = false /\
  has_active_position (active_positions (fst (iteration instrument timeframe st p)))
                      instrument timeframe = true.
Proof.
  destruct (iteration instrument timeframe st p) as [st1 ev] eqn:E.
  apply iteration_spec in E. simpl. intros ->.
  destruct E as [[E _] | [Hfree [(o' & E & _) | (o' & side & entry & _ & ->)]]];
    try discriminate.
  split; [exact Hfree | apply has_position_after_add].
Qed.

(** With a position on record the poller stays idle for the rest of the run. *)
Lemma run_guarded instrument timeframe polls : forall st,
  has_active_position (active_positions st) instrument timeframe = true ->
  List.filter accepted
    (snd (run_for_instrument_and_timeframe instrument timeframe st polls)) = [].
Proof.
  induction polls as [|p rest IH]; intros st Hpos; simpl; [reflexivity|].
  destruct (iteration_guarded instrument timeframe st p Hpos) as [Hev Hkeep].
  destruct (iteration instrument timeframe st p) as [st1 ev]. simpl in Hev, Hkeep.
  specialize (IH st1). rewrite Hkeep in IH. specialize (IH Hpos).
  destruct (run_for_instrument_and_timeframe instrument timeframe st1 rest)
    as [st2 evs]. simpl in *.
  subst ev. simpl. exact IH.
Qed.

Lemma run_accepts_at_most_once instrument timeframe polls : forall st,
  (length (List.filter accepted
             (snd (run_for_instrument_and_timeframe instrument timeframe st polls)))
   <= 1)%nat.
Proof.
  induction polls as [|p rest IH]; intros st; simpl; [lia|].
  destruct (iteration instrument timeframe st p) as [st1 ev] eqn:E.
  pose proof (IH st1) as IH1.
  pose proof (run_guarded instrument timeframe rest st1) as Hg.
  destruct (run_for_instrument_and_timeframe instrument timeframe st1 rest)
    as [st2 evs]. simpl in *.
  destruct (accepted ev) eqn:Hacc; [|exact IH1].
  destruct ev as [|o [|]]; try discriminate.
  assert (Ho : snd (iteration instrument timeframe st p) = Posted o true)
    by now rewrite E.
  destruct (iteration_accepted _ _ _ _ _ Ho) as [_ Hpos].
  rewrite E in Hpos. simpl in Hpos. rewrite (Hg Hpos). simpl. lia.
Qed.

End LiveFacts.

(** C4 (as amended).  Live mode: while a position is on record for its
    instrument+timeframe key a poller posts no order and leaves the table
    unchanged; an accepted order found the key free and leaves it taken;
    the loop never removes a position, so one poller gets at most one
    order accepted.  Backtest mode has no such guard: the trade list is
    the list of what each signal position yields on its own, whatever
    trades are still open. *)
Theorem live_guard_backtest_unguarded :
  (forall instrument timeframe st p,
     FinalBot.has_active_position (FinalBot.active_positions st) instrument timeframe
       = true ->
     snd (FinalBot.iteration instrument timeframe st p) = FinalBot.Idle /\
     FinalBot.active_positions (fst (FinalBot.iteration instrument timeframe st p))
       = FinalBot.active_positions st) /\
  (forall instrument timeframe st p o,
     snd (FinalBot.iteration instrument timeframe st p) = FinalBot.Posted o true ->
     FinalBot.has_active_position (FinalBot.active_positions st) instrument timeframe
       = false /\
     FinalBot.has_active_position
       (FinalBot.active_positions (fst (FinalBot.iteration instrument timeframe st p)))
       instrument timeframe = true) /\
  (forall instrument timeframe st polls,
     (length (List.filter FinalBot.accepted
                (snd (FinalBot.run_for_instrument_and_timeframe
                        instrument timeframe st polls))) <= 1)%nat) /\
  (forall use_atr rows,
     CheckAccuracy.extract_trades use_atr rows
     = omap (CheckAccuracy.trade_at use_atr rows) (CheckAccuracy.loop_range rows)).
Proof.
  split; [|split; [|split]].
  - apply LiveFacts.iteration_guarded.
  - apply LiveFacts.iteration_accepted.
  - intros. apply LiveFacts.run_accepts_at_most_once.
  - apply LoopFacts.extract_trades_omap.
Qed.

(** Instance of C4: the first poll gets a BUY accepted for BTC_USD on M5;
    the second poll sees a fresh hammer and stays idle. *)
Lemma live_guard_backtest_unguarded_witness :
  FinalBot.accepted
    (snd (FinalBot.iteration "BTC_USD" "M5" Samples.fresh_poller Samples.first_poll))
    = true /\
  snd (FinalBot.iteration "BTC_USD" "M5" Runs.after_first_poll Samples.second_poll)
    = FinalBot.Idle /\
  FinalBot.active_positions
    (fst (FinalBot.iteration "BTC_USD" "M5" Runs.after_first_poll Samples.second_poll))
    = FinalBot.active_positions Runs.after_first_poll.
Proof.
  split.
  - vm_compute. reflexivity.
  - apply (proj1 live_guard_backtest_unguarded "BTC_USD" "M5"
                 Runs.after_first_poll Samples.second_poll).
    vm_compute. reflexivity.
Defined.

(** Counterexample to C4 as stated: the backtest of [two_hammers] records a
    trade entered at position 100 that exits at position 103, and a second
    trade entered at position 101, while the first is still open. *)
Lemma overlapping_backtest_trades :
  CheckAccuracy.backtest_vectorized (frame_of Samples.two_hammers) true
    = Returns (Some Runs.two_hammers_stats) /\
  CheckAccuracy.trades Runs.two_hammers_stats
    = [Runs.two_hammers_first; Runs.two_hammers_second] /\
  CheckAccuracy.t_entry_time Runs.two_hammers_first = 100%Z /\
  CheckAccuracy.t_exit_time Runs.two_hammers_first = 103%Z /\
  CheckAccuracy.t_entry_time Runs.two_hammers_second = 101%Z /\
  CheckAccuracy.t_exit_time Runs.two_hammers_second = 103%Z.
Proof.
  repeat split; vm_compute; reflexivity.
Qed.

(** ** The statistics aggregator *)

Module StatsFacts.

Lemma sum_from (xs : list Q) (acc : Q) :
  fold_left Qplus xs acc == acc + Num.sum xs.
Proof.
  unfold Num.sum. revert acc. induction xs as [|x r IH]; intros acc; simpl.
  - ring.
  - rewrite (IH (acc + x)), (IH (0 + x)). ring.
Qed.

Lemma sum_cons (x : Q) (xs : list Q) : Num.sum (x :: xs) == x + Num.sum xs.
Proof. unfold Num.sum at 1. simpl. rewrite sum_from. ring. Qed.

Lemma sum_nonpos (xs : list Q) :
  Forall (fun x => x <= 0) xs -> Num.sum xs <= 0.
Proof.
  induction 1 as [|x r Hx Hr IH].
  - unfold Num.sum. simpl. lra.
  - rewrite sum_cons. lra.
Qed.

Lemma sum_nonneg (xs : list Q) :
  Forall (fun x => 0 < x) xs -> 0 <= Num.sum xs.
Proof.
  induction 1 as [|x r Hx Hr IH].
  - unfold Num.sum. simpl. lra.
  - rewrite sum_cons. lra.
Qed.

Lemma sum_pos (xs : list Q) :
  xs <> [] -> Forall (fun x => 0 < x) xs -> 0 < Num.sum xs.
Proof.
  intros Hne Hall. destruct Hall as [|x r Hx Hr]; [congruence|].
  rewrite sum_cons. pose proof (sum_nonneg r Hr). lra.
Qed.

(** Winners and losers split any list of profits. *)
Lemma filter_none_all {A} (f g : A -> bool) (l : list A) :
  (forall x, g x = negb (f x)) -> List.filter g l = [] -> List.filter f l = l.
Proof.
  intros Hfg. induction l as [|x r IH]; simpl; [reflexivity|].
  rewrite (Hfg x). destruct (f x); simpl; [|discriminate].
  intros H. now rewrite IH.
Qed.

Lemma winners_losers_split (ts : list CheckAccuracy.Trade) :
  (length (List.filter CheckAccuracy.is_winner ts)
   + length (List.filter CheckAccuracy.is_loser ts) = length ts)%nat.
Proof.
  rewrite <- (List.filter_length CheckAccuracy.is_winner ts). f_equal. f_equal.
  apply List.filter_ext. intros t. apply NumFacts.gtb_leb_negb.
Qed.

(** The aggregator's filters count what the profit tests say. *)
Lemma count_wins_filter (ts : list CheckAccuracy.Trade) :
  length (List.filter CheckAccuracy.is_winner ts) = Spec.count_wins ts.
Proof.
  induction ts as [|t r IH]; simpl; [reflexivity|].
  unfold CheckAccuracy.is_winner at 1.
  destruct (Qlt_le_dec 0 (CheckAccuracy.t_profit t)) as [Hpos|Hle].
  - apply NumFacts.gtb_gt in Hpos. rewrite Hpos. simpl. now rewrite IH.
  - apply NumFacts.gtb_le in Hle. now rewrite Hle.
Qed.

Lemma count_losses_filter (ts : list CheckAccuracy.Trade) :
  length (List.filter CheckAccuracy.is_loser ts) = Spec.count_losses ts.
Proof.
  induction ts as [|t r IH]; simpl; [reflexivity|].
  unfold CheckAccuracy.is_loser at 1.
  destruct (Qlt_le_dec 0 (CheckAccuracy.t_profit t)) as [Hpos|Hle].
  - apply NumFacts.leb_gt in Hpos. now rewrite Hpos.
  - apply NumFacts.leb_le in Hle. rewrite Hle. simpl. now rewrite IH.
Qed.

(** A share of a non-empty whole, as a percentage. *)
Lemma percentage_bounds (w n : nat) :
  (w <= n)%nat -> (0 < n)%nat ->
  0 <= (CheckAccuracy.Qnat w / CheckAccuracy.Qnat n) * 100 <= 100.
Proof.
  intros Hwn Hn. unfold CheckAccuracy.Qnat.
  assert (HN : 0 < inject_Z (Z.of_nat n)).
  { change 0 with (inject_Z 0). rewrite <- Zlt_Qlt. lia. }
  assert (HW : 0 <= inject_Z (Z.of_nat w)).
  { change 0 with (inject_Z 0). rewrite <- Zle_Qle. lia. }
  assert (HWN : inject_Z (Z.of_nat w) <= inject_Z (Z.of_nat n)).
  { rewrite <- Zle_Qle. lia. }
  assert (H0 : 0 <= inject_Z (Z.of_nat w) / inject_Z (Z.of_nat n)).
  { apply Qle_shift_div_l; [exact HN|]. lra. }
  assert (H1 : inject_Z (Z.of_nat w) / inject_Z (Z.of_nat n) <= 1).
  { apply Qle_shift_div_r; [exact HN|]. lra. }
  split; lra.
Qed.

(** The price-based report without a loser: the guarded quotient is not
    taken and the factor is 0. *)
Lemma no_loser_factor_zero rows ts :
  List.filter CheckAccuracy.is_loser ts = [] ->
  CheckAccuracy.profit_factor (CheckAccuracy.compute_stats rows ts) = 0.
Proof.
  intros H. unfold CheckAccuracy.compute_stats. cbn [CheckAccuracy.profit_factor].
  rewrite H. reflexivity.
Qed.

(** Both reports without a winner: the factor is 0. *)
Lemma no_winner_factor_zero rows ts :
  List.filter CheckAccuracy.is_winner ts = [] ->
  CheckAccuracy.profit_factor (CheckAccuracy.compute_stats rows ts) == 0.
Proof.
  intros H. unfold CheckAccuracy.compute_stats. cbn [CheckAccuracy.profit_factor].
  rewrite H.
  destruct (_ && _); [|reflexivity].
  unfold Num.sum at 1. simpl. unfold Qdiv. ring.
Qed.

Lemma params_profits_winner ts :
  List.filter OptimizeFixed.is_loser ts = [] ->
  Forall (fun x => 0 < x) (map OptimizeFixed.t_profit ts).
Proof.
  induction ts as [|t r IH]; simpl; intros H; [constructor|].
  destruct (OptimizeFixed.is_loser t) eqn:E; [discriminate|].
  constructor; [|apply IH, H].
  unfold OptimizeFixed.is_loser in E. now apply NumFacts.leb_gt in E.
Qed.

Lemma params_profits_loser ts :
  List.filter OptimizeFixed.is_winner ts = [] ->
  Forall (fun x => x <= 0) (map OptimizeFixed.t_profit ts).
Proof.
  induction ts as [|t r IH]; simpl; intros H; [constructor|].
  destruct (OptimizeFixed.is_winner t) eqn:E; [discriminate|].
  constructor; [|apply IH, H].
  unfold OptimizeFixed.is_winner in E. now apply NumFacts.gtb_le in E.
Qed.

(** The multiple-based report of winners only: the factor is infinite. *)
Lemma params_no_loser_factor_inf ts :
  ts <> [] -> List.filter OptimizeFixed.is_loser ts = [] ->
  OptimizeFixed.profit_factor (OptimizeFixed.compute_stats ts) = PosInf.
Proof.
  intros Hne H. unfold OptimizeFixed.compute_stats. cbn [OptimizeFixed.profit_factor].
  rewrite H. simpl.
  assert (Hpos : 0 < Num.sum (map OptimizeFixed.t_profit ts)).
  { apply sum_pos; [destruct ts; [congruence | discriminate]|].
    now apply params_profits_winner. }
  apply NumFacts.gtb_gt in Hpos. now rewrite Hpos.
Qed.

Lemma params_no_winner_factor_zero ts :
  List.filter OptimizeFixed.is_winner ts = [] ->
  exists q, OptimizeFixed.profit_factor (OptimizeFixed.compute_stats ts) = Finite q /\
            q == 0.
Proof.
  intros H. unfold OptimizeFixed.compute_stats. cbn [OptimizeFixed.profit_factor].
  rewrite H.
  destruct (_ && _).
  - eexists. split; [reflexivity|]. unfold Num.sum at 1. simpl. unfold Qdiv. ring.
  - pose proof (sum_nonpos _ (params_profits_loser ts H)) as Hle.
    apply NumFacts.gtb_le in Hle. rewrite Hle.
    exists 0. split; reflexivity.
Qed.

End StatsFacts.

(** C5.  The price-based backtest of [one_winner] reports one winner and
    no loser with a profit factor of 0, the value it also gives to a run
    without winners; the multiple-based backtest of the same frame reports
    an infinite profit factor. *)
Theorem all_winners_profit_factor_zero :
  CheckAccuracy.backtest_vectorized (frame_of Samples.one_winner) true
    = Returns (Some Runs.one_winner_stats) /\
  CheckAccuracy.win_count Runs.one_winner_stats = 1%nat /\
  CheckAccuracy.loss_count Runs.one_winner_stats = 0%nat /\
  CheckAccuracy.profit_factor Runs.one_winner_stats = 0 /\
  OptimizeFixed.backtest_with_params (frame_of Samples.one_winner)
                                     1 2 2 4 (13 # 20) (3 # 2)
    = Returns Runs.one_winner_params_stats /\
  OptimizeFixed.winners Runs.one_winner_params_stats = Some 1%nat /\
  OptimizeFixed.losers Runs.one_winner_params_stats = Some 0%nat /\
  OptimizeFixed.profit_factor Runs.one_winner_params_stats = PosInf.
Proof.
  repeat split; vm_compute; reflexivity.
Qed.

(** C6.  For every non-empty list of trades the aggregator reports that
    list, its length as the total, as [win_count] the number of its
    trades with a profit above zero and as [loss_count] the number of
    those with a profit of zero or less; the two counts add up to the
    total, and the win rate is the win count over the total times 100,
    between 0 and 100.  Every report returned by the price-based backtest
    is the report of the trades its loop recorded, at least one. *)
Theorem win_loss_partition :
  (forall rows ts,
     ts <> [] ->
     let st := CheckAccuracy.compute_stats rows ts in
     CheckAccuracy.trades st = ts /\
     CheckAccuracy.total_trades st = length ts /\
     CheckAccuracy.win_count st = Spec.count_wins ts /\
     CheckAccuracy.loss_count st = Spec.count_losses ts /\
     (Spec.count_wins ts + Spec.count_losses ts = length ts)%nat /\
     CheckAccuracy.win_rate st
       == (inject_Z (Z.of_nat (Spec.count_wins ts))
           / inject_Z (Z.of_nat (length ts))) * 100 /\
     0 <= CheckAccuracy.win_rate st <= 100 /\
     Spec.counts_consistent st) /\
  (forall df use_atr st,
     CheckAccuracy.backtest_vectorized df use_atr = Returns (Some st) ->
     let ts := CheckAccuracy.extract_trades use_atr
                 (CheckAccuracy.with_indicators (candles df)) in
     ts <> [] /\
     CheckAccuracy.trades st = ts /\
     CheckAccuracy.total_trades st = length ts /\
     CheckAccuracy.win_count st = Spec.count_wins ts /\
     CheckAccuracy.loss_count st = Spec.count_losses ts /\
     Spec.counts_consistent st).
Proof.
  assert (Hstats : forall rows ts,
            ts <> [] -> Spec.counts_consistent (CheckAccuracy.compute_stats rows ts)).
  { intros rows l Hne. unfold Spec.counts_consistent, CheckAccuracy.compute_stats.
    cbn [CheckAccuracy.total_trades CheckAccuracy.trades CheckAccuracy.win_count
         CheckAccuracy.loss_count CheckAccuracy.win_rate].
    pose proof (StatsFacts.winners_losers_split l) as Hsplit.
    assert (Hlen : (0 < length l)%nat) by (destruct l; [congruence | simpl; lia]).
    assert (Hlt : (0 <? length l)%nat = true) by now apply Nat.ltb_lt.
    rewrite Hlt.
    split; [reflexivity|]. split; [exact Hlen|].
    split; [reflexivity|]. split; [reflexivity|]. split; [exact Hsplit|].
    split; [reflexivity|].
    apply StatsFacts.percentage_bounds; [|exact Hlen].
    fold (CheckAccuracy.is_winner). lia. }
  assert (Hcounts : forall rows ts,
            CheckAccuracy.trades (CheckAccuracy.compute_stats rows ts) = ts /\
            CheckAccuracy.total_trades (CheckAccuracy.compute_stats rows ts) = length ts /\
            CheckAccuracy.win_count (CheckAccuracy.compute_stats rows ts)
              = Spec.count_wins ts /\
            CheckAccuracy.loss_count (CheckAccuracy.compute_stats rows ts)
              = Spec.count_losses ts).
  { intros rows l. unfold CheckAccuracy.compute_stats.
    cbn [CheckAccuracy.total_trades CheckAccuracy.trades CheckAccuracy.win_count
         CheckAccuracy.loss_count].
    split; [reflexivity|]. split; [reflexivity|].
    split; [apply StatsFacts.count_wins_filter | apply StatsFacts.count_losses_filter]. }
  split.
  - intros rows ts Hne. cbv zeta.
    destruct (Hcounts rows ts) as (Htr & Htot & Hw & Hl).
    destruct (Hstats rows ts Hne) as (_ & _ & _ & _ & Hsum & Hrate & Hbounds).
    split; [exact Htr|]. split; [exact Htot|]. split; [exact Hw|]. split; [exact Hl|].
    split; [now rewrite <- Hw, <- Hl, Hsum|].
    split; [now rewrite Hrate, Hw, Htot|].
    split; [exact Hbounds|]. now apply Hstats.
  - intros df use_atr st H. cbv zeta.
    destruct (LoopFacts.backtest_returns _ _ _ H) as (_ & _ & Hst).
    destruct (CheckAccuracy.extract_trades use_atr _) as [|t ts] eqn:E; [discriminate|].
    inversion Hst; subst st; clear Hst.
    destruct (Hcounts (CheckAccuracy.with_indicators (candles df)) (t :: ts))
      as (Htr & Htot & Hw & Hl).
    split; [discriminate|]. split; [exact Htr|]. split; [exact Htot|].
    split; [exact Hw|]. split; [exact Hl|]. apply Hstats. discriminate.
Qed.

(** Instance of C6: the report of [two_hammers] counts the two trades its
    loop recorded. *)
Lemma win_loss_partition_witness :
  let ts := CheckAccuracy.extract_trades true
              (CheckAccuracy.with_indicators (candles (frame_of Samples.two_hammers))) in
  ts <> [] /\
  CheckAccuracy.trades Runs.two_hammers_stats = ts /\
  CheckAccuracy.total_trades Runs.two_hammers_stats = length ts /\
  CheckAccuracy.win_count Runs.two_hammers_stats = Spec.count_wins ts /\
  CheckAccuracy.loss_count Runs.two_hammers_stats = Spec.count_losses ts /\
  Spec.counts_consistent Runs.two_hammers_stats.
Proof.
  apply (proj2 win_loss_partition (frame_of Samples.two_hammers) true
               Runs.two_hammers_stats).
  vm_compute. reflexivity.
Defined.

(** ** The indicator engine *)

Module IndicatorFacts.
Import Indicators.

Lemma length_ewm_from alpha y xs : length (ewm_from alpha y xs) = length xs.
Proof.
  revert y. induction xs as [|x r IH]; intros y; simpl; [reflexivity|].
  now rewrite IH.
Qed.

Lemma length_ewm_mean span xs : length (ewm_mean span xs) = length xs.
Proof. destruct xs; simpl; [reflexivity|]. now rewrite length_ewm_from. Qed.

(** Each output of the smoothing loop after the seed combines the output
    before it with the input at its own position. *)
Lemma ewm_from_step alpha (r : list Q) : forall y j v,
  ewm_from alpha y r !! j = Some v ->
  exists x u, r !! j = Some x /\ (y :: ewm_from alpha y r) !! j = Some u /\
              v = (1 - alpha) * u + alpha * x.
Proof.
  induction r as [|x r IH]; intros y j v H; [discriminate|].
  destruct j as [|j]; simpl in H.
  - inversion H; subst. exists x, y. auto.
  - destruct (IH _ _ _ H) as (x' & u & Hx & Hu & Hv).
    exists x', u. auto.
Qed.

Lemma ewm_mean_ref span (xs : list Q) : forall i v,
  ewm_mean span xs !! i = Some v ->
  v == Spec.ema_ref (alpha_of_span span) xs i.
Proof.
  destruct xs as [|x0 r]; [discriminate|].
  induction i as [|j IH]; intros v H; simpl in H.
  - inversion H; subst. simpl. reflexivity.
  - destruct (ewm_from_step _ _ _ _ _ H) as (x & u & Hx & Hu & ->).
    specialize (IH u Hu).
    change (Spec.ema_ref (alpha_of_span span) (x0 :: r) (S j))
      with (nth j r 0 * alpha_of_span span
            + Spec.ema_ref (alpha_of_span span) (x0 :: r) j * (1 - alpha_of_span span)).
    rewrite <- IH.
    assert (Hn : nth j r 0 = x).
    { apply nth_lookup_Some with (d := 0) in Hx. exact Hx. }
    rewrite Hn. ring.
Qed.

Lemma ewm_from_app alpha (s t : list Q) : forall y,
  exists rest, ewm_from alpha y (s ++ t) = ewm_from alpha y s ++ rest.
Proof.
  induction s as [|x s IH]; intros y; simpl.
  - eauto.
  - destruct (IH ((1 - alpha) * y + alpha * x)) as (rest & ->). eauto.
Qed.

Lemma ewm_mean_app span (s t : list Q) :
  exists rest, ewm_mean span (s ++ t) = ewm_mean span s ++ rest.
Proof.
  destruct s as [|x s]; simpl.
  - eauto.
  - destruct (ewm_from_app (alpha_of_span span) s t x) as (rest & ->). eauto.
Qed.

Lemma true_range_from_app (s t : list Candle) : forall prev,
  exists rest, true_range_from prev (s ++ t) = true_range_from prev s ++ rest.
Proof.
  induction s as [|c s IH]; intros prev; simpl.
  - eauto.
  - destruct (IH (Some (c_close c))) as (rest & ->). eauto.
Qed.

Lemma length_true_range_from (s : list Candle) : forall prev,
  length (true_range_from prev s) = length s.
Proof.
  induction s as [|c s IH]; intros prev; simpl; [reflexivity|]. now rewrite IH.
Qed.

(** The window that ends at a position of the prefix lies in the prefix. *)
Lemma rolling_mean_at_app period (xs ys : list Q) (i : nat) :
  (i < length xs)%nat ->
  rolling_mean_at period (xs ++ ys) i = rolling_mean_at period xs i.
Proof.
  intros Hi. unfold rolling_mean_at.
  destruct (S i <? period)%nat eqn:E; [reflexivity|].
  apply Nat.ltb_ge in E. unfold window.
  change (firstn period) with (@take Q period).
  change (skipn (S i - period)) with (@drop Q (S i - period)).
  rewrite drop_app_le by lia.
  rewrite take_app_le; [reflexivity|].
  rewrite length_drop. lia.
Qed.

Lemma rolling_mean_app period (xs ys : list Q) :
  take (length xs) (rolling_mean period (xs ++ ys)) = rolling_mean period xs.
Proof.
  unfold rolling_mean. rewrite <- fmap_take, take_seq.
  rewrite length_app. replace (length xs `min` (length xs + length ys))%nat
    with (length xs) by lia.
  apply list_fmap_ext. intros k i Hk.
  apply lookup_seq in Hk. destruct Hk as [-> Hk].
  apply rolling_mean_at_app. lia.
Qed.

Lemma length_rolling_mean period xs : length (rolling_mean period xs) = length xs.
Proof. unfold rolling_mean. now rewrite length_map, length_seq. Qed.

Lemma length_calculate_atr cs period : length (calculate_atr cs period) = length cs.
Proof.
  unfold calculate_atr, true_range. now rewrite length_rolling_mean, length_true_range_from.
Qed.

Lemma length_compute_emas cs fast slow : length (compute_emas cs fast slow) = length cs.
Proof.
  unfold compute_emas. rewrite length_zip_with, !length_ewm_mean, length_map. lia.
Qed.

Lemma compute_emas_prefix s t fast slow :
  take (length s) (compute_emas (s ++ t) fast slow) = compute_emas s fast slow.
Proof.
  unfold compute_emas. rewrite map_app.
  destruct (ewm_mean_app fast (map c_close s) (map c_close t)) as (rf & ->).
  destruct (ewm_mean_app slow (map c_close s) (map c_close t)) as (rs & ->).
  rewrite zip_with_app by now rewrite !length_ewm_mean.
  apply take_app_length'.
  rewrite length_zip_with, !length_ewm_mean, length_map. lia.
Qed.

Lemma true_range_prefix s t :
  take (length s) (true_range (s ++ t)) = true_range s.
Proof.
  unfold true_range. destruct (true_range_from_app s t None) as (rest & ->).
  apply take_app_length'. now rewrite length_true_range_from.
Qed.

Lemma calculate_atr_prefix s t period :
  take (length s) (calculate_atr (s ++ t) period) = calculate_atr s period.
Proof.
  unfold calculate_atr, true_range.
  destruct (true_range_from_app s t None) as (rest & ->).
  rewrite <- (length_true_range_from s None) at 1.
  apply rolling_mean_app.
Qed.

Lemma zip_rows_prefix bull bear (cs1 cs2 : list Candle) :
  forall es1 es2 as1 as2,
  length es1 = length cs1 -> length as1 = length cs1 ->
  take (length cs1) (Engine.zip_rows bull bear (cs1 ++ cs2) (es1 ++ es2) (as1 ++ as2))
  = Engine.zip_rows bull bear cs1 es1 as1.
Proof.
  induction cs1 as [|c cs1 IH]; intros es1 es2 as1 as2 He Ha.
  - reflexivity.
  - destruct es1 as [|e es1]; [discriminate|]. destruct as1 as [|a as1]; [discriminate|].
    simpl in *. f_equal. apply IH; lia.
Qed.

Lemma annotate_prefix bull bear s t :
  take (length s) (Engine.annotate bull bear (s ++ t)) = Engine.annotate bull bear s.
Proof.
  unfold Engine.annotate.
  rewrite <- (take_drop (length s) (compute_emas (s ++ t) 9 15)).
  rewrite <- (take_drop (length s) (calculate_atr (s ++ t) 14)).
  rewrite compute_emas_prefix, calculate_atr_prefix.
  apply zip_rows_prefix.
  - apply length_compute_emas.
  - apply length_calculate_atr.
Qed.

End IndicatorFacts.

(** C7.  For periods of at least 1, [compute_emas] yields one row per
    candle, and on every row the fast and the slow EMA are the values of
    the reference recurrence [ema[0] = close[0]],
    [ema[i] = close[i] * k + ema[i-1] * (1 - k)] with [k = 2 / (period + 1)],
    each over the close series with its own period alone. *)
Theorem ema_recurrence (cs : list Candle) (fast_period slow_period : Z) :
  (1 <= fast_period)%Z -> (1 <= slow_period)%Z ->
  length (Indicators.compute_emas cs fast_period slow_period) = length cs /\
  forall i e,
    Indicators.compute_emas cs fast_period slow_period !! i = Some e ->
    Indicators.EMA_fast e
      == Spec.ema_ref (2 / (inject_Z fast_period + 1)) (map c_close cs) i /\
    Indicators.EMA_slow e
      == Spec.ema_ref (2 / (inject_Z slow_period + 1)) (map c_close cs) i.
Proof.
  intros _ _. split; [apply IndicatorFacts.length_compute_emas|].
  intros i e He. unfold Indicators.compute_emas in He.
  apply lookup_zip_with_Some in He. destruct He as (f & s & -> & Hf & Hs).
  split; simpl.
  - apply (IndicatorFacts.ewm_mean_ref _ _ _ _ Hf).
  - apply (IndicatorFacts.ewm_mean_ref _ _ _ _ Hs).
Qed.

(** Instance of C7: the periods 9 and 15 of the backtests over [opening]. *)
Lemma ema_recurrence_witness :
  length (Indicators.compute_emas Samples.opening 9 15) = length Samples.opening /\
  forall i e,
    Indicators.compute_emas Samples.opening 9 15 !! i = Some e ->
    Indicators.EMA_fast e
      == Spec.ema_ref (2 / (inject_Z 9 + 1)) (map c_close Samples.opening) i /\
    Indicators.EMA_slow e
      == Spec.ema_ref (2 / (inject_Z 15 + 1)) (map c_close Samples.opening) i.
Proof.
  apply (ema_recurrence Samples.opening 9 15); lia.
Defined.

(** C8.  For periods of at least 1, the indicators of a series extended by
    later candles agree, on the positions of the original series, with the
    indicators of the original series: both EMAs, the true range, the ATR,
    and with them every row of the working frame of the backtests. *)
Theorem indicators_prefix_stable (s t : list Candle)
    (fast_period slow_period : Z) (period : nat) :
  (1 <= fast_period)%Z -> (1 <= slow_period)%Z -> (1 <= period)%nat ->
  take (length s) (Indicators.compute_emas (s ++ t) fast_period slow_period)
    = Indicators.compute_emas s fast_period slow_period /\
  take (length s) (Indicators.true_range (s ++ t)) = Indicators.true_range s /\
  take (length s) (Indicators.calculate_atr (s ++ t) period)
    = Indicators.calculate_atr s period /\
  take (length s) (CheckAccuracy.with_indicators (s ++ t))
    = CheckAccuracy.with_indicators s.
Proof.
  intros _ _ _. split; [|split; [|split]].
  - apply IndicatorFacts.compute_emas_prefix.
  - apply IndicatorFacts.true_range_prefix.
  - apply IndicatorFacts.calculate_atr_prefix.
  - apply IndicatorFacts.annotate_prefix.
Qed.

(** Instance of C8: [opening] extended by [continuation], with an ATR
    period short enough for the window to fill. *)
Lemma indicators_prefix_stable_witness :
  take (length Samples.opening)
       (Indicators.compute_emas (Samples.opening ++ Samples.continuation) 9 15)
    = Indicators.compute_emas Samples.opening 9 15 /\
  take (length Samples.opening)
       (Indicators.true_range (Samples.opening ++ Samples.continuation))
    = Indicators.true_range Samples.opening /\
  take (length Samples.opening)
       (Indicators.calculate_atr (Samples.opening ++ Samples.continuation) 2)
    = Indicators.calculate_atr Samples.opening 2 /\
  take (length Samples.opening)
       (CheckAccuracy.with_indicators (Samples.opening ++ Samples.continuation))
    = CheckAccuracy.with_indicators Samples.opening.
Proof.
  apply (indicators_prefix_stable Samples.opening Samples.continuation 9 15 2); lia.
Defined.

(** ** Input checking *)

Module InputFacts.

Lemma has_col_false df col : has_col df col = false <-> df_cols df !! col = None.
Proof.
  unfold has_col. rewrite bool_decide_eq_false.
  destruct (df_cols df !! col); split; intros H; try congruence.
  - exfalso. apply H. eauto.
  - intros [x Hx]. discriminate.
Qed.

Lemma forallb_false {A} (f : A -> bool) (l : list A) :
  forallb f l = false -> exists x, In x l /\ f x = false.
Proof.
  induction l as [|x r IH]; simpl; [discriminate|].
  destruct (f x) eqn:E; simpl.
  - intros H. destruct (IH H) as (y & Hy & Hf). eauto.
  - intros _. eauto.
Qed.

Lemma has_required_cols_false df :
  has_required_cols df = false <-> Spec.missing_column df.
Proof.
  unfold has_required_cols, Spec.missing_column. split.
  - intros H. apply forallb_false in H.
    destruct H as (col & Hin & Hcol). exists col. split; [exact Hin|].
    now apply has_col_false.
  - intros (col & Hin & Hcol). apply not_true_iff_false. intros Hall.
    rewrite forallb_forall in Hall. specialize (Hall col Hin).
    apply has_col_false in Hcol. congruence.
Qed.

Lemma has_required_cols_true df :
  has_required_cols df = true <->
  forall col, In col required_cols -> is_Some (df_cols df !! col).
Proof.
  unfold has_required_cols. rewrite forallb_forall. split; intros H col Hin.
  - specialize (H col Hin). unfold has_col in H. now apply bool_decide_eq_true in H.
  - unfold has_col. apply bool_decide_eq_true. auto.
Qed.

End InputFacts.

(** ** The labels of the annotated frame *)

Module IndexFacts.
Import Indicators Engine.

Lemma distinct_prefix (a b : list Z) :
  Spec.distinct (a ++ b) = true -> Spec.distinct a = true.
Proof.
  induction a as [|t a IH]; simpl; intros H; [reflexivity|].
  apply andb_true_iff in H. destruct H as [Ht Hrest].
  apply andb_true_iff. split; [|now apply IH].
  apply negb_true_iff. apply negb_true_iff in Ht.
  rewrite existsb_app in Ht. now apply orb_false_iff in Ht.
Qed.

(** The candles of a frame carry a prefix of its index, in order. *)
Lemma zip_candles_times (ts : list Z) : forall os hs ls cs,
  exists rest, ts = map c_time (zip_candles ts os hs ls cs) ++ rest.
Proof.
  induction ts as [|t ts IH]; intros os hs ls cs.
  - exists []. reflexivity.
  - destruct os as [|o os]; [exists (t :: ts); reflexivity|].
    destruct hs as [|h hs]; [exists (t :: ts); reflexivity|].
    destruct ls as [|l ls]; [exists (t :: ts); reflexivity|].
    destruct cs as [|c cs]; [exists (t :: ts); reflexivity|].
    destruct (IH os hs ls cs) as (rest & Hrest).
    exists rest. simpl. now rewrite <- Hrest.
Qed.

Lemma zip_rows_times bull bear (cs : list Candle) : forall es ats,
  length es = length cs -> length ats = length cs ->
  map r_time (zip_rows bull bear cs es ats) = map c_time cs.
Proof.
  induction cs as [|c cs IH]; intros es ats He Ha; [reflexivity|].
  destruct es as [|e es]; [discriminate|]. destruct ats as [|a ats]; [discriminate|].
  simpl. f_equal. apply IH; simpl in *; lia.
Qed.

(** The annotated frame has the candles' labels, row by row. *)
Lemma with_indicators_times (cs : list Candle) :
  map r_time (CheckAccuracy.with_indicators cs) = map c_time cs.
Proof.
  unfold CheckAccuracy.with_indicators, annotate. apply zip_rows_times.
  - apply IndicatorFacts.length_compute_emas.
  - apply IndicatorFacts.length_calculate_atr.
Qed.

Lemma rows_distinct (df : DataFrame) :
  Spec.distinct (df_index df) = true ->
  Spec.distinct (map r_time (CheckAccuracy.with_indicators (candles df))) = true.
Proof.
  intros Hd. rewrite with_indicators_times. unfold candles.
  destruct (zip_candles_times (df_index df) (column df "open") (column df "high")
              (column df "low") (column df "close")) as (rest & Hrest).
  rewrite Hrest in Hd. now apply distinct_prefix in Hd.
Qed.

(** On a frame with the required columns and distinct labels the
    price-based backtest returns. *)
Lemma backtest_distinct (df : DataFrame) (use_atr : bool) :
  has_required_cols df = true ->
  Spec.distinct (df_index df) = true ->
  CheckAccuracy.backtest_vectorized df use_atr
  = Returns (match CheckAccuracy.extract_trades use_atr
                     (CheckAccuracy.with_indicators (candles df)) with
             | [] => None
             | t :: ts =>
                 Some (CheckAccuracy.compute_stats
                         (CheckAccuracy.with_indicators (candles df)) (t :: ts))
             end).
Proof.
  intros Hcols Hd. apply LoopFacts.backtest_of_loop; [exact Hcols|].
  apply LoopFacts.run_loop_distinct. now apply rows_distinct.
Qed.

End IndexFacts.

(** C9 (as amended).  A frame lacking one of the columns open, high, low,
    close, volume is rejected with [ValueError] before anything is
    computed, in both backtests.  Nothing else is checked: the
    price-based backtest processes every frame that has the five columns
    and pairwise distinct labels, and the multiple-based backtest every
    frame that has the five columns, and each returns its result,
    whatever the order of the labels and the shape of the candles. *)
Theorem only_missing_columns_rejected :
  (forall df use_atr,
     Spec.missing_column df ->
     CheckAccuracy.backtest_vectorized df use_atr = Raises ValueError) /\
  (forall df use_atr,
     (forall col, In col required_cols -> is_Some (df_cols df !! col)) ->
     Spec.distinct (df_index df) = true ->
     exists report, CheckAccuracy.backtest_vectorized df use_atr = Returns report) /\
  (forall df bs bt ss st factor ratio,
     Spec.missing_column df ->
     OptimizeFixed.backtest_with_params df bs bt ss st factor ratio = Raises ValueError) /\
  (forall df bs bt ss st factor ratio,
     (forall col, In col required_cols -> is_Some (df_cols df !! col)) ->
     exists report,
       OptimizeFixed.backtest_with_params df bs bt ss st factor ratio = Returns report).
Proof.
  split; [|split; [|split]].
  - intros df use_atr H. apply InputFacts.has_required_cols_false in H.
    unfold CheckAccuracy.backtest_vectorized. now rewrite H.
  - intros df use_atr H Hd. apply InputFacts.has_required_cols_true in H.
    rewrite (IndexFacts.backtest_distinct df use_atr H Hd). eauto.
  - intros df bs bt ss st factor ratio H. apply InputFacts.has_required_cols_false in H.
    unfold OptimizeFixed.backtest_with_params. now rewrite H.
  - intros df bs bt ss st factor ratio H. apply InputFacts.has_required_cols_true in H.
    unfold OptimizeFixed.backtest_with_params. rewrite H. simpl.
    destruct (OptimizeFixed.extract_trades _ _ _ _ _); eauto.
Qed.

(** Instance of C9: a frame without a volume column is rejected, and the
    frame of [backwards], whose labels are distinct and decrease, is
    processed. *)
Lemma only_missing_columns_rejected_witness :
  CheckAccuracy.backtest_vectorized Samples.no_volume true = Raises ValueError /\
  exists report,
    CheckAccuracy.backtest_vectorized (frame_of Samples.backwards) true = Returns report.
Proof.
  split.
  - apply (proj1 only_missing_columns_rejected Samples.no_volume true).
    exists "volume"%string. split; [|vm_compute; reflexivity].
    simpl. tauto.
  - apply (proj1 (proj2 only_missing_columns_rejected) (frame_of Samples.backwards) true).
    + apply InputFacts.has_required_cols_true. vm_compute. reflexivity.
    + vm_compute. reflexivity.
Defined.

(** Counterexample to C9 as stated: none of the malformed inputs it names,
    other than a missing column, is rejected before computation.  The
    candle at position 100 of [inverted_candle] has its high below its
    low, yet the backtest returns a report whose one trade was entered at
    that very candle.  The labels of [backwards] decrease, yet the
    backtest returns a report.  The label 49 occurs twice in
    [repeated_label], yet the backtest returns a report.  The label of
    the exit candle occurs twice in [repeated_exit]: the frame passes the
    column test, the multiple-based backtest returns a report of one
    trade, and the price-based backtest fails with [TypeError] in the
    iteration that found the exit. *)
Lemma malformed_input_is_processed :
  Samples.inverted_candle !! 100%nat = Some (Samples.bar 100 100 97 98 101) /\
  c_high (Samples.bar 100 100 97 98 101) < c_low (Samples.bar 100 100 97 98 101) /\
  CheckAccuracy.backtest_vectorized (frame_of Samples.inverted_candle) true
    = Returns (Some Runs.inverted_stats) /\
  CheckAccuracy.trades Runs.inverted_stats = [Runs.inverted_trade] /\
  CheckAccuracy.t_entry_time Runs.inverted_trade = 100%Z /\
  Spec.increasing (df_index (frame_of Samples.backwards)) = false /\
  CheckAccuracy.backtest_vectorized (frame_of Samples.backwards) true
    = Returns (Some Runs.backwards_stats) /\
  CheckAccuracy.total_trades Runs.backwards_stats = 1%nat /\
  Spec.distinct (df_index (frame_of Samples.repeated_label)) = false /\
  CheckAccuracy.backtest_vectorized (frame_of Samples.repeated_label) true
    = Returns (Some Runs.repeated_label_stats) /\
  CheckAccuracy.total_trades Runs.repeated_label_stats = 1%nat /\
  Spec.distinct (df_index (frame_of Samples.repeated_exit)) = false /\
  has_required_cols (frame_of Samples.repeated_exit) = true /\
  Engine.scan_buy (CheckAccuracy.t_tp Runs.one_winner_first)
                  (CheckAccuracy.t_sl Runs.one_winner_first)
                  (Engine.future_data
                     (CheckAccuracy.with_indicators Samples.repeated_exit) 100)
    = Some (101%Z, true) /\
  CheckAccuracy.loop_body true (CheckAccuracy.with_indicators Samples.repeated_exit) 100
    = Raises TypeError /\
  CheckAccuracy.backtest_vectorized (frame_of Samples.repeated_exit) true
    = Raises TypeError /\
  OptimizeFixed.backtest_with_params (frame_of Samples.repeated_exit)
                                     1 2 2 4 (13 # 20) (3 # 2)
    = Returns Runs.one_winner_params_stats.
Proof.
  repeat split; vm_compute; reflexivity.
Qed.

(** ** Profit of the price-based backtest *)

(** C10.  In the price-based backtest over a frame with distinct labels,
    the exit price of a trade is the close of the exit row, the row found
    by the forward scan, and the profit is the signed move from the entry
    price to that close (for a BUY: exit close minus entry), the same
    whether the take or the stop level was touched.  Hence a trade can be
    recorded with [hit_tp] and a profit of zero or less: the backtest of
    [spike_then_drop] records one. *)
Theorem profit_is_close_delta :
  (forall use_atr rows i t,
     Spec.distinct (map Engine.r_time rows) = true ->
     CheckAccuracy.trade_at use_atr rows i = Some t ->
     exists k r,
       (k < 99)%nat /\ rows !! (S i + k)%nat = Some r /\
       CheckAccuracy.t_exit_time t = Engine.r_time r /\
       CheckAccuracy.t_exit_price t = Engine.r_close r /\
       CheckAccuracy.t_candles_held t = Z.of_nat (S k) /\
       CheckAccuracy.t_profit t
         == Spec.price_delta (CheckAccuracy.t_type t) (CheckAccuracy.t_entry_price t)
                             (Engine.r_close r)) /\
  (CheckAccuracy.backtest_vectorized (frame_of Samples.spike_then_drop) true
     = Returns (Some Runs.spike_stats) /\
   CheckAccuracy.trades Runs.spike_stats = [Runs.spike_trade] /\
   CheckAccuracy.t_type Runs.spike_trade = BUY /\
   CheckAccuracy.t_hit_tp Runs.spike_trade = true /\
   CheckAccuracy.t_profit Runs.spike_trade <= 0).
Proof.
  split.
  - intros use_atr rows i t Hd Ht.
    destruct (LoopFacts.trade_at_inv _ _ _ _ Ht)
      as (row & Hrow & _ & _ & Hscan & _ & _ & Hexit & Hprofit & pos & Hloc & Hheld).
    destruct (ScanFacts.scan_sound _ _ _ _ _ _ Hscan) as (k & r & Hfirst & Hts & _).
    destruct (ScanFacts.future_data_bound rows i k r (proj1 Hfirst)) as [Hk Hr].
    destruct (LoopFacts.loc_unique rows _ r Hd Hr) as [Hclose Hpos].
    rewrite Hts in Hexit, Hloc. rewrite Hclose in Hexit. rewrite Hpos in Hloc.
    assert (Hprice : CheckAccuracy.t_exit_price t = Engine.r_close r) by congruence.
    assert (Hp : pos = (S i + k)%nat) by congruence.
    subst pos. clear Hexit Hloc. rename Hprice into Hexit.
    exists k, r. split; [exact Hk|]. split; [exact Hr|]. split; [exact Hts|].
    split; [exact Hexit|]. split; [lia|].
    rewrite Hprofit, Hexit.
    destruct (CheckAccuracy.t_type t), (CheckAccuracy.t_hit_tp t); simpl; ring.
  - repeat split; vm_compute; try reflexivity. discriminate.
Qed.

(** Instance of C10: the trade of [spike_then_drop]. *)
Lemma profit_is_close_delta_witness :
  exists k r,
    (k < 99)%nat /\ Runs.spike_rows !! (S 100 + k)%nat = Some r /\
    CheckAccuracy.t_exit_time Runs.spike_trade = Engine.r_time r /\
    CheckAccuracy.t_exit_price Runs.spike_trade = Engine.r_close r /\
    CheckAccuracy.t_candles_held Runs.spike_trade = Z.of_nat (S k) /\
    CheckAccuracy.t_profit Runs.spike_trade
      == Spec.price_delta (CheckAccuracy.t_type Runs.spike_trade)
                          (CheckAccuracy.t_entry_price Runs.spike_trade)
                          (Engine.r_close r).
Proof.
  apply (proj1 profit_is_close_delta true Runs.spike_rows 100%nat Runs.spike_trade).
  - vm_compute. reflexivity.
  - vm_compute. reflexivity.
Defined.

(** ** The ATR of a well-formed series *)

Module RangeFacts.
Import Indicators.

Lemma well_formed_range (c : Candle) : Spec.well_formed c -> 0 <= c_high c - c_low c.
Proof.
  intros [Hlo Hhi].
  pose proof (Q.le_min_l (c_open c) (c_close c)).
  pose proof (Q.le_max_l (c_open c) (c_close c)).
  lra.
Qed.

Lemma true_range_row_ge (prev : option Q) (c : Candle) :
  c_high c - c_low c <= true_range_row prev c.
Proof.
  unfold true_range_row. destruct prev as [p|]; [|lra].
  eapply Qle_trans; [|apply Q.le_max_l]. apply Q.le_max_l.
Qed.

(** Each true range is at least the high-low range of its candle. *)
Lemma true_range_from_ge (cs : list Candle) : forall prev j v,
  true_range_from prev cs !! j = Some v ->
  exists c, cs !! j = Some c /\ c_high c - c_low c <= v.
Proof.
  induction cs as [|c cs IH]; intros prev j v H; [discriminate|].
  destruct j as [|j]; simpl in H.
  - inversion H; subst. exists c. split; [reflexivity|]. apply true_range_row_ge.
  - apply (IH _ _ _ H).
Qed.

Lemma sum_nonneg_all (xs : list Q) :
  Forall (fun x => 0 <= x) xs -> 0 <= Num.sum xs.
Proof.
  induction 1 as [|x r Hx Hr IH].
  - unfold Num.sum. simpl. lra.
  - rewrite StatsFacts.sum_cons. lra.
Qed.

Lemma sum_pos_member (xs : list Q) (i : nat) (x : Q) :
  Forall (fun x => 0 <= x) xs -> xs !! i = Some x -> 0 < x -> 0 < Num.sum xs.
Proof.
  intros Hall. revert i. induction Hall as [|y r Hy Hr IH]; intros i Hi Hx.
  - discriminate.
  - rewrite StatsFacts.sum_cons. destruct i as [|i]; simpl in Hi.
    + inversion Hi; subst. pose proof (sum_nonneg_all r Hr). lra.
    + pose proof (IH i Hi Hx). lra.
Qed.

(** From position [period - 1] on, the ATR of a well-formed series is
    defined, and it is positive on every candle with a positive range. *)
Lemma atr_positive_on_range (cs : list Candle) (period i : nat) (c : Candle) :
  Forall Spec.well_formed cs ->
  (1 <= period)%nat -> (period <= S i)%nat ->
  cs !! i = Some c ->
  0 < c_high c - c_low c ->
  exists v, calculate_atr cs period !! i = Some (Some v) /\ 0 < v.
Proof.
  intros Hwf Hp Hi Hc Hrange.
  assert (Hlen : (i < length cs)%nat) by (apply lookup_lt_Some in Hc; exact Hc).
  unfold calculate_atr, rolling_mean.
  rewrite list_lookup_fmap, lookup_seq_lt
    by (unfold true_range; rewrite IndicatorFacts.length_true_range_from; exact Hlen).
  simpl. unfold rolling_mean_at.
  assert (E : (S i <? period)%nat = false) by (apply Nat.ltb_ge; lia).
  rewrite E. eexists. split; [reflexivity|].
  assert (Hall : Forall (fun x => 0 <= x) (true_range cs)).
  { apply Forall_lookup. intros j v Hj.
    destruct (true_range_from_ge cs None j v Hj) as (c' & Hc' & Hle).
    pose proof (well_formed_range c' (proj1 (Forall_lookup _ _) Hwf j c' Hc')). lra. }
  assert (Hi_tr : exists v, true_range cs !! i = Some v /\ 0 < v).
  { destruct (true_range cs !! i) as [v|] eqn:Hv.
    - exists v. split; [reflexivity|].
      destruct (true_range_from_ge cs None i v Hv) as (c' & Hc' & Hle).
      rewrite Hc in Hc'. inversion Hc'; subst c'. lra.
    - apply lookup_ge_None in Hv. unfold true_range in Hv.
      rewrite IndicatorFacts.length_true_range_from in Hv. lia. }
  destruct Hi_tr as (v & Hv & Hvpos).
  assert (Hsum : 0 < Num.sum (window period (true_range cs) i)).
  { unfold window.
    change (firstn period) with (@take Q period).
    change (skipn (S i - period)) with (@drop Q (S i - period)).
    apply (sum_pos_member _ (period - 1) v).
    - apply Forall_take, Forall_drop, Hall.
    - rewrite lookup_take_lt by lia. rewrite lookup_drop.
      replace (S i - period + (period - 1))%nat with i by lia. exact Hv.
    - exact Hvpos. }
  apply Qlt_shift_div_l.
  - change 0 with (inject_Z 0). rewrite <- Zlt_Qlt. lia.
  - lra.
Qed.

End RangeFacts.

(** ** Signals of a well-formed series *)

Module SignalFacts.
Import Indicators Engine.

Lemma zip_rows_lookup bull bear (cs : list Candle) : forall es ats i row,
  zip_rows bull bear cs es ats !! i = Some row ->
  exists c e a, cs !! i = Some c /\ es !! i = Some e /\ ats !! i = Some a /\
                row = mk_row bull bear c e a.
Proof.
  induction cs as [|c cs IH]; intros es ats i row H; [discriminate|].
  destruct es as [|e es]; [discriminate|]. destruct ats as [|a ats]; [discriminate|].
  destruct i as [|i]; simpl in H.
  - inversion H; subst. exists c, e, a. auto.
  - apply (IH _ _ _ _ H).
Qed.

Lemma bearish_range_positive (row : Candle) :
  Spec.well_formed row -> CheckAccuracy.is_bearish_hammer row = true ->
  0 < c_high row - c_low row.
Proof.
  intros [Hlo Hhi] Hb. apply ClassifierFacts.backtest_bearish_iff in Hb.
  pose proof (Q.le_min_r (c_open row) (c_close row)).
  pose proof (Q.le_max_l (c_open row) (c_close row)).
  lra.
Qed.

(** On a well-formed series every signal row the loop visits has a
    positive ATR, so the fixed offsets never come into play there. *)
Lemma well_formed_signal_has_atr (cs : list Candle) (i : nat) (row : Row) :
  Forall Spec.well_formed cs ->
  (13 <= i)%nat ->
  CheckAccuracy.with_indicators cs !! i = Some row ->
  buy_signal row = true \/ sell_signal row = true ->
  atr_positive (atr row) = true.
Proof.
  intros Hwf Hi Hrow Hsig.
  unfold CheckAccuracy.with_indicators, annotate in Hrow.
  apply zip_rows_lookup in Hrow. destruct Hrow as (c & e & a & Hc & _ & Ha & ->).
  simpl in Hsig. simpl.
  assert (Hc_wf : Spec.well_formed c) by apply (proj1 (Forall_lookup _ _) Hwf i c Hc).
  assert (Hrange : 0 < c_high c - c_low c).
  { destruct Hsig as [Hb|Hs].
    - now apply ClassifierFacts.bullish_range_positive.
    - now apply bearish_range_positive. }
  destruct (RangeFacts.atr_positive_on_range cs 14 i c Hwf) as (v & Hv & Hpos);
    [lia | lia | exact Hc | exact Hrange |].
  rewrite Ha in Hv. inversion Hv; subst a. simpl. now apply NumFacts.gtb_gt.
Qed.

Lemma well_formedb_sound cs :
  forallb Spec2.well_formedb cs = true -> Forall Spec.well_formed cs.
Proof.
  intros H. apply Forall_forall. intros c Hc.
  apply list_elem_of_In in Hc.
  pose proof (proj1 (forallb_forall _ _) H c Hc) as Hb.
  unfold Spec2.well_formedb in Hb. apply andb_true_iff in Hb.
  destruct Hb as [H1 H2]. split; now apply Qle_bool_iff.
Qed.

End SignalFacts.

(** ** Signals without a usable ATR *)



(** * Further properties of the embedded code *)

(** ** The position table *)

Module TableFacts.
Import FinalBot.

Lemma has_position_lookup m instrument timeframe :
  has_active_position m instrument timeframe = true <->
  is_Some (m !! get_position_key instrument timeframe).
Proof. unfold has_active_position. apply bool_decide_eq_true. Qed.

Lemma has_position_none m instrument timeframe :
  has_active_position m instrument timeframe = false <->
  m !! get_position_key instrument timeframe = None.
Proof.
  unfold has_active_position. rewrite bool_decide_eq_false.
  rewrite <- eq_None_not_Some. reflexivity.
Qed.

Lemma underscore_inside (r s : string) :
  Spec2.no_underscore (r ++ "_" ++ s) = false.
Proof.
  induction r as [|c r IH]; simpl; [reflexivity|].
  rewrite IH. apply andb_false_r.
Qed.

Lemma key_injective (i i' tf tf' : string) :
  Spec2.no_underscore tf = true -> Spec2.no_underscore tf' = true ->
  get_position_key i tf = get_position_key i' tf' -> i = i' /\ tf = tf'.
Proof.
  unfold get_position_key. intros Htf Htf'. revert i'.
  induction i as [|c r IH]; intros [|c' r'] H; simpl in H.
  - injection H as Ht. auto.
  - injection H as Hc Ht. change ("" +:+ tf)%string with tf in Ht.
    rewrite Ht, underscore_inside in Htf. discriminate.
  - injection H as Hc Ht. change ("" +:+ tf')%string with tf' in Ht.
    rewrite <- Ht, underscore_inside in Htf'. discriminate.
  - injection H as Hc Ht. destruct (IH r' Ht) as [Hr Htf2]. subst. auto.
Qed.

End TableFacts.

(** X1.  Recording a position makes its key active, removing it makes the
    key inactive, removing what was just recorded on a free key restores
    the table, removing from a free key changes nothing, and neither
    operation changes whether some other key is active. *)
Theorem position_table_round_trip :
  forall (m : gmap string FinalBot.Position) instrument timeframe side entry now,
    FinalBot.has_active_position
      (FinalBot.add_active_position m instrument timeframe side entry now)
      instrument timeframe = true /\
    FinalBot.has_active_position
      (FinalBot.remove_active_position m instrument timeframe)
      instrument timeframe = false /\
    (FinalBot.has_active_position m instrument timeframe = false ->
     FinalBot.remove_active_position m instrument timeframe = m /\
     FinalBot.remove_active_position
       (FinalBot.add_active_position m instrument timeframe side entry now)
       instrument timeframe = m) /\
    (forall instrument' timeframe',
       FinalBot.get_position_key instrument' timeframe'
         <> FinalBot.get_position_key instrument timeframe ->
       FinalBot.has_active_position
         (FinalBot.add_active_position m instrument timeframe side entry now)
         instrument' timeframe'
       = FinalBot.has_active_position m instrument' timeframe' /\
       FinalBot.has_active_position
         (FinalBot.remove_active_position m instrument timeframe)
         instrument' timeframe'
       = FinalBot.has_active_position m instrument' timeframe').
Proof.
  intros m instrument timeframe side entry now.
  split; [apply LiveFacts.has_position_after_add|].
  split.
  { unfold FinalBot.remove_active_position. case_bool_decide as Hk.
    - apply TableFacts.has_position_none. apply lookup_delete_eq.
    - apply TableFacts.has_position_none. now apply eq_None_not_Some. }
  split.
  { intros Hfree. apply TableFacts.has_position_none in Hfree. split.
    - unfold FinalBot.remove_active_position. case_bool_decide as Hk; [|reflexivity].
      rewrite Hfree in Hk. destruct Hk as [x Hx]. discriminate.
    - unfold FinalBot.remove_active_position, FinalBot.add_active_position.
      rewrite lookup_insert_eq. case_bool_decide as Hk.
      + rewrite delete_insert_eq. now apply delete_id.
      + exfalso. apply Hk. eauto. }
  intros instrument' timeframe' Hne. split.
  - unfold FinalBot.has_active_position, FinalBot.add_active_position.
    now rewrite lookup_insert_ne.
  - unfold FinalBot.has_active_position, FinalBot.remove_active_position.
    destruct (bool_decide (is_Some (m !! FinalBot.get_position_key instrument timeframe)));
      [|reflexivity].
    now rewrite lookup_delete_ne.
Qed.

(** X2.  Two distinct instrument/timeframe pairs whose timeframes contain
    no underscore never share a position key. *)
Theorem position_keys_distinct (i i' tf tf' : string) :
  Spec2.no_underscore tf = true -> Spec2.no_underscore tf' = true ->
  i <> i' \/ tf <> tf' ->
  FinalBot.get_position_key i tf <> FinalBot.get_position_key i' tf'.
Proof.
  intros Htf Htf' Hne Heq.
  destruct (TableFacts.key_injective i i' tf tf' Htf Htf' Heq) as [Hi Ht].
  destruct Hne as [Hne|Hne]; contradiction.
Qed.

(** Instance of X2: the same instrument on the M5 and the M15 frame. *)
Lemma position_keys_distinct_witness :
  FinalBot.get_position_key "BTC_USD" "M5" <> FinalBot.get_position_key "BTC_USD" "M15".
Proof.
  apply (position_keys_distinct "BTC_USD" "BTC_USD" "M5" "M15").
  - vm_compute. reflexivity.
  - vm_compute. reflexivity.
  - right. discriminate.
Defined.

(** Instance of X1: a BUY recorded for BTC_USD on M5 in an empty table,
    then removed. *)
Lemma position_table_round_trip_witness :
  FinalBot.remove_active_position (∅ : gmap string FinalBot.Position) "BTC_USD" "M5" = ∅ /\
  FinalBot.remove_active_position
    (FinalBot.add_active_position ∅ "BTC_USD" "M5" BUY 101 1000) "BTC_USD" "M5" = ∅.
Proof.
  apply (proj1 (proj2 (proj2
           (position_table_round_trip ∅ "BTC_USD" "M5" BUY 101 1000)))).
  vm_compute. reflexivity.
Defined.

(** ** Rounding of the live price levels *)

Module RoundFacts.
Import FinalBot.

Lemma scale_positive (p : Z) : (0 <= p)%Z -> 0 < inject_Z (10 ^ p).
Proof.
  intros Hp. change 0 with (inject_Z 0). rewrite <- Zlt_Qlt.
  apply Z.pow_pos_nonneg; lia.
Qed.

(** The rounded value is a whole number of units, at most half a unit away. *)
Lemma py_round_nearest (x : Q) (p : Z) :
  exists n : Z,
    py_round x p = inject_Z n / inject_Z (10 ^ p) /\
    Qabs (inject_Z n - x * inject_Z (10 ^ p)) <= 1 # 2.
Proof.
  unfold py_round. set (y := x * inject_Z (10 ^ p)).
  pose proof (Qfloor_le y) as Hlo. pose proof (Qlt_floor y) as Hhi.
  rewrite inject_Z_plus in Hhi. change (inject_Z 1) with 1 in Hhi.
  destruct (Num.ltb (y - inject_Z (Qfloor y)) (1 # 2)) eqn:E1.
  - exists (Qfloor y). split; [reflexivity|]. bool_to_prop.
    apply Qabs_Qle_condition. split; lra.
  - bool_to_prop.
    destruct (Num.gtb (y - inject_Z (Qfloor y)) (1 # 2)) eqn:E2.
    + exists (Qfloor y + 1)%Z. split; [reflexivity|]. bool_to_prop.
      rewrite inject_Z_plus. change (inject_Z 1) with 1.
      apply Qabs_Qle_condition. split; lra.
    + bool_to_prop. destruct (Z.even (Qfloor y)).
      * exists (Qfloor y). split; [reflexivity|].
        apply Qabs_Qle_condition. split; lra.
      * exists (Qfloor y + 1)%Z. split; [reflexivity|].
        rewrite inject_Z_plus. change (inject_Z 1) with 1.
        apply Qabs_Qle_condition. split; lra.
Qed.

(** A whole number of units rounds to itself. *)
Lemma py_round_unit (n p : Z) :
  (0 <= p)%Z ->
  py_round (inject_Z n / inject_Z (10 ^ p)) p = inject_Z n / inject_Z (10 ^ p).
Proof.
  intros Hp. pose proof (scale_positive p Hp) as Hs.
  unfold py_round. set (s := inject_Z (10 ^ p)) in *.
  assert (Hy : inject_Z n / s * s == inject_Z n) by (field; lra).
  assert (Hf : Qfloor (inject_Z n / s * s) = n).
  { rewrite Hy. apply Qfloor_Z. }
  rewrite Hf.
  assert (E : Num.ltb (inject_Z n / s * s - inject_Z n) (1 # 2) = true).
  { apply NumFacts.ltb_lt. rewrite Hy. lra. }
  rewrite E. reflexivity.
Qed.

(** Equal rationals round to the same fraction. *)
Lemma py_round_wd (x y : Q) (p : Z) : x == y -> py_round x p = py_round y p.
Proof.
  intros Hxy. unfold py_round.
  assert (Hs : x * inject_Z (10 ^ p) == y * inject_Z (10 ^ p)) by now rewrite Hxy.
  assert (Hf : Qfloor (x * inject_Z (10 ^ p)) = Qfloor (y * inject_Z (10 ^ p)))
    by now rewrite Hs.
  rewrite Hf.
  set (f := Qfloor (y * inject_Z (10 ^ p))).
  assert (Hd : x * inject_Z (10 ^ p) - inject_Z f == y * inject_Z (10 ^ p) - inject_Z f)
    by now rewrite Hs.
  assert (H1 : Num.ltb (x * inject_Z (10 ^ p) - inject_Z f) (1 # 2)
               = Num.ltb (y * inject_Z (10 ^ p) - inject_Z f) (1 # 2)).
  { unfold Num.ltb. now rewrite Hd. }
  assert (H2 : Num.gtb (x * inject_Z (10 ^ p) - inject_Z f) (1 # 2)
               = Num.gtb (y * inject_Z (10 ^ p) - inject_Z f) (1 # 2)).
  { unfold Num.gtb, Num.ltb. now rewrite Hd. }
  now rewrite H1, H2.
Qed.

Lemma py_round_idempotent (x : Q) (p : Z) :
  (0 <= p)%Z -> py_round (py_round x p) p = py_round x p.
Proof.
  intros Hp. destruct (py_round_nearest x p) as (n & -> & _).
  now apply py_round_unit.
Qed.

(** The error of rounding to [p] decimals is at most half of [10^-p]. *)
Lemma py_round_error (x : Q) (p : Z) :
  (0 <= p)%Z -> Qabs (py_round x p - x) <= (1 # 2) / inject_Z (10 ^ p).
Proof.
  intros Hp. pose proof (scale_positive p Hp) as Hs.
  destruct (py_round_nearest x p) as (n & -> & Hn).
  set (s := inject_Z (10 ^ p)) in *.
  apply Qabs_Qle_condition in Hn. destruct Hn as [Hlo Hhi].
  apply Qabs_Qle_condition.
  assert (Hd : inject_Z n / s - x == (inject_Z n - x * s) / s) by (field; lra).
  assert (Hm : - ((1 # 2) / s) == (- (1 # 2)) / s) by (field; lra).
  rewrite Hd, Hm. split.
  - apply Qle_shift_div_l; [exact Hs|].
    assert (E : - (1 # 2) / s * s == - (1 # 2)) by (field; lra).
    rewrite E. exact Hlo.
  - apply Qle_shift_div_r; [exact Hs|].
    assert (E : (1 # 2) / s * s == 1 # 2) by (field; lra).
    rewrite E. exact Hhi.
Qed.

Lemma precision_nonneg (instrument : string) : (0 <= Spec2.precision_of instrument)%Z.
Proof.
  unfold Spec2.precision_of, INSTRUMENT_PRECISION.
  destruct (decide (instrument = "BTC_USD"%string)) as [->|H1].
  { rewrite lookup_insert_eq. simpl. lia. }
  rewrite lookup_insert_ne by congruence.
  destruct (decide (instrument = "XAU_USD"%string)) as [->|H2].
  { rewrite lookup_insert_eq. simpl. lia. }
  rewrite lookup_insert_ne by congruence. rewrite lookup_empty. simpl. lia.
Qed.

End RoundFacts.

(** X3.  For a precision of zero or more, each of the four values returned
    by [calculate_dynamic_sl_tp] is unchanged by rounding it again to the
    same precision, each distance is within half a unit of its ATR
    multiple, and each price within half a unit of the entry moved by the
    rounded distance (down for a BUY stop and a SELL take, up otherwise). *)
Theorem dynamic_levels_on_grid (entry a : Q) (precision : Z) (trade_type : Side) :
  (0 <= precision)%Z ->
  let '(sl_price, tp_price, sl_distance, tp_distance) :=
    FinalBot.calculate_dynamic_sl_tp entry a precision trade_type in
  let half_unit := (1 # 2) / inject_Z (10 ^ precision) in
  FinalBot.py_round sl_price precision = sl_price /\
  FinalBot.py_round tp_price precision = tp_price /\
  FinalBot.py_round sl_distance precision = sl_distance /\
  FinalBot.py_round tp_distance precision = tp_distance /\
  Qabs (sl_distance - Spec2.sl_mult trade_type * a) <= half_unit /\
  Qabs (tp_distance - Spec2.tp_mult trade_type * a) <= half_unit /\
  Qabs (sl_price - Spec2.stop_target trade_type entry sl_distance) <= half_unit /\
  Qabs (tp_price - Spec2.take_target trade_type entry tp_distance) <= half_unit.
Proof.
  intros Hp.
  destruct trade_type; cbn [FinalBot.calculate_dynamic_sl_tp]; cbv zeta;
    unfold Spec2.sl_mult, Spec2.tp_mult, Spec2.stop_target, Spec2.take_target;
    (split; [now apply RoundFacts.py_round_idempotent|]);
    (split; [now apply RoundFacts.py_round_idempotent|]);
    (split; [now apply RoundFacts.py_round_idempotent|]);
    (split; [now apply RoundFacts.py_round_idempotent|]);
    (split; [now apply RoundFacts.py_round_error|]);
    (split; [now apply RoundFacts.py_round_error|]);
    (split; now apply RoundFacts.py_round_error).
Qed.

(** Instance of X3: the BUY levels of the first poll, at two decimals. *)
Lemma dynamic_levels_on_grid_witness :
  let '(sl_price, tp_price, sl_distance, tp_distance) :=
    FinalBot.calculate_dynamic_sl_tp 101 (2 # 7) 2 BUY in
  let half_unit := (1 # 2) / inject_Z (10 ^ 2) in
  FinalBot.py_round sl_price 2 = sl_price /\
  FinalBot.py_round tp_price 2 = tp_price /\
  FinalBot.py_round sl_distance 2 = sl_distance /\
  FinalBot.py_round tp_distance 2 = tp_distance /\
  Qabs (sl_distance - Spec2.sl_mult BUY * (2 # 7)) <= half_unit /\
  Qabs (tp_distance - Spec2.tp_mult BUY * (2 # 7)) <= half_unit /\
  Qabs (sl_price - Spec2.stop_target BUY 101 sl_distance) <= half_unit /\
  Qabs (tp_price - Spec2.take_target BUY 101 tp_distance) <= half_unit.
Proof.
  apply (dynamic_levels_on_grid 101 (2 # 7) 2 BUY). lia.
Defined.

(** ** One pass of the live poller *)

Module PollFacts.
Import FinalBot.

Lemma last_map_some {A} (l : list A) :
  List.last (map Some l) None = None -> l = [].
Proof.
  induction l as [|x r IH]; [reflexivity|].
  simpl. destruct r as [|y r]; [discriminate|].
  intros H. specialize (IH H). discriminate.
Qed.

Lemma compute_emas_length cs f s : length (compute_emas cs f s) = length cs.
Proof.
  unfold compute_emas. rewrite length_zip_with.
  rewrite IndicatorFacts.length_compute_emas. lia.
Qed.

Lemma decision_row_none df :
  Spec2.decision_row df = None -> List.filter lc_complete df = [].
Proof.
  unfold Spec2.decision_row. intros H. apply last_map_some in H.
  apply (f_equal (@length _)) in H. rewrite compute_emas_length, length_map in H.
  now apply nil_length_inv.
Qed.

(** A pass that offers no candle, or the candle of the pass before, does
    nothing at all. *)
Lemma iteration_nothing_offered instrument timeframe st p :
  Spec2.offered_label p = None ->
  iteration instrument timeframe st p = (st, Idle).
Proof.
  unfold Spec2.offered_label, iteration. intros H.
  destruct (fetched p) as [df|]; [|reflexivity].
  destruct (_ || _); [reflexivity|].
  destruct (Spec2.decision_row df) as [row|] eqn:Hrow; [discriminate|].
  pose proof (decision_row_none df Hrow) as Hnil. rewrite Hnil. reflexivity.
Qed.

Lemma iteration_same_candle instrument timeframe st p ts :
  Spec2.offered_label p = Some ts -> last_time st = Some ts ->
  iteration instrument timeframe st p = (st, Idle).
Proof.
  unfold Spec2.offered_label, iteration. intros H Hlast.
  destruct (fetched p) as [df|]; [|discriminate].
  destruct (_ || _); [discriminate|].
  unfold Spec2.decision_row in H.
  destruct (length (List.filter lc_complete df) =? 0)%nat; [reflexivity|].
  destruct (List.last _ None) as [row|]; [|discriminate].
  simpl in H. inversion H; subst ts.
  rewrite bool_decide_eq_true_2 by exact Hlast. reflexivity.
Qed.

(** A pass that is offered a new candle remembers its label. *)
Lemma iteration_new_candle instrument timeframe st p ts :
  Spec2.offered_label p = Some ts -> last_time st <> Some ts ->
  last_time (fst (iteration instrument timeframe st p)) = Some ts.
Proof.
  unfold Spec2.offered_label, iteration,
    place_market_buy_with_sl_tp, place_market_sell_with_sl_tp, place_market_order.
  intros H Hlast.
  destruct (fetched p) as [df|]; [|discriminate].
  destruct (_ || _); [discriminate|].
  unfold Spec2.decision_row in H.
  destruct (length (List.filter lc_complete df) =? 0)%nat eqn:Hlen.
  { apply Nat.eqb_eq, nil_length_inv in Hlen. rewrite Hlen in H. discriminate. }
  destruct (List.last _ None) as [row|]; [|discriminate].
  simpl in H. inversion H; subst ts.
  rewrite bool_decide_eq_false_2 by exact Hlast.
  repeat case_match; simplify_eq; reflexivity.
Qed.

(** The order an order function posts, and when it counts as accepted. *)
Lemma place_market_order_event side instrument n sl tp entry timeframe positions p m ev :
  place_market_order side instrument n sl tp entry timeframe positions p = (m, ev) ->
  exists ok,
    ev = Posted {| o_side := side;
                   o_units := match side with BUY => n | SELL => (- n)%Z end;
                   o_instrument := instrument;
                   o_stop_loss := py_round sl (Spec2.precision_of instrument);
                   o_take_profit := py_round tp (Spec2.precision_of instrument) |} ok /\
    (ok = true <-> post_status p = Some 201%Z).
Proof.
  unfold place_market_order, Spec2.precision_of. intros H.
  repeat case_match; simplify_eq; eexists; (split; [reflexivity|]);
    split; congruence.
Qed.

(** Everything that holds when a pass posts an order. *)
Lemma iteration_posted instrument timeframe st p st1 o ok :
  iteration instrument timeframe st p = (st1, Posted o ok) ->
  exists df row,
    fetched p = Some df /\
    Spec2.decision_row df = Some row /\
    last_time st <> Some (c_time (candle row)) /\
    has_active_position (active_positions st) instrument timeframe = false /\
    o_instrument o = instrument /\
    (ok = true <-> post_status p = Some 201%Z) /\
    let '(sl_price, tp_price, _, _) :=
      calculate_dynamic_sl_tp (c_close (candle row)) (Spec2.decision_atr df)
                              (Spec2.precision_of instrument) (o_side o) in
    o_stop_loss o = py_round sl_price (Spec2.precision_of instrument) /\
    o_take_profit o = py_round tp_price (Spec2.precision_of instrument) /\
    match o_side o with
    | SELL =>
        is_bearish_hammer row = true /\ is_downtrend row = true /\
        o_units o = (- units CFG)%Z /\
        sl_price <= c_close (candle row) /\ tp_price < c_close (candle row)
    | BUY =>
        is_bullish_hammer row = true /\ is_uptrend row = true /\
        o_units o = units CFG /\
        sl_price < c_close (candle row) /\ c_close (candle row) < tp_price
    end.
Proof.
  unfold iteration, place_market_buy_with_sl_tp, place_market_sell_with_sl_tp.
  intros H.
  destruct (fetched p) as [df|]; [|discriminate]. exists df.
  destruct (_ || _); [discriminate|].
  destruct (length (List.filter lc_complete df) =? 0)%nat; [discriminate|].
  unfold Spec2.decision_row, Spec2.decision_atr.
  change (default 2%Z (INSTRUMENT_PRECISION !! instrument))
    with (Spec2.precision_of instrument) in H.
  change (use_atr CFG) with true in *. cbv iota in H. cbv iota.
  destruct (List.last _ None) as [row|]; [|discriminate]. exists row.
  split; [reflexivity|]. split; [reflexivity|].
  case_bool_decide as Hlast; [discriminate|]. split; [exact Hlast|].
  cbn [active_positions set_last_time] in H.
  destruct (has_active_position _ _ _) eqn:Hfree; [discriminate|].
  split; [reflexivity|].
  destruct (is_bearish_hammer row && is_downtrend row) eqn:Hsell.
  - apply andb_true_iff in Hsell. destruct Hsell as [Hb Hd].
    destruct (calculate_dynamic_sl_tp _ _ _ SELL) as [[[sl tp] sd] td] eqn:Hlv.
    destruct (Num.leb sl _ && Num.ltb tp _) eqn:Hg; [|discriminate].
    apply andb_true_iff in Hg. destruct Hg as [Hg1 Hg2]. bool_to_prop.
    destruct (place_market_order SELL _ _ _ _ _ _ _ _) as [m ev] eqn:Hp.
    inversion H; subst st1 ev; clear H.
    apply place_market_order_event in Hp. destruct Hp as (ok' & Hev & Hok).
    inversion Hev; subst o ok'; clear Hev.
    cbn [o_side o_instrument o_stop_loss o_take_profit o_units].
    rewrite Hlv. auto 10.
  - destruct (is_bullish_hammer row && is_uptrend row) eqn:Hbuy; [|discriminate].
    apply andb_true_iff in Hbuy. destruct Hbuy as [Hb Hu].
    destruct (calculate_dynamic_sl_tp _ _ _ BUY) as [[[sl tp] sd] td] eqn:Hlv.
    destruct (Num.ltb sl _ && Num.gtb tp _) eqn:Hg; [|discriminate].
    apply andb_true_iff in Hg. destruct Hg as [Hg1 Hg2]. bool_to_prop.
    destruct (place_market_order BUY _ _ _ _ _ _ _ _) as [m ev] eqn:Hp.
    inversion H; subst st1 ev; clear H.
    apply place_market_order_event in Hp. destruct Hp as (ok' & Hev & Hok).
    inversion Hev; subst o ok'; clear Hev.
    cbn [o_side o_instrument o_stop_loss o_take_profit o_units].
    rewrite Hlv. auto 10.
Qed.

End PollFacts.

(** X4.  Whenever a pass posts an order, the key of the poller was free,
    the last completed candle of the fetched frame is a hammer of the
    order's direction with the matching trend, and the posted levels are
    those computed from its close: a BUY has its stop below and its take
    above the close; a SELL has its take below the close and its stop at
    or below the close. *)
Theorem posted_order_levels instrument timeframe st p st1 o ok :
  FinalBot.iteration instrument timeframe st p = (st1, FinalBot.Posted o ok) ->
  FinalBot.has_active_position (FinalBot.active_positions st) instrument timeframe
    = false /\
  exists df row,
    FinalBot.fetched p = Some df /\
    Spec2.decision_row df = Some row /\
    match FinalBot.o_side o with
    | BUY =>
        FinalBot.is_bullish_hammer row = true /\ FinalBot.is_uptrend row = true /\
        FinalBot.o_stop_loss o < c_close (FinalBot.candle row) /\
        c_close (FinalBot.candle row) < FinalBot.o_take_profit o
    | SELL =>
        FinalBot.is_bearish_hammer row = true /\ FinalBot.is_downtrend row = true /\
        FinalBot.o_stop_loss o <= c_close (FinalBot.candle row) /\
        FinalBot.o_take_profit o < c_close (FinalBot.candle row)
    end.
Proof.
  intros H. apply PollFacts.iteration_posted in H.
  destruct H as (df & row & Hdf & Hrow & _ & Hfree & _ & _ & H).
  split; [exact Hfree|]. exists df, row. split; [exact Hdf|]. split; [exact Hrow|].
  pose proof (RoundFacts.precision_nonneg instrument) as Hp.
  destruct (FinalBot.o_side o); cbn [FinalBot.calculate_dynamic_sl_tp] in H;
    destruct H as (Hsl & Htp & Hb & Ht & _ & Hlo & Hhi);
    rewrite RoundFacts.py_round_idempotent in Hsl, Htp by exact Hp;
    rewrite Hsl, Htp; auto.
Qed.

(** Instance of X4: the first poll of a fresh poller. *)
Lemma posted_order_levels_witness :
  FinalBot.has_active_position
    (FinalBot.active_positions Samples.fresh_poller) "BTC_USD" "M5" = false /\
  exists df row,
    FinalBot.fetched Samples.first_poll = Some df /\
    Spec2.decision_row df = Some row /\
    match FinalBot.o_side (Runs2.first_order) with
    | BUY =>
        FinalBot.is_bullish_hammer row = true /\ FinalBot.is_uptrend row = true /\
        FinalBot.o_stop_loss Runs2.first_order < c_close (FinalBot.candle row) /\
        c_close (FinalBot.candle row) < FinalBot.o_take_profit Runs2.first_order
    | SELL =>
        FinalBot.is_bearish_hammer row = true /\ FinalBot.is_downtrend row = true /\
        FinalBot.o_stop_loss Runs2.first_order <= c_close (FinalBot.candle row) /\
        FinalBot.o_take_profit Runs2.first_order < c_close (FinalBot.candle row)
    end.
Proof.
  apply (posted_order_levels "BTC_USD" "M5" Samples.fresh_poller Samples.first_poll
           Runs.after_first_poll Runs2.first_order true).
  vm_compute. reflexivity.
Defined.

(** X5.  A pass changes nothing and posts nothing when the fetch raised,
    when fewer than [ema_slow + 1] candles came back, when no candle is
    complete, or when the last completed candle is the one the pass before
    decided on. *)
Theorem stale_poll_does_nothing instrument timeframe st p :
  Spec2.offered_label p = None \/ Spec2.offered_label p = FinalBot.last_time st ->
  FinalBot.iteration instrument timeframe st p = (st, FinalBot.Idle).
Proof.
  intros [H|H].
  - now apply PollFacts.iteration_nothing_offered.
  - destruct (Spec2.offered_label p) as [ts|] eqn:E.
    + now apply (PollFacts.iteration_same_candle _ _ _ _ ts).
    + now apply PollFacts.iteration_nothing_offered.
Qed.

(** Instance of X5: the poller that decided on the first poll sees it again. *)
Lemma stale_poll_does_nothing_witness :
  FinalBot.iteration "BTC_USD" "M5" Runs.after_first_poll Samples.first_poll
  = (Runs.after_first_poll, FinalBot.Idle).
Proof.
  apply (stale_poll_does_nothing "BTC_USD" "M5" Runs.after_first_poll
           Samples.first_poll).
  right. vm_compute. reflexivity.
Defined.

(** X6.  Polling the same data a second time is idle and leaves the state
    as the first pass left it, whatever the first pass did; and a pass that
    is offered a candle it has not decided on remembers that candle's
    label, also when the broker refused its order. *)
Theorem repeated_poll_is_idle instrument timeframe st p :
  FinalBot.iteration instrument timeframe
    (fst (FinalBot.iteration instrument timeframe st p)) p
  = (fst (FinalBot.iteration instrument timeframe st p), FinalBot.Idle) /\
  (forall ts, Spec2.offered_label p = Some ts ->
     FinalBot.last_time (fst (FinalBot.iteration instrument timeframe st p)) = Some ts).
Proof.
  assert (Hts : forall ts, Spec2.offered_label p = Some ts ->
            FinalBot.last_time (fst (FinalBot.iteration instrument timeframe st p))
            = Some ts).
  { intros ts Hoff.
    destruct (decide (FinalBot.last_time st = Some ts)) as [Hsame|Hnew].
    - rewrite (PollFacts.iteration_same_candle _ _ _ _ ts Hoff Hsame). exact Hsame.
    - now apply PollFacts.iteration_new_candle. }
  split; [|exact Hts].
  destruct (Spec2.offered_label p) as [ts|] eqn:Hoff.
  - apply (PollFacts.iteration_same_candle _ _ _ _ ts Hoff). now apply Hts.
  - now apply PollFacts.iteration_nothing_offered.
Qed.

(** ** What a run does to the position table *)

Module RunFacts.
Import FinalBot.

Lemma iteration_keeps instrument timeframe st p (k : string) (v : Position) :
  active_positions st !! k = Some v ->
  active_positions (fst (iteration instrument timeframe st p)) !! k = Some v.
Proof.
  intros Hk. destruct (iteration instrument timeframe st p) as [st1 ev] eqn:E.
  apply LiveFacts.iteration_spec in E. simpl.
  destruct E as [[_ ->] | [Hfree [(o & _ & ->) | (o & side & entry & _ & ->)]]];
    try exact Hk.
  apply TableFacts.has_position_none in Hfree.
  unfold add_active_position. rewrite lookup_insert_ne; [exact Hk|].
  intros Heq. rewrite Heq in Hfree. congruence.
Qed.

Lemma iteration_foreign_key instrument timeframe st p (k : string) :
  k <> get_position_key instrument timeframe ->
  active_positions (fst (iteration instrument timeframe st p)) !! k
  = active_positions st !! k.
Proof.
  intros Hk. destruct (iteration instrument timeframe st p) as [st1 ev] eqn:E.
  apply LiveFacts.iteration_spec in E. simpl.
  destruct E as [[_ ->] | [Hfree [(o & _ & ->) | (o & side & entry & _ & ->)]]];
    try reflexivity.
  unfold add_active_position. now rewrite lookup_insert_ne.
Qed.

End RunFacts.

(** X7.  A run of the poller never removes or replaces a recorded
    position, and never touches a key other than its own. *)
Theorem run_keeps_positions instrument timeframe polls :
  forall st,
    (forall (k : string) (v : FinalBot.Position),
       FinalBot.active_positions st !! k = Some v ->
       FinalBot.active_positions
         (fst (FinalBot.run_for_instrument_and_timeframe instrument timeframe st polls))
         !! k = Some v) /\
    (forall k : string,
       k <> FinalBot.get_position_key instrument timeframe ->
       FinalBot.active_positions
         (fst (FinalBot.run_for_instrument_and_timeframe instrument timeframe st polls))
         !! k = FinalBot.active_positions st !! k).
Proof.
  induction polls as [|p rest IH]; intros st; simpl.
  - split; auto.
  - pose proof (RunFacts.iteration_keeps instrument timeframe st p) as Hkeep.
    pose proof (RunFacts.iteration_foreign_key instrument timeframe st p) as Hforeign.
    destruct (FinalBot.iteration instrument timeframe st p) as [st1 ev].
    simpl in Hkeep, Hforeign. destruct (IH st1) as [IH1 IH2].
    destruct (FinalBot.run_for_instrument_and_timeframe instrument timeframe st1 rest)
      as [st2 evs].
    simpl in *. split.
    + intros k v Hk. apply IH1, Hkeep, Hk.
    + intros k Hk. rewrite IH2 by exact Hk. now apply Hforeign.
Qed.

(** Instance of X7: the position recorded by the first poll survives the
    second. *)
Lemma run_keeps_positions_witness :
  FinalBot.active_positions
    (fst (FinalBot.run_for_instrument_and_timeframe "BTC_USD" "M5"
            Runs.after_first_poll [Samples.second_poll]))
    !! FinalBot.get_position_key "BTC_USD" "M5"
  = Some {| FinalBot.p_type := BUY; FinalBot.p_entry := 101;
            FinalBot.p_timestamp := 1000 |}.
Proof.
  apply (proj1 (run_keeps_positions "BTC_USD" "M5" [Samples.second_poll]
                  Runs.after_first_poll)).
  vm_compute. reflexivity.
Defined.

(** ** The trend filter and the live ATR *)

Module TrendFacts.
Import FinalBot.

Lemma compute_emas_row cs f s i row :
  compute_emas cs f s !! i = Some row ->
  exists c e, cs !! i = Some c /\ Indicators.compute_emas cs f s !! i = Some e /\
              row = {| candle := c; emas := e |}.
Proof.
  unfold compute_emas. intros H. apply lookup_zip_with_Some in H.
  destruct H as (c & e & -> & Hc & He). eauto.
Qed.

Lemma emas_envelope cs f s i e :
  Indicators.compute_emas cs f s !! i = Some e ->
  Indicators.EMA_lower e = Qmin (Indicators.EMA_fast e) (Indicators.EMA_slow e) /\
  Indicators.EMA_upper e = Qmax (Indicators.EMA_fast e) (Indicators.EMA_slow e).
Proof.
  unfold Indicators.compute_emas. intros H. apply lookup_zip_with_Some in H.
  destruct H as (a & b & -> & _ & _). simpl. auto.
Qed.

Lemma first_row_emas cs f s row :
  compute_emas cs f s !! 0%nat = Some row ->
  Indicators.EMA_fast (emas row) = c_close (candle row) /\
  Indicators.EMA_slow (emas row) = c_close (candle row).
Proof.
  intros H. apply compute_emas_row in H. destruct H as (c & e & Hc & He & ->).
  unfold Indicators.compute_emas in He. apply lookup_zip_with_Some in He.
  destruct He as (a & b & -> & Ha & Hb). simpl.
  destruct cs as [|c0 cs]; [discriminate|]. simpl in *.
  inversion Hc; inversion Ha; inversion Hb; subst. auto.
Qed.

End TrendFacts.

(** X8.  On the rows [compute_emas] returns, the two trend tests fail
    together only where the close equals both EMAs; they do fail together
    on the first row, whose EMAs are its close.  So a frame with a single
    completed candle never leads to an order. *)
Theorem trend_tests_fail_together :
  (forall cs f s i row,
     FinalBot.compute_emas cs f s !! i = Some row ->
     FinalBot.is_uptrend row = false -> FinalBot.is_downtrend row = false ->
     c_close (FinalBot.candle row) == Indicators.EMA_fast (FinalBot.emas row) /\
     c_close (FinalBot.candle row) == Indicators.EMA_slow (FinalBot.emas row)) /\
  (forall cs f s row,
     FinalBot.compute_emas cs f s !! 0%nat = Some row ->
     FinalBot.is_uptrend row = false /\ FinalBot.is_downtrend row = false) /\
  (forall instrument timeframe st p df c,
     FinalBot.fetched p = Some df ->
     List.filter FinalBot.lc_complete df = [c] ->
     snd (FinalBot.iteration instrument timeframe st p) = FinalBot.Idle).
Proof.
  assert (Hfirst : forall cs f s row,
            FinalBot.compute_emas cs f s !! 0%nat = Some row ->
            FinalBot.is_uptrend row = false /\ FinalBot.is_downtrend row = false).
  { intros cs f s row H.
    destruct (TrendFacts.first_row_emas _ _ _ _ H) as [Hf Hs].
    apply TrendFacts.compute_emas_row in H. destruct H as (c & e & _ & He & ->).
    destruct (TrendFacts.emas_envelope _ _ _ _ _ He) as [Hlo Hhi].
    simpl in *. unfold FinalBot.is_uptrend, FinalBot.is_downtrend. simpl.
    rewrite Hlo, Hhi, Hf, Hs. split.
    - apply NumFacts.gtb_le. apply Q.min_glb; lra.
    - apply NumFacts.ltb_ge. apply Q.max_lub; lra. }
  split; [|split; [exact Hfirst|]].
  - intros cs f s i row H Hup Hdown.
    apply TrendFacts.compute_emas_row in H. destruct H as (c & e & _ & He & ->).
    destruct (TrendFacts.emas_envelope _ _ _ _ _ He) as [Hlo Hhi].
    unfold FinalBot.is_uptrend, FinalBot.is_downtrend in Hup, Hdown.
    simpl in *. bool_to_prop. rewrite Hlo in Hup. rewrite Hhi in Hdown.
    pose proof (Q.le_min_l (Indicators.EMA_fast e) (Indicators.EMA_slow e)).
    pose proof (Q.le_min_r (Indicators.EMA_fast e) (Indicators.EMA_slow e)).
    pose proof (Q.le_max_l (Indicators.EMA_fast e) (Indicators.EMA_slow e)).
    pose proof (Q.le_max_r (Indicators.EMA_fast e) (Indicators.EMA_slow e)).
    split; lra.
  - intros instrument timeframe st p df c Hdf Hone.
    destruct (FinalBot.iteration instrument timeframe st p) as [st1 [|o ok]] eqn:E;
      [reflexivity|].
    exfalso. apply PollFacts.iteration_posted in E.
    destruct E as (df' & row & Hdf' & Hrow & _ & _ & _ & _ & H).
    rewrite Hdf in Hdf'. inversion Hdf'; subst df'.
    unfold Spec2.decision_row in Hrow. rewrite Hone in Hrow.
    assert (H0 : FinalBot.compute_emas [FinalBot.lc_candle c]
                   (FinalBot.ema_fast FinalBot.CFG) (FinalBot.ema_slow FinalBot.CFG)
                 !! 0%nat = Some row).
    { simpl in Hrow. inversion Hrow. reflexivity. }
    destruct (Hfirst _ _ _ _ H0) as [Hup Hdown].
    destruct (FinalBot.calculate_dynamic_sl_tp _ _ _ _) as [[[sl tp] sd] td].
    destruct (FinalBot.o_side o); destruct H as (_ & _ & _ & Ht & _); congruence.
Qed.

(** Instance of X8: a frame of one completed candle after fifteen
    incomplete ones. *)
Lemma trend_tests_fail_together_witness :
  snd (FinalBot.iteration "BTC_USD" "M5" Samples.fresh_poller Samples2.lone_poll)
  = FinalBot.Idle.
Proof.
  apply (proj2 (proj2 trend_tests_fail_together) "BTC_USD" "M5" Samples.fresh_poller
           Samples2.lone_poll Samples2.lone_frame
           {| FinalBot.lc_candle := Samples.bar 15 100 101 97 101;
              FinalBot.lc_complete := true |}).
  - reflexivity.
  - vm_compute. reflexivity.
Defined.

(** X9.  The live [calculate_atr] returns 0 exactly for a frame of fewer
    than [period + 1] candles and a positive value for every longer frame;
    and while fewer than 15 completed candles come back, so that the ATR
    is 0, no pass posts a BUY. *)
Theorem live_atr_zero_or_positive :
  (forall cs period,
     (length cs < period + 1)%nat -> FinalBot.calculate_atr cs period = 0) /\
  (forall cs period,
     (period + 1 <= length cs)%nat -> 0 < FinalBot.calculate_atr cs period) /\
  (forall instrument timeframe st p df st1 o ok,
     FinalBot.fetched p = Some df ->
     (length (List.filter FinalBot.lc_complete df) < 15)%nat ->
     FinalBot.iteration instrument timeframe st p = (st1, FinalBot.Posted o ok) ->
     FinalBot.o_side o = SELL).
Proof.
  assert (Hzero : forall cs period,
            (length cs < period + 1)%nat -> FinalBot.calculate_atr cs period = 0).
  { intros cs period H. unfold FinalBot.calculate_atr.
    apply Nat.ltb_lt in H. now rewrite H. }
  split; [exact Hzero|]. split.
  - intros cs period H. unfold FinalBot.calculate_atr.
    apply Nat.ltb_ge in H. rewrite H.
    destruct (Indicators.rolling_mean_at _ _ _) as [a|]; [|lra].
    destruct (Num.gtb a 0) eqn:E; [|lra]. now apply NumFacts.gtb_gt in E.
  - intros instrument timeframe st p df st1 o ok Hdf Hshort E.
    apply PollFacts.iteration_posted in E.
    destruct E as (df' & row & Hdf' & _ & _ & _ & _ & _ & H).
    rewrite Hdf in Hdf'. inversion Hdf'; subst df'.
    destruct (FinalBot.o_side o); [|reflexivity]. exfalso.
    assert (Ha : Spec2.decision_atr df = 0).
    { unfold Spec2.decision_atr. change (FinalBot.use_atr FinalBot.CFG) with true.
      cbv iota. apply Hzero. rewrite length_map.
      change (FinalBot.atr_period FinalBot.CFG) with 14%nat. lia. }
    rewrite Ha in H. cbn [FinalBot.calculate_dynamic_sl_tp] in H.
    destruct H as (_ & _ & _ & _ & _ & Hlo & Hhi).
    pose proof (RoundFacts.precision_nonneg instrument) as Hp.
    set (prec := Spec2.precision_of instrument) in *.
    assert (Hsd : FinalBot.py_round (FinalBot.buy_sl_mult FinalBot.CFG * 0) prec == 0).
    { rewrite (RoundFacts.py_round_wd _ (inject_Z 0 / inject_Z (10 ^ prec)))
        by (unfold Qdiv; ring).
      rewrite RoundFacts.py_round_unit by exact Hp. unfold Qdiv. ring. }
    assert (Htd : FinalBot.py_round (FinalBot.buy_tp_mult FinalBot.CFG * 0) prec == 0).
    { rewrite (RoundFacts.py_round_wd _ (inject_Z 0 / inject_Z (10 ^ prec)))
        by (unfold Qdiv; ring).
      rewrite RoundFacts.py_round_unit by exact Hp. unfold Qdiv. ring. }
    rewrite (RoundFacts.py_round_wd _ (c_close (FinalBot.candle row))) in Hlo
      by (rewrite Hsd; ring).
    rewrite (RoundFacts.py_round_wd _ (c_close (FinalBot.candle row))) in Hhi
      by (rewrite Htd; ring).
    lra.
Qed.

(** Instance of X9: the frame of the first poll, and its first ten candles. *)
Lemma live_atr_zero_or_positive_witness :
  FinalBot.calculate_atr
    (take 10 (map FinalBot.lc_candle (Samples.live_frame 0))) 14 = 0 /\
  0 < FinalBot.calculate_atr (map FinalBot.lc_candle (Samples.live_frame 0)) 14.
Proof.
  split.
  - apply (proj1 live_atr_zero_or_positive
                 (take 10 (map FinalBot.lc_candle (Samples.live_frame 0))) 14%nat).
    vm_compute. lia.
  - apply (proj1 (proj2 live_atr_zero_or_positive)
                 (map FinalBot.lc_candle (Samples.live_frame 0)) 14%nat).
    vm_compute. lia.
Defined.

(** ** Which positions can yield a trade *)

Module WindowFacts.
Import Engine.

Lemma zip_candles_length ts : forall os hs ls cs,
  (length (zip_candles ts os hs ls cs) <= length ts)%nat.
Proof.
  induction ts as [|t ts IH]; intros os hs ls cs; simpl; [lia|].
  destruct os, hs, ls, cs; simpl; try lia. specialize (IH os hs ls cs). lia.
Qed.

Lemma zip_rows_length bull bear cs : forall es ats,
  (length (zip_rows bull bear cs es ats) <= length cs)%nat.
Proof.
  induction cs as [|c cs IH]; intros es ats; simpl; [lia|].
  destruct es, ats; simpl; try lia. specialize (IH es ats). lia.
Qed.

Lemma scan_needs_row side tp sl rows i ts b :
  Spec.scan side tp sl (future_data rows i) = Some (ts, b) ->
  (S i < length rows)%nat.
Proof.
  intros H. apply ScanFacts.scan_sound in H.
  destruct H as (k & r & (Hk & _) & _).
  apply ScanFacts.future_data_bound in Hk. destruct Hk as [_ Hr].
  apply lookup_lt_Some in Hr. lia.
Qed.

(** A trade needs at least one row after its signal. *)
Lemma trade_needs_later_row use_atr rows i t :
  CheckAccuracy.trade_at use_atr rows i = Some t -> (S i < length rows)%nat.
Proof.
  intros H. apply LoopFacts.trade_at_inv in H.
  destruct H as (row & _ & _ & _ & Hscan & _). now apply scan_needs_row in Hscan.
Qed.

Lemma params_trade_needs_later_row bs bt ss st rows i t :
  OptimizeFixed.trade_at bs bt ss st rows i = Some t -> (S i < length rows)%nat.
Proof.
  intros H. apply LoopFacts.trade_at_params_inv in H.
  destruct H as (row & a & sl & tp & ts & _ & _ & _ & _ & _ & Hscan & _).
  now apply scan_needs_row in Hscan.
Qed.

Lemma omap_all_none {A B} (f : A -> option B) (l : list A) :
  (forall x, x ∈ l -> f x = None) -> omap f l = [].
Proof.
  induction l as [|x r IH]; intros H; [reflexivity|].
  simpl. rewrite (H x) by apply list_elem_of_here.
  apply IH. intros y Hy. apply H. now apply list_elem_of_further.
Qed.

Lemma short_rows_no_trades use_atr rows :
  (length rows <= 101)%nat -> CheckAccuracy.extract_trades use_atr rows = [].
Proof.
  intros Hlen. rewrite LoopFacts.extract_trades_omap. apply omap_all_none.
  intros i Hi. apply LoopFacts.elem_of_loop_range in Hi.
  destruct (CheckAccuracy.trade_at use_atr rows i) as [t|] eqn:E; [|reflexivity].
  apply trade_needs_later_row in E. lia.
Qed.

Lemma short_rows_loop use_atr rows :
  (length rows <= 101)%nat -> CheckAccuracy.run_loop use_atr rows = Returns [].
Proof.
  intros Hlen. rewrite LoopFacts.run_loop_total.
  - now rewrite short_rows_no_trades.
  - intros i Hi. unfold CheckAccuracy.trade_at.
    rewrite LoopFacts.loop_body_last by lia. reflexivity.
Qed.

Lemma short_rows_no_params_trades bs bt ss st rows :
  (length rows <= 101)%nat -> OptimizeFixed.extract_trades bs bt ss st rows = [].
Proof.
  intros Hlen. rewrite LoopFacts.extract_trades_params_omap. apply omap_all_none.
  intros i Hi. apply elem_of_seq in Hi.
  destruct (OptimizeFixed.trade_at bs bt ss st rows i) as [t|] eqn:E; [|reflexivity].
  apply params_trade_needs_later_row in E. lia.
Qed.

End WindowFacts.

(** X10.  A frame that has the required columns and at most 101 rows yields
    no trade: the price-based backtest returns the empty dict and the
    multiple-based one its all-zero report. *)
Theorem short_frame_reports_nothing (df : DataFrame) :
  has_required_cols df = true ->
  (length (df_index df) <= 101)%nat ->
  (forall use_atr, CheckAccuracy.backtest_vectorized df use_atr = Returns None) /\
  (forall bs bt ss st factor ratio,
     OptimizeFixed.backtest_with_params df bs bt ss st factor ratio
     = Returns OptimizeFixed.empty_stats).
Proof.
  intros Hcols Hlen.
  assert (Hc : (length (candles df) <= 101)%nat).
  { unfold candles. pose proof (WindowFacts.zip_candles_length (df_index df)
      (column df "open") (column df "high") (column df "low") (column df "close")).
    lia. }
  split.
  - intros use_atr. unfold CheckAccuracy.backtest_vectorized. rewrite Hcols.
    cbn [negb]. cbv zeta.
    rewrite WindowFacts.short_rows_loop; [reflexivity|].
    unfold CheckAccuracy.with_indicators, Engine.annotate.
    pose proof (WindowFacts.zip_rows_length CheckAccuracy.is_bullish_hammer
      CheckAccuracy.is_bearish_hammer (candles df)
      (Indicators.compute_emas (candles df) 9 15)
      (Indicators.calculate_atr (candles df) 14)). lia.
  - intros bs bt ss st factor ratio. unfold OptimizeFixed.backtest_with_params.
    rewrite Hcols. simpl.
    rewrite WindowFacts.short_rows_no_params_trades; [reflexivity|].
    unfold Engine.annotate.
    match goal with |- (length (Engine.zip_rows ?b ?b' ?c ?e ?a) <= _)%nat =>
      pose proof (WindowFacts.zip_rows_length b b' c e a) end. lia.
Qed.

(** Instance of X10: [one_winner] cut after its hammer, 101 rows. *)
Lemma short_frame_reports_nothing_witness :
  (forall use_atr,
     CheckAccuracy.backtest_vectorized (frame_of (take 101 Samples.one_winner)) use_atr
     = Returns None) /\
  (forall bs bt ss st factor ratio,
     OptimizeFixed.backtest_with_params (frame_of (take 101 Samples.one_winner))
                                        bs bt ss st factor ratio
     = Returns OptimizeFixed.empty_stats).
Proof.
  apply (short_frame_reports_nothing (frame_of (take 101 Samples.one_winner))).
  - vm_compute. reflexivity.
  - vm_compute. lia.
Defined.

(** ** Levels of the price-based backtest *)

Module LevelFacts.
Import Engine.

Lemma levels_order use_atr side entry a sl tp :
  Spec.levels use_atr side entry a = (sl, tp) ->
  match side with
  | BUY => sl < entry /\ entry < tp /\ tp - entry == 2 * (entry - sl)
  | SELL => tp < entry /\ entry < sl /\ entry - tp == 2 * (sl - entry)
  end.
Proof.
  destruct side; simpl; unfold CheckAccuracy.buy_levels, CheckAccuracy.sell_levels;
    destruct (use_atr && atr_positive a) eqn:E; intros H; inversion H; subst;
    try (repeat split; try lra; ring).
  - apply andb_true_iff in E. destruct E as [_ E].
    apply AtrFacts.atr_positive_true in E. destruct E as (v & -> & Hv). simpl.
    repeat split; try lra; ring.
  - apply andb_true_iff in E. destruct E as [_ E].
    apply AtrFacts.atr_positive_true in E. destruct E as (v & -> & Hv). simpl.
    repeat split; try lra; ring.
Qed.

End LevelFacts.

(** X11.  Every trade of the price-based backtest enters at the close of
    its signal row with the stop on the losing side and the take on the
    winning side of the entry, the take twice as far away as the stop,
    with ATR sizing and with the fixed offsets alike. *)
Theorem trade_levels_two_to_one use_atr rows i t :
  CheckAccuracy.trade_at use_atr rows i = Some t ->
  (exists row, rows !! i = Some row /\
               CheckAccuracy.t_entry_price t = Engine.r_close row) /\
  match CheckAccuracy.t_type t with
  | BUY =>
      CheckAccuracy.t_sl t < CheckAccuracy.t_entry_price t /\
      CheckAccuracy.t_entry_price t < CheckAccuracy.t_tp t /\
      CheckAccuracy.t_tp t - CheckAccuracy.t_entry_price t
        == 2 * (CheckAccuracy.t_entry_price t - CheckAccuracy.t_sl t)
  | SELL =>
      CheckAccuracy.t_tp t < CheckAccuracy.t_entry_price t /\
      CheckAccuracy.t_entry_price t < CheckAccuracy.t_sl t /\
      CheckAccuracy.t_entry_price t - CheckAccuracy.t_tp t
        == 2 * (CheckAccuracy.t_sl t - CheckAccuracy.t_entry_price t)
  end.
Proof.
  intros H. apply LoopFacts.trade_at_inv in H.
  destruct H as (row & Hrow & _ & Hl & _ & _ & Hentry & _).
  split; [eauto|]. rewrite Hentry. symmetry in Hl.
  apply (LevelFacts.levels_order _ _ _ _ _ _ Hl).
Qed.

(** Instance of X11: the trade of [zero_atr_signal], sized with the fixed
    offsets. *)
Lemma trade_levels_two_to_one_witness :
  (exists row, Runs.zero_atr_rows !! 100%nat = Some row /\
               CheckAccuracy.t_entry_price Runs.zero_atr_trade = Engine.r_close row) /\
  match CheckAccuracy.t_type Runs.zero_atr_trade with
  | BUY =>
      CheckAccuracy.t_sl Runs.zero_atr_trade
        < CheckAccuracy.t_entry_price Runs.zero_atr_trade /\
      CheckAccuracy.t_entry_price Runs.zero_atr_trade
        < CheckAccuracy.t_tp Runs.zero_atr_trade /\
      CheckAccuracy.t_tp Runs.zero_atr_trade
        - CheckAccuracy.t_entry_price Runs.zero_atr_trade
        == 2 * (CheckAccuracy.t_entry_price Runs.zero_atr_trade
                - CheckAccuracy.t_sl Runs.zero_atr_trade)
  | SELL =>
      CheckAccuracy.t_tp Runs.zero_atr_trade
        < CheckAccuracy.t_entry_price Runs.zero_atr_trade /\
      CheckAccuracy.t_entry_price Runs.zero_atr_trade
        < CheckAccuracy.t_sl Runs.zero_atr_trade /\
      CheckAccuracy.t_entry_price Runs.zero_atr_trade
        - CheckAccuracy.t_tp Runs.zero_atr_trade
        == 2 * (CheckAccuracy.t_sl Runs.zero_atr_trade
                - CheckAccuracy.t_entry_price Runs.zero_atr_trade)
  end.
Proof.
  apply (trade_levels_two_to_one true Runs.zero_atr_rows 100%nat Runs.zero_atr_trade).
  vm_compute. reflexivity.
Defined.

(** ** More on the statistics of the price-based backtest *)

Module ReportFacts.

Lemma filter_split_length {A} (f g : A -> bool) (l : list A) :
  length (List.filter f l)
  = (length (List.filter f (List.filter g l))
     + length (List.filter f (List.filter (fun x => negb (g x)) l)))%nat.
Proof.
  induction l as [|x r IH]; simpl; [reflexivity|].
  destruct (g x); simpl; destruct (f x); simpl; lia.
Qed.

Lemma is_sell_negb t : CheckAccuracy.is_sell t = negb (CheckAccuracy.is_buy t).
Proof. unfold CheckAccuracy.is_sell, CheckAccuracy.is_buy. now destruct (_ t). Qed.

Lemma sum_split (f : CheckAccuracy.Trade -> bool) (ts : list CheckAccuracy.Trade) :
  Num.sum (map CheckAccuracy.t_profit ts)
  == Num.sum (map CheckAccuracy.t_profit (List.filter f ts))
     + Num.sum (map CheckAccuracy.t_profit (List.filter (fun t => negb (f t)) ts)).
Proof.
  induction ts as [|t r IH]; simpl.
  - unfold Num.sum. simpl. ring.
  - destruct (f t); simpl; rewrite !StatsFacts.sum_cons, IH; ring.
Qed.

Lemma losers_are_rest ts :
  List.filter CheckAccuracy.is_loser ts
  = List.filter (fun t => negb (CheckAccuracy.is_winner t)) ts.
Proof. apply List.filter_ext. intros t. apply NumFacts.gtb_leb_negb. Qed.

Lemma winner_profits ts :
  Forall (fun x => 0 < x)
         (map CheckAccuracy.t_profit (List.filter CheckAccuracy.is_winner ts)).
Proof.
  induction ts as [|t r IH]; simpl; [constructor|].
  destruct (CheckAccuracy.is_winner t) eqn:E; [|exact IH].
  simpl. constructor; [|exact IH].
  unfold CheckAccuracy.is_winner in E. now apply NumFacts.gtb_gt in E.
Qed.

Lemma loser_profits ts :
  Forall (fun x => x <= 0)
         (map CheckAccuracy.t_profit (List.filter CheckAccuracy.is_loser ts)).
Proof.
  induction ts as [|t r IH]; simpl; [constructor|].
  destruct (CheckAccuracy.is_loser t) eqn:E; [|exact IH].
  simpl. constructor; [|exact IH].
  unfold CheckAccuracy.is_loser in E. now apply NumFacts.leb_le in E.
Qed.

(** Extremes of a series. *)
Lemma fold_max_ge (r : list Q) : forall x,
  x <= fold_left Qmax r x /\ Forall (fun y => y <= fold_left Qmax r x) r.
Proof.
  induction r as [|y r IH]; intros x; simpl.
  - split; [lra | constructor].
  - destruct (IH (Qmax x y)) as [H1 H2].
    pose proof (Q.le_max_l x y). pose proof (Q.le_max_r x y).
    split; [lra|]. constructor; [lra | exact H2].
Qed.

Lemma fold_min_le (r : list Q) : forall x,
  fold_left Qmin r x <= x /\ Forall (fun y => fold_left Qmin r x <= y) r.
Proof.
  induction r as [|y r IH]; intros x; simpl.
  - split; [lra | constructor].
  - destruct (IH (Qmin x y)) as [H1 H2].
    pose proof (Q.le_min_l x y). pose proof (Q.le_min_r x y).
    split; [lra|]. constructor; [lra | exact H2].
Qed.

Lemma maximum_ge (xs : list Q) : Forall (fun y => y <= Num.maximum xs) xs.
Proof.
  destruct xs as [|x r]; [constructor|]. simpl.
  destruct (fold_max_ge r x) as [H1 H2]. now constructor.
Qed.

Lemma minimum_le (xs : list Q) : Forall (fun y => Num.minimum xs <= y) xs.
Proof.
  destruct xs as [|x r]; [constructor|]. simpl.
  destruct (fold_min_le r x) as [H1 H2]. now constructor.
Qed.

Lemma sum_le_bound (xs : list Q) (m : Q) :
  Forall (fun y => y <= m) xs ->
  Num.sum xs <= inject_Z (Z.of_nat (length xs)) * m.
Proof.
  induction 1 as [|x r Hx Hr IH].
  - unfold Num.sum. cbn [fold_left length map].
    change (inject_Z (Z.of_nat 0)) with 0. lra.
  - rewrite StatsFacts.sum_cons. cbn [length].
    rewrite Nat2Z.inj_succ. unfold Z.succ. rewrite inject_Z_plus.
    change (inject_Z 1) with 1.
    assert (E : (inject_Z (Z.of_nat (length r)) + 1) * m
                == inject_Z (Z.of_nat (length r)) * m + m) by ring.
    rewrite E. set (q := inject_Z (Z.of_nat (length r)) * m) in *. lra.
Qed.

Lemma mean_le_bound (xs : list Q) (m : Q) :
  xs <> [] -> Forall (fun y => y <= m) xs -> Num.mean xs <= m.
Proof.
  intros Hne Hall. unfold Num.mean.
  assert (Hn : 0 < inject_Z (Z.of_nat (length xs))).
  { change 0 with (inject_Z 0). rewrite <- Zlt_Qlt. destruct xs; [congruence|].
    simpl. lia. }
  apply Qle_shift_div_r; [exact Hn|].
  pose proof (sum_le_bound xs m Hall). lra.
Qed.

Lemma mean_nonneg (xs : list Q) :
  Forall (fun y => 0 < y) xs -> 0 <= Num.mean xs.
Proof.
  intros Hall. unfold Num.mean. pose proof (StatsFacts.sum_nonneg xs Hall) as Hs.
  destruct xs as [|x r].
  - unfold Num.sum, Qdiv. simpl. lra.
  - apply Qle_shift_div_l.
    + change 0 with (inject_Z 0). rewrite <- Zlt_Qlt. simpl. lia.
    + lra.
Qed.

Lemma nonempty_filter {A} (f : A -> bool) (l : list A) :
  (0 <? length (List.filter f l))%nat = true -> List.filter f l <> [].
Proof. destruct (List.filter f l); [discriminate | discriminate]. Qed.

Lemma count_buy_filter (ts : list CheckAccuracy.Trade) :
  length (List.filter CheckAccuracy.is_buy ts) = Spec.count_side BUY ts.
Proof.
  induction ts as [|t r IH]; simpl; [reflexivity|].
  unfold CheckAccuracy.is_buy at 1, Spec.has_side.
  destruct (CheckAccuracy.t_type t); simpl; now rewrite IH.
Qed.

Lemma count_sell_filter (ts : list CheckAccuracy.Trade) :
  length (List.filter CheckAccuracy.is_sell ts) = Spec.count_side SELL ts.
Proof.
  induction ts as [|t r IH]; simpl; [reflexivity|].
  unfold CheckAccuracy.is_sell at 1, Spec.has_side.
  destruct (CheckAccuracy.t_type t); simpl; now rewrite IH.
Qed.

Lemma count_buy_wins_filter (ts : list CheckAccuracy.Trade) :
  length (List.filter CheckAccuracy.is_winner (List.filter CheckAccuracy.is_buy ts))
  = Spec.count_side_wins BUY ts.
Proof.
  induction ts as [|t r IH]; simpl; [reflexivity|].
  unfold CheckAccuracy.is_buy at 1, Spec.has_side.
  destruct (CheckAccuracy.t_type t); simpl; [|exact IH].
  unfold CheckAccuracy.is_winner at 1.
  destruct (Qlt_le_dec 0 (CheckAccuracy.t_profit t)) as [Hpos|Hle].
  - apply NumFacts.gtb_gt in Hpos. rewrite Hpos. simpl. now rewrite IH.
  - apply NumFacts.gtb_le in Hle. now rewrite Hle.
Qed.

Lemma count_sell_wins_filter (ts : list CheckAccuracy.Trade) :
  length (List.filter CheckAccuracy.is_winner (List.filter CheckAccuracy.is_sell ts))
  = Spec.count_side_wins SELL ts.
Proof.
  induction ts as [|t r IH]; simpl; [reflexivity|].
  unfold CheckAccuracy.is_sell at 1, Spec.has_side.
  destruct (CheckAccuracy.t_type t); simpl; [exact IH|].
  unfold CheckAccuracy.is_winner at 1.
  destruct (Qlt_le_dec 0 (CheckAccuracy.t_profit t)) as [Hpos|Hle].
  - apply NumFacts.gtb_gt in Hpos. rewrite Hpos. simpl. now rewrite IH.
  - apply NumFacts.gtb_le in Hle. now rewrite Hle.
Qed.

End ReportFacts.

(** X12.  The report of a trade list gives, per direction, the number of
    the list's trades of that direction and the number of those with a
    profit above zero; the buy and sell trades add up to the total, the
    length of the list, the buy and sell wins add up to the win count, and
    neither direction has more wins than trades. *)
Theorem direction_breakdown_adds_up (rows : list Engine.Row)
    (ts : list CheckAccuracy.Trade) :
  let st := CheckAccuracy.compute_stats rows ts in
  CheckAccuracy.total_trades st = length ts /\
  CheckAccuracy.win_count st = Spec.count_wins ts /\
  CheckAccuracy.buy_trades st = Spec.count_side BUY ts /\
  CheckAccuracy.sell_trades st = Spec.count_side SELL ts /\
  CheckAccuracy.buy_wins st = Spec.count_side_wins BUY ts /\
  CheckAccuracy.sell_wins st = Spec.count_side_wins SELL ts /\
  (CheckAccuracy.buy_trades st + CheckAccuracy.sell_trades st
   = CheckAccuracy.total_trades st)%nat /\
  (CheckAccuracy.buy_wins st + CheckAccuracy.sell_wins st
   = CheckAccuracy.win_count st)%nat /\
  (CheckAccuracy.buy_wins st <= CheckAccuracy.buy_trades st)%nat /\
  (CheckAccuracy.sell_wins st <= CheckAccuracy.sell_trades st)%nat.
Proof.
  cbv zeta. unfold CheckAccuracy.compute_stats.
  cbn [CheckAccuracy.buy_trades CheckAccuracy.sell_trades CheckAccuracy.total_trades
       CheckAccuracy.buy_wins CheckAccuracy.sell_wins CheckAccuracy.win_count].
  split; [reflexivity|].
  split; [apply StatsFacts.count_wins_filter|].
  split; [apply ReportFacts.count_buy_filter|].
  split; [apply ReportFacts.count_sell_filter|].
  split; [apply ReportFacts.count_buy_wins_filter|].
  split; [apply ReportFacts.count_sell_wins_filter|].
  assert (Hs : List.filter CheckAccuracy.is_sell ts
               = List.filter (fun t => negb (CheckAccuracy.is_buy t)) ts).
  { apply List.filter_ext. apply ReportFacts.is_sell_negb. }
  rewrite Hs. split; [apply List.filter_length|]. split.
  - symmetry. apply ReportFacts.filter_split_length.
  - split; apply List.filter_length_le.
Qed.

(** Instance of X12: the two trades of [two_hammers], both BUY, one of
    them a winner. *)
Lemma direction_breakdown_adds_up_witness :
  CheckAccuracy.total_trades Runs.two_hammers_stats = 2%nat /\
  CheckAccuracy.buy_trades Runs.two_hammers_stats
    = Spec.count_side BUY [Runs.two_hammers_first; Runs.two_hammers_second] /\
  CheckAccuracy.sell_trades Runs.two_hammers_stats
    = Spec.count_side SELL [Runs.two_hammers_first; Runs.two_hammers_second] /\
  CheckAccuracy.buy_wins Runs.two_hammers_stats
    = Spec.count_side_wins BUY [Runs.two_hammers_first; Runs.two_hammers_second] /\
  CheckAccuracy.sell_wins Runs.two_hammers_stats
    = Spec.count_side_wins SELL [Runs.two_hammers_first; Runs.two_hammers_second].
Proof.
  pose proof (direction_breakdown_adds_up
                (CheckAccuracy.with_indicators Samples.two_hammers)
                [Runs.two_hammers_first; Runs.two_hammers_second]) as H.
  cbv zeta in H.
  destruct H as (Htot & _ & Hb & Hs & Hbw & Hsw & _).
  assert (E : Runs.two_hammers_stats
              = CheckAccuracy.compute_stats
                  (CheckAccuracy.with_indicators Samples.two_hammers)
                  [Runs.two_hammers_first; Runs.two_hammers_second])
    by (vm_compute; reflexivity).
  rewrite E. auto.
Defined.

(** X13.  In every report the profit factor, the average win and the
    average loss are not negative, the average win does not exceed the
    maximum win, and the profit of every trade lies between the maximum
    loss and the maximum win. *)
Theorem report_bounds (rows : list Engine.Row) (ts : list CheckAccuracy.Trade) :
  let st := CheckAccuracy.compute_stats rows ts in
  0 <= CheckAccuracy.profit_factor st /\
  0 <= CheckAccuracy.avg_loss st /\
  0 <= CheckAccuracy.avg_win st /\
  CheckAccuracy.avg_win st <= CheckAccuracy.max_win st /\
  CheckAccuracy.max_loss st <= 0 /\
  forall t, In t ts ->
    CheckAccuracy.max_loss st <= CheckAccuracy.t_profit t /\
    CheckAccuracy.t_profit t <= CheckAccuracy.max_win st.
Proof.
  cbv zeta. unfold CheckAccuracy.compute_stats.
  cbn [CheckAccuracy.profit_factor CheckAccuracy.avg_loss CheckAccuracy.avg_win
       CheckAccuracy.max_win CheckAccuracy.max_loss].
  set (ws := map CheckAccuracy.t_profit (List.filter CheckAccuracy.is_winner ts)).
  set (ls := map CheckAccuracy.t_profit (List.filter CheckAccuracy.is_loser ts)).
  pose proof (ReportFacts.winner_profits ts) as Hw. fold ws in Hw.
  pose proof (ReportFacts.loser_profits ts) as Hl. fold ls in Hl.
  pose proof (ReportFacts.maximum_ge ws) as Hmax.
  pose proof (ReportFacts.minimum_le ls) as Hmin.
  assert (Hbest : 0 <= (if (0 <? length (List.filter CheckAccuracy.is_winner ts))%nat
                        then Num.maximum ws else 0)).
  { destruct (0 <? length (List.filter CheckAccuracy.is_winner ts))%nat eqn:E; cbv iota; [|lra].
    destruct (List.filter CheckAccuracy.is_winner ts) as [|w r] eqn:Ef; [discriminate|].
    subst ws. simpl in Hw, Hmax. inversion Hw; subst. inversion Hmax; subst. simpl. lra. }
  assert (Hworst : (if (0 <? length (List.filter CheckAccuracy.is_loser ts))%nat
                    then Num.minimum ls else 0) <= 0).
  { destruct (0 <? length (List.filter CheckAccuracy.is_loser ts))%nat eqn:E; cbv iota; [|lra].
    destruct (List.filter CheckAccuracy.is_loser ts) as [|w r] eqn:Ef; [discriminate|].
    subst ls. simpl in Hl, Hmin. inversion Hl; subst. inversion Hmin; subst. simpl. lra. }
  split.
  { destruct ((0 <? length (List.filter CheckAccuracy.is_loser ts))%nat && negb (Qeq_bool (Num.sum ls) 0)) eqn:E; cbv iota; [|lra].
    apply andb_true_iff in E. destruct E as [_ E]. apply negb_true_iff in E.
    pose proof (StatsFacts.sum_nonneg ws Hw) as Hws.
    pose proof (Qabs_nonneg (Num.sum ls)) as Hab.
    assert (Hne : ~ Qabs (Num.sum ls) == 0).
    { revert Hab. apply Qabs_case; intros H0 _ Hz;
        assert (Hs : Num.sum ls == 0) by lra; apply Qeq_bool_iff in Hs; congruence. }
    apply Qle_shift_div_l; [|lra].
    destruct (Qlt_le_dec 0 (Qabs (Num.sum ls))) as [Hpos|Hle]; [exact Hpos|].
    exfalso. apply Hne. lra. }
  split.
  { destruct (0 <? length (List.filter CheckAccuracy.is_loser ts))%nat; cbv iota; [apply Qabs_nonneg | lra]. }
  split.
  { destruct (0 <? length (List.filter CheckAccuracy.is_winner ts))%nat; cbv iota; [now apply ReportFacts.mean_nonneg | lra]. }
  split.
  { destruct (0 <? length (List.filter CheckAccuracy.is_winner ts))%nat eqn:E; cbv iota; [|lra].
    apply ReportFacts.mean_le_bound; [|exact Hmax].
    subst ws. destruct (List.filter CheckAccuracy.is_winner ts); discriminate. }
  split; [exact Hworst|].
  intros t Ht.
  destruct (CheckAccuracy.is_winner t) eqn:Ew.
  - assert (Hin : In (CheckAccuracy.t_profit t) ws).
    { subst ws. apply in_map. apply List.filter_In. auto. }
    assert (E : (0 <? length (List.filter CheckAccuracy.is_winner ts))%nat = true).
    { apply Nat.ltb_lt. assert (Hi : In t (List.filter CheckAccuracy.is_winner ts))
        by (apply List.filter_In; auto).
      destruct (List.filter CheckAccuracy.is_winner ts); [destruct Hi | simpl; lia]. }
    rewrite E. rewrite List.Forall_forall in Hmax. specialize (Hmax _ Hin).
    unfold CheckAccuracy.is_winner in Ew. apply NumFacts.gtb_gt in Ew.
    split; [lra | exact Hmax].
  - assert (El : CheckAccuracy.is_loser t = true).
    { unfold CheckAccuracy.is_loser, CheckAccuracy.is_winner in *.
      rewrite NumFacts.gtb_leb_negb, Ew. reflexivity. }
    assert (Hin : In (CheckAccuracy.t_profit t) ls).
    { subst ls. apply in_map. apply List.filter_In. auto. }
    assert (E : (0 <? length (List.filter CheckAccuracy.is_loser ts))%nat = true).
    { apply Nat.ltb_lt. assert (Hi : In t (List.filter CheckAccuracy.is_loser ts))
        by (apply List.filter_In; auto).
      destruct (List.filter CheckAccuracy.is_loser ts); [destruct Hi | simpl; lia]. }
    rewrite E. rewrite List.Forall_forall in Hmin. specialize (Hmin _ Hin).
    unfold CheckAccuracy.is_loser in El. apply NumFacts.leb_le in El.
    split; [exact Hmin | lra].
Qed.

(** X14.  In every report the total profit is the winners' profits plus the
    losers' profits; and when the losers' profits sum to a loss, the
    profit factor exceeds 1 exactly when the total profit is positive. *)
Theorem profit_factor_above_one (rows : list Engine.Row)
    (ts : list CheckAccuracy.Trade) :
  let st := CheckAccuracy.compute_stats rows ts in
  let wins := Num.sum (map CheckAccuracy.t_profit
                           (List.filter CheckAccuracy.is_winner ts)) in
  let losses := Num.sum (map CheckAccuracy.t_profit
                             (List.filter CheckAccuracy.is_loser ts)) in
  CheckAccuracy.total_profit st == wins + losses /\
  (losses < 0 ->
   CheckAccuracy.profit_factor st == wins / - losses /\
   (1 < CheckAccuracy.profit_factor st <-> 0 < CheckAccuracy.total_profit st)).
Proof.
  cbv zeta. unfold CheckAccuracy.compute_stats.
  cbn [CheckAccuracy.total_profit CheckAccuracy.profit_factor].
  set (wins := Num.sum (map CheckAccuracy.t_profit
                            (List.filter CheckAccuracy.is_winner ts))).
  set (losses := Num.sum (map CheckAccuracy.t_profit
                              (List.filter CheckAccuracy.is_loser ts))).
  assert (Htotal : Num.sum (map CheckAccuracy.t_profit ts) == wins + losses).
  { subst wins losses. rewrite ReportFacts.losers_are_rest.
    apply ReportFacts.sum_split. }
  split; [exact Htotal|]. intros Hloss.
  assert (Hne : List.filter CheckAccuracy.is_loser ts <> []).
  { intros E. subst losses. rewrite E in Hloss. unfold Num.sum in Hloss.
    simpl in Hloss. apply (Qlt_irrefl 0 Hloss). }
  assert (Hlen : (0 <? length (List.filter CheckAccuracy.is_loser ts))%nat = true).
  { destruct (List.filter CheckAccuracy.is_loser ts); [congruence | reflexivity]. }
  assert (Hnz : Qeq_bool losses 0 = false).
  { destruct (Qeq_bool losses 0) eqn:E; [|reflexivity].
    apply Qeq_bool_iff in E. rewrite E in Hloss. exfalso. apply (Qlt_irrefl 0 Hloss). }
  rewrite Hlen, Hnz. cbn [andb negb].
  assert (Habs : Qabs losses == - losses) by (apply Qabs_neg; lra).
  assert (Hpf : wins / Qabs losses == wins / - losses) by now rewrite Habs.
  split; [exact Hpf|]. rewrite Hpf, Htotal.
  assert (Hd : 0 < - losses) by lra.
  rewrite <- (Qmult_lt_r 1 (wins / - losses) (- losses) Hd).
  assert (E : wins / - losses * - losses == wins) by (field; lra).
  rewrite E. clearbody wins losses. split; intros; lra.
Qed.

(** Instance of X14: the report of [spike_then_drop], whose one trade lost. *)
Lemma profit_factor_above_one_witness :
  CheckAccuracy.profit_factor
    (CheckAccuracy.compute_stats Runs.spike_rows [Runs.spike_trade])
  == Num.sum (map CheckAccuracy.t_profit
                  (List.filter CheckAccuracy.is_winner [Runs.spike_trade]))
     / - Num.sum (map CheckAccuracy.t_profit
                      (List.filter CheckAccuracy.is_loser [Runs.spike_trade])) /\
  (1 < CheckAccuracy.profit_factor
         (CheckAccuracy.compute_stats Runs.spike_rows [Runs.spike_trade])
   <-> 0 < CheckAccuracy.total_profit
             (CheckAccuracy.compute_stats Runs.spike_rows [Runs.spike_trade])).
Proof.
  apply (proj2 (profit_factor_above_one Runs.spike_rows [Runs.spike_trade])).
  vm_compute. reflexivity.
Defined.

(** ** Patterns, signals and trades *)

Module CountFacts.
Import Engine.

Lemma count_omap_le {B} (f : nat -> option B) (g : B -> bool) (h : nat -> bool)
    (l : list nat) :
  (forall i t, f i = Some t -> g t = true -> h i = true) ->
  (length (List.filter g (omap f l)) <= length (List.filter h l))%nat.
Proof.
  intros Hfg. induction l as [|i r IH]; [simpl; lia|].
  change (omap f (i :: r))
    with (match f i with Some y => y :: omap f r | None => omap f r end).
  cbn [List.filter].
  destruct (f i) as [t|] eqn:E.
  - cbn [List.filter]. destruct (g t) eqn:Eg.
    + rewrite (Hfg i t E Eg). cbn [length]. lia.
    + destruct (h i); cbn [length]; lia.
  - destruct (h i); cbn [length]; lia.
Qed.

Definition flag_at (p : Row -> bool) (rows : list Row) (i : nat) : bool :=
  match rows !! i with
  | Some r => p r
  | None => false
  end.

Lemma count_range_le (p : Row -> bool) (rows : list Row) (n : nat) : forall a,
  (length (List.filter (flag_at p rows) (seq a n))
   <= length (List.filter p (drop a rows)))%nat.
Proof.
  induction n as [|n IH]; intros a; simpl; [lia|].
  unfold flag_at at 1. destruct (rows !! a) as [r|] eqn:E.
  - rewrite (drop_S rows r a E). simpl. specialize (IH (S a)).
    destruct (p r); simpl; lia.
  - specialize (IH (S a)). apply lookup_ge_None in E.
    rewrite drop_ge in * by lia. exact IH.
Qed.

Lemma count_drop_le (p : Row -> bool) (rows : list Row) (a : nat) :
  (length (List.filter p (drop a rows)) <= length (List.filter p rows))%nat.
Proof.
  rewrite <- (take_drop a rows) at 2. rewrite List.filter_app, length_app. lia.
Qed.

Lemma annotate_signals bull bear cs i row :
  annotate bull bear cs !! i = Some row ->
  buy_signal row = is_bullish row /\ sell_signal row = is_bearish row.
Proof.
  unfold annotate. intros H. apply SignalFacts.zip_rows_lookup in H.
  destruct H as (c & e & a & _ & _ & _ & ->). simpl. auto.
Qed.

Lemma filter_ext_lookup {A} (f g : A -> bool) (l : list A) :
  (forall i x, l !! i = Some x -> f x = g x) -> List.filter f l = List.filter g l.
Proof.
  intros H. apply List.filter_ext_in. intros x Hx.
  apply list_elem_of_In, list_elem_of_lookup in Hx. destruct Hx as [i Hi]. eauto.
Qed.

End CountFacts.

(** X15.  In every report of the price-based backtest the buy signals are
    the bullish hammers and the sell signals the bearish hammers, and no
    direction has more trades than signals. *)
Theorem trades_bounded_by_signals (df : DataFrame) (use_atr : bool)
    (st : CheckAccuracy.Stats) :
  CheckAccuracy.backtest_vectorized df use_atr = Returns (Some st) ->
  CheckAccuracy.total_bullish_buy_signals st
    = CheckAccuracy.total_bullish_hammers st /\
  CheckAccuracy.total_bearish_sell_signals st
    = CheckAccuracy.total_bearish_hammers st /\
  (CheckAccuracy.buy_trades st <= CheckAccuracy.total_bullish_buy_signals st)%nat /\
  (CheckAccuracy.sell_trades st <= CheckAccuracy.total_bearish_sell_signals st)%nat.
Proof.
  intros H. destruct (LoopFacts.backtest_returns _ _ _ H) as (_ & _ & Hst). clear H.
  set (rows := CheckAccuracy.with_indicators (candles df)) in *.
  destruct (CheckAccuracy.extract_trades use_atr rows) as [|t ts] eqn:E; [discriminate|].
  inversion Hst; subst st; clear Hst. rewrite <- E. clear E.
  unfold CheckAccuracy.compute_stats.
  cbn [CheckAccuracy.total_bullish_buy_signals CheckAccuracy.total_bullish_hammers
       CheckAccuracy.total_bearish_sell_signals CheckAccuracy.total_bearish_hammers
       CheckAccuracy.buy_trades CheckAccuracy.sell_trades].
  unfold CheckAccuracy.count_true.
  split.
  { f_equal. apply CountFacts.filter_ext_lookup. intros i x Hx.
    now apply CountFacts.annotate_signals in Hx. }
  split.
  { f_equal. apply CountFacts.filter_ext_lookup. intros i x Hx.
    now apply CountFacts.annotate_signals in Hx. }
  rewrite LoopFacts.extract_trades_omap. unfold CheckAccuracy.loop_range. split.
  - eapply Nat.le_trans; [|apply (CountFacts.count_drop_le Engine.buy_signal rows 100)].
    eapply Nat.le_trans;
      [|apply (CountFacts.count_range_le Engine.buy_signal rows (length rows - 100) 100)].
    apply CountFacts.count_omap_le. intros i tr Htr Hbuy.
    apply LoopFacts.trade_at_inv in Htr. destruct Htr as (row & Hrow & Hsig & _).
    unfold CountFacts.flag_at. rewrite Hrow.
    unfold CheckAccuracy.is_buy in Hbuy.
    destruct (CheckAccuracy.t_type tr); [exact Hsig | discriminate].
  - eapply Nat.le_trans; [|apply (CountFacts.count_drop_le Engine.sell_signal rows 100)].
    eapply Nat.le_trans;
      [|apply (CountFacts.count_range_le Engine.sell_signal rows (length rows - 100) 100)].
    apply CountFacts.count_omap_le. intros i tr Htr Hsell.
    apply LoopFacts.trade_at_inv in Htr. destruct Htr as (row & Hrow & Hsig & _).
    unfold CountFacts.flag_at. rewrite Hrow.
    unfold CheckAccuracy.is_sell in Hsell.
    destruct (CheckAccuracy.t_type tr); [discriminate | apply Hsig].
Qed.

(** Instance of X15: the report of [two_hammers]. *)
Lemma trades_bounded_by_signals_witness :
  CheckAccuracy.total_bullish_buy_signals Runs.two_hammers_stats
    = CheckAccuracy.total_bullish_hammers Runs.two_hammers_stats /\
  CheckAccuracy.total_bearish_sell_signals Runs.two_hammers_stats
    = CheckAccuracy.total_bearish_hammers Runs.two_hammers_stats /\
  (CheckAccuracy.buy_trades Runs.two_hammers_stats
   <= CheckAccuracy.total_bullish_buy_signals Runs.two_hammers_stats)%nat /\
  (CheckAccuracy.sell_trades Runs.two_hammers_stats
   <= CheckAccuracy.total_bearish_sell_signals Runs.two_hammers_stats)%nat.
Proof.
  apply (trades_bounded_by_signals (frame_of Samples.two_hammers) true
           Runs.two_hammers_stats).
  vm_compute. reflexivity.
Defined.

(** ** Range of the indicators *)

Module BoundFacts.
Import Indicators.

Lemma true_range_row_nonneg (p : Q) (c : Candle) : 0 <= true_range_row (Some p) c.
Proof.
  unfold true_range_row.
  eapply Qle_trans; [apply (Qabs_nonneg (c_low c - p))|]. apply Q.le_max_r.
Qed.

Lemma true_range_from_nonneg (cs : list Candle) : forall p,
  Forall (fun v => 0 <= v) (true_range_from (Some p) cs).
Proof.
  induction cs as [|c cs IH]; intros p; simpl; constructor.
  - apply true_range_row_nonneg.
  - apply IH.
Qed.

(** Past its first row the true range is never negative. *)
Lemma true_range_tail_nonneg (cs : list Candle) :
  Forall (fun v => 0 <= v) (drop 1 (true_range cs)).
Proof.
  unfold true_range. destruct cs as [|c cs]; simpl; [constructor|].
  apply true_range_from_nonneg.
Qed.

Lemma calculate_atr_lookup cs period i :
  (i < length cs)%nat ->
  calculate_atr cs period !! i = Some (rolling_mean_at period (true_range cs) i).
Proof.
  intros Hi. unfold calculate_atr, rolling_mean.
  rewrite list_lookup_fmap, lookup_seq_lt; [reflexivity|].
  unfold true_range. now rewrite IndicatorFacts.length_true_range_from.
Qed.

Lemma alpha_range (span : Z) :
  (1 <= span)%Z -> 0 < alpha_of_span span /\ alpha_of_span span <= 1.
Proof.
  intros Hs. unfold alpha_of_span.
  assert (H1 : 1 <= inject_Z span).
  { change 1 with (inject_Z 1). rewrite <- Zle_Qle. exact Hs. }
  split.
  - apply Qlt_shift_div_l; lra.
  - apply Qle_shift_div_r; lra.
Qed.

Lemma convex_between (alpha y x lo hi : Q) :
  0 <= alpha -> alpha <= 1 -> lo <= y <= hi -> lo <= x <= hi ->
  lo <= (1 - alpha) * y + alpha * x <= hi.
Proof.
  intros Ha0 Ha1 [Hy1 Hy2] [Hx1 Hx2].
  assert (H1 : 0 <= (1 - alpha) * (y - lo)) by (apply Qmult_le_0_compat; lra).
  assert (H2 : 0 <= alpha * (x - lo)) by (apply Qmult_le_0_compat; lra).
  assert (H3 : 0 <= (1 - alpha) * (hi - y)) by (apply Qmult_le_0_compat; lra).
  assert (H4 : 0 <= alpha * (hi - x)) by (apply Qmult_le_0_compat; lra).
  assert (E1 : (1 - alpha) * y + alpha * x - lo
               == (1 - alpha) * (y - lo) + alpha * (x - lo)) by ring.
  assert (E2 : hi - ((1 - alpha) * y + alpha * x)
               == (1 - alpha) * (hi - y) + alpha * (hi - x)) by ring.
  set (m := (1 - alpha) * y + alpha * x) in *.
  set (a1 := (1 - alpha) * (y - lo)) in *. set (a2 := alpha * (x - lo)) in *.
  set (a3 := (1 - alpha) * (hi - y)) in *. set (a4 := alpha * (hi - x)) in *.
  clearbody m a1 a2 a3 a4. split; lra.
Qed.

Lemma ewm_from_between alpha lo hi (xs : list Q) : forall y,
  0 <= alpha -> alpha <= 1 -> lo <= y <= hi ->
  Forall (fun x => lo <= x <= hi) xs ->
  Forall (fun v => lo <= v <= hi) (ewm_from alpha y xs).
Proof.
  induction xs as [|x r IH]; intros y Ha0 Ha1 Hy Hall; simpl; [constructor|].
  inversion Hall as [|? ? Hx Hr]; subst.
  pose proof (convex_between alpha y x lo hi Ha0 Ha1 Hy Hx) as Hm.
  constructor; [exact Hm|]. now apply IH.
Qed.

Lemma ewm_mean_between span lo hi (xs : list Q) :
  (1 <= span)%Z ->
  Forall (fun x => lo <= x <= hi) xs ->
  Forall (fun v => lo <= v <= hi) (ewm_mean span xs).
Proof.
  intros Hs Hall. destruct (alpha_range span Hs) as [Ha0 Ha1].
  destruct xs as [|x r]; simpl; [constructor|].
  inversion Hall as [|? ? Hx Hr]; subst.
  constructor; [exact Hx|]. apply ewm_from_between; auto. lra.
Qed.

End BoundFacts.

(** X16.  For a period of at least 1, the ATR column has one cell per
    candle; a cell is undefined exactly on the first [period - 1] rows; and
    from row [period] on, where the window no longer holds the first row,
    its value is not negative, whatever the shape of the candles. *)
Theorem atr_defined_and_nonnegative (cs : list Candle) (period i : nat) :
  (1 <= period)%nat -> (i < length cs)%nat ->
  length (Indicators.calculate_atr cs period) = length cs /\
  (Indicators.calculate_atr cs period !! i = Some None <-> (S i < period)%nat) /\
  ((period <= i)%nat ->
   exists v, Indicators.calculate_atr cs period !! i = Some (Some v) /\ 0 <= v).
Proof.
  intros Hp Hi. split; [apply IndicatorFacts.length_calculate_atr|].
  rewrite (BoundFacts.calculate_atr_lookup cs period i Hi).
  unfold Indicators.rolling_mean_at. split.
  - destruct (S i <? period)%nat eqn:E.
    + apply Nat.ltb_lt in E. tauto.
    + apply Nat.ltb_ge in E. split; [discriminate | lia].
  - intros Hpi.
    assert (E : (S i <? period)%nat = false) by (apply Nat.ltb_ge; lia).
    rewrite E. eexists. split; [reflexivity|].
    apply Qle_shift_div_l.
    + change 0 with (inject_Z 0). rewrite <- Zlt_Qlt. lia.
    + assert (Hs : 0 <= Num.sum (Indicators.window period (Indicators.true_range cs) i)).
      { apply RangeFacts.sum_nonneg_all. unfold Indicators.window.
        change (firstn period) with (@take Q period).
        change (skipn (S i - period)) with (@drop Q (S i - period)).
        apply Forall_take.
        replace (S i - period)%nat with (1 + (S i - period - 1))%nat by lia.
        rewrite <- drop_drop. apply Forall_drop.
        apply BoundFacts.true_range_tail_nonneg. }
      lra.
Qed.

(** Instance of X16: row 100 of [zero_atr_signal], with the period 14 of
    the backtests. *)
Lemma atr_defined_and_nonnegative_witness :
  length (Indicators.calculate_atr Samples.zero_atr_signal 14)
    = length Samples.zero_atr_signal /\
  (Indicators.calculate_atr Samples.zero_atr_signal 14 !! 100%nat = Some None
   <-> (S 100 < 14)%nat) /\
  ((14 <= 100)%nat ->
   exists v, Indicators.calculate_atr Samples.zero_atr_signal 14 !! 100%nat
             = Some (Some v) /\ 0 <= v).
Proof.
  apply (atr_defined_and_nonnegative Samples.zero_atr_signal 14 100).
  - lia.
  - vm_compute. lia.
Defined.

(** X17.  For periods of at least 1, when every close of the series lies
    between two bounds, so does every EMA value; and on every row the
    lower envelope is at most, and the upper envelope at least, both
    EMAs. *)
Theorem emas_stay_in_close_range (cs : list Candle) (fast_period slow_period : Z)
    (lo hi : Q) (i : nat) (e : Indicators.Emas) :
  (1 <= fast_period)%Z -> (1 <= slow_period)%Z ->
  (forall c, In c cs -> lo <= c_close c <= hi) ->
  Indicators.compute_emas cs fast_period slow_period !! i = Some e ->
  lo <= Indicators.EMA_lower e /\
  Indicators.EMA_lower e <= Indicators.EMA_fast e <= Indicators.EMA_upper e /\
  Indicators.EMA_lower e <= Indicators.EMA_slow e <= Indicators.EMA_upper e /\
  Indicators.EMA_upper e <= hi.
Proof.
  intros Hf Hs Hall He.
  assert (Hcl : Forall (fun x => lo <= x <= hi) (map c_close cs)).
  { apply List.Forall_forall. intros x Hx. apply in_map_iff in Hx.
    destruct Hx as (c & <- & Hc). now apply Hall. }
  pose proof (BoundFacts.ewm_mean_between fast_period lo hi _ Hf Hcl) as Hfast.
  pose proof (BoundFacts.ewm_mean_between slow_period lo hi _ Hs Hcl) as Hslow.
  unfold Indicators.compute_emas in He. apply lookup_zip_with_Some in He.
  destruct He as (a & b & -> & Ha & Hb).
  rewrite Forall_lookup in Hfast, Hslow.
  specialize (Hfast i a Ha). specialize (Hslow i b Hb). simpl.
  pose proof (Q.le_min_l a b). pose proof (Q.le_min_r a b).
  pose proof (Q.le_max_l a b). pose proof (Q.le_max_r a b).
  assert (lo <= Qmin a b) by (apply Q.min_glb; lra).
  assert (Qmax a b <= hi) by (apply Q.max_lub; lra).
  repeat split; assumption.
Qed.

(** Instance of X17: the closes of [opening] lie between 9 and 11. *)
Lemma emas_stay_in_close_range_witness :
  9 <= Indicators.EMA_lower Runs2.opening_last_emas /\
  Indicators.EMA_lower Runs2.opening_last_emas
    <= Indicators.EMA_fast Runs2.opening_last_emas
    <= Indicators.EMA_upper Runs2.opening_last_emas /\
  Indicators.EMA_lower Runs2.opening_last_emas
    <= Indicators.EMA_slow Runs2.opening_last_emas
    <= Indicators.EMA_upper Runs2.opening_last_emas /\
  Indicators.EMA_upper Runs2.opening_last_emas <= 11.
Proof.
  apply (emas_stay_in_close_range Samples.opening 9 15 9 11 2
           Runs2.opening_last_emas); try lia.
  - intros c Hc. simpl in Hc.
    destruct Hc as [<-|[<-|[<-|[]]]]; split; vm_compute; discriminate.
  - vm_compute. reflexivity.
Defined.

(** ** The multiple-based backtest *)

Module ParamsFacts.
Import Engine.

(** What the multiple-based loop body books as profit. *)
Lemma trade_at_params_profit bs bt ss st rows i t :
  OptimizeFixed.trade_at bs bt ss st rows i = Some t ->
  exists row a,
    rows !! i = Some row /\ atr row = Some a /\ 0 < a /\
    OptimizeFixed.t_profit t
    = Spec2.booked_profit bs bt ss st (OptimizeFixed.t_type t)
                          (OptimizeFixed.t_hit_tp t) a.
Proof.
  unfold OptimizeFixed.trade_at. intros H.
  destruct (rows !! i) as [row|] eqn:Hrow; [|discriminate].
  exists row.
  destruct (buy_signal row).
  - unfold OptimizeFixed.buy_trade in H.
    destruct (atr row) as [a|] eqn:Ha; simpl in H; [|discriminate].
    destruct (Num.gtb a 0) eqn:Hpos; [|discriminate]. bool_to_prop.
    destruct (scan_buy _ _ _) as [[ts b]|]; [|discriminate].
    inversion H; subst t; clear H. exists a. simpl. destruct b; auto.
  - destruct (sell_signal row); [|discriminate].
    unfold OptimizeFixed.sell_trade in H.
    destruct (atr row) as [a|] eqn:Ha; simpl in H; [|discriminate].
    destruct (Num.gtb a 0) eqn:Hpos; [|discriminate]. bool_to_prop.
    destruct (scan_sell _ _ _) as [[ts b]|]; [|discriminate].
    inversion H; subst t; clear H. exists a. simpl. destruct b; auto.
Qed.

Lemma params_split (ts : list OptimizeFixed.Trade) :
  (length (List.filter OptimizeFixed.is_winner ts)
   + length (List.filter OptimizeFixed.is_loser ts) = length ts)%nat.
Proof.
  rewrite <- (List.filter_length OptimizeFixed.is_winner ts). f_equal. f_equal.
  apply List.filter_ext. intros t. apply NumFacts.gtb_leb_negb.
Qed.

Lemma params_winner_profits ts :
  Forall (fun x => 0 < x)
         (map OptimizeFixed.t_profit (List.filter OptimizeFixed.is_winner ts)).
Proof.
  induction ts as [|t r IH]; simpl; [constructor|].
  destruct (OptimizeFixed.is_winner t) eqn:E; [|exact IH].
  simpl. constructor; [|exact IH].
  unfold OptimizeFixed.is_winner in E. now apply NumFacts.gtb_gt in E.
Qed.

Lemma params_loser_profits ts :
  Forall (fun x => x <= 0)
         (map OptimizeFixed.t_profit (List.filter OptimizeFixed.is_loser ts)).
Proof.
  induction ts as [|t r IH]; simpl; [constructor|].
  destruct (OptimizeFixed.is_loser t) eqn:E; [|exact IH].
  simpl. constructor; [|exact IH].
  unfold OptimizeFixed.is_loser in E. now apply NumFacts.leb_le in E.
Qed.

End ParamsFacts.

(** X18.  With positive multiples, every trade of the multiple-based
    backtest books the take multiple of the ATR as profit when the take
    level was hit and the stop multiple as loss otherwise; so a trade is
    a winner exactly when it hit its take level. *)
Theorem params_winner_iff_take_hit bs bt ss st rows i t :
  0 < bs -> 0 < bt -> 0 < ss -> 0 < st ->
  OptimizeFixed.trade_at bs bt ss st rows i = Some t ->
  OptimizeFixed.is_winner t = OptimizeFixed.t_hit_tp t /\
  OptimizeFixed.is_loser t = negb (OptimizeFixed.t_hit_tp t) /\
  exists row a,
    rows !! i = Some row /\ Engine.atr row = Some a /\ 0 < a /\
    OptimizeFixed.t_profit t
    = Spec2.booked_profit bs bt ss st (OptimizeFixed.t_type t)
                          (OptimizeFixed.t_hit_tp t) a.
Proof.
  intros Hbs Hbt Hss Hst H. apply ParamsFacts.trade_at_params_profit in H.
  destruct H as (row & a & Hrow & Ha & Hpos & Hprofit).
  assert (Hw : OptimizeFixed.is_winner t = OptimizeFixed.t_hit_tp t).
  { unfold OptimizeFixed.is_winner. rewrite Hprofit.
    assert (H1 : 0 < bt * a) by (apply Qmult_lt_0_compat; assumption).
    assert (H2 : 0 < bs * a) by (apply Qmult_lt_0_compat; assumption).
    assert (H3 : 0 < st * a) by (apply Qmult_lt_0_compat; assumption).
    assert (H4 : 0 < ss * a) by (apply Qmult_lt_0_compat; assumption).
    destruct (OptimizeFixed.t_type t), (OptimizeFixed.t_hit_tp t); simpl;
      first [apply NumFacts.gtb_gt | apply NumFacts.gtb_le]; lra. }
  split; [exact Hw|]. split.
  - unfold OptimizeFixed.is_loser. rewrite NumFacts.gtb_leb_negb.
    fold (OptimizeFixed.is_winner t). now rewrite Hw.
  - exists row, a. auto.
Qed.

(** Instance of X18: the run over [one_winner] with multiples 1, 2, 2, 4. *)
Lemma params_winner_iff_take_hit_witness :
  OptimizeFixed.is_winner Runs2.one_winner_params_trade
    = OptimizeFixed.t_hit_tp Runs2.one_winner_params_trade /\
  OptimizeFixed.is_loser Runs2.one_winner_params_trade
    = negb (OptimizeFixed.t_hit_tp Runs2.one_winner_params_trade) /\
  exists row a,
    Runs2.one_winner_rows !! 100%nat = Some row /\ Engine.atr row = Some a /\ 0 < a /\
    OptimizeFixed.t_profit Runs2.one_winner_params_trade
    = Spec2.booked_profit 1 2 2 4
        (OptimizeFixed.t_type Runs2.one_winner_params_trade)
        (OptimizeFixed.t_hit_tp Runs2.one_winner_params_trade) a.
Proof.
  apply (params_winner_iff_take_hit 1 2 2 4 Runs2.one_winner_rows 100%nat
           Runs2.one_winner_params_trade);
    [reflexivity | reflexivity | reflexivity | reflexivity
    | vm_compute; reflexivity].
Defined.

(** X19.  Every report of the multiple-based backtest over a non-empty
    trade list counts each trade as a winner or a loser, has a win rate
    between 0 and 100, a profit factor that is infinite or not negative,
    and, when the losers' profits sum to a loss, a finite profit factor of
    which the total return is the hundredfold. *)
Theorem params_report_consistent (ts : list OptimizeFixed.Trade) :
  ts <> [] ->
  let st := OptimizeFixed.compute_stats ts in
  let losses := Num.sum (map OptimizeFixed.t_profit
                             (List.filter OptimizeFixed.is_loser ts)) in
  (exists w l, OptimizeFixed.winners st = Some w /\ OptimizeFixed.losers st = Some l /\
               (w + l = OptimizeFixed.total_trades st)%nat) /\
  0 <= OptimizeFixed.win_rate st <= 100 /\
  (OptimizeFixed.profit_factor st = PosInf \/
   exists q, OptimizeFixed.profit_factor st = Finite q /\ 0 <= q) /\
  (losses < 0 ->
   exists q, OptimizeFixed.profit_factor st = Finite q /\
             OptimizeFixed.total_return st == q * 100).
Proof.
  intros Hne. cbv zeta. unfold OptimizeFixed.compute_stats.
  cbn [OptimizeFixed.winners OptimizeFixed.losers OptimizeFixed.total_trades
       OptimizeFixed.win_rate OptimizeFixed.profit_factor OptimizeFixed.total_return].
  set (ws := Num.sum (map OptimizeFixed.t_profit
                          (List.filter OptimizeFixed.is_winner ts))).
  set (ls := Num.sum (map OptimizeFixed.t_profit
                          (List.filter OptimizeFixed.is_loser ts))).
  pose proof (ParamsFacts.params_split ts) as Hsplit.
  assert (Hws : 0 <= ws)
    by (apply StatsFacts.sum_nonneg, ParamsFacts.params_winner_profits).
  assert (Hls : ls <= 0)
    by (apply StatsFacts.sum_nonpos, ParamsFacts.params_loser_profits).
  assert (Hlen : (0 < length ts)%nat) by (destruct ts; [congruence | simpl; lia]).
  split; [eauto|]. split.
  { assert (E : (0 <? length ts)%nat = true) by now apply Nat.ltb_lt.
    rewrite E. apply (StatsFacts.percentage_bounds _ (length ts)); [lia | exact Hlen]. }
  split.
  { destruct ((0 <? length (List.filter OptimizeFixed.is_loser ts))%nat
              && negb (Qeq_bool ls 0)) eqn:E.
    - right. eexists. split; [reflexivity|].
      apply andb_true_iff in E. destruct E as [_ E]. apply negb_true_iff in E.
      assert (Hpos : 0 < Qabs ls).
      { pose proof (Qabs_nonneg ls) as Hab.
        destruct (Qlt_le_dec 0 (Qabs ls)) as [Hp|Hle]; [exact Hp|].
        exfalso. assert (Hz : Qabs ls == 0) by lra.
        assert (Hs : ls == 0).
        { revert Hz. apply Qabs_case; intros; lra. }
        apply Qeq_bool_iff in Hs. congruence. }
      apply Qle_shift_div_l; [exact Hpos | lra].
    - destruct (Num.gtb _ 0); [left; reflexivity|].
      right. exists 0. split; [reflexivity | lra]. }
  intros Hloss.
  assert (Hnl : List.filter OptimizeFixed.is_loser ts <> []).
  { intros E. subst ls. rewrite E in Hloss. unfold Num.sum in Hloss. simpl in Hloss.
    apply (Qlt_irrefl 0 Hloss). }
  assert (E1 : (0 <? length (List.filter OptimizeFixed.is_loser ts))%nat = true).
  { destruct (List.filter OptimizeFixed.is_loser ts); [congruence | reflexivity]. }
  assert (E2 : Qeq_bool ls 0 = false).
  { destruct (Qeq_bool ls 0) eqn:E; [|reflexivity].
    apply Qeq_bool_iff in E. rewrite E in Hloss. exfalso. apply (Qlt_irrefl 0 Hloss). }
  assert (E3 : Num.gtb (Qabs ls) 0 = true).
  { apply NumFacts.gtb_gt. rewrite Qabs_neg by lra. lra. }
  rewrite E1, E2, E3. cbn [andb negb]. eexists. split; reflexivity.
Qed.

(** Instance of X19: the report of the run over [one_winner]. *)
Lemma params_report_consistent_witness :
  let st := OptimizeFixed.compute_stats [Runs2.one_winner_params_trade] in
  let losses := Num.sum (map OptimizeFixed.t_profit
                 (List.filter OptimizeFixed.is_loser [Runs2.one_winner_params_trade])) in
  (exists w l, OptimizeFixed.winners st = Some w /\ OptimizeFixed.losers st = Some l /\
               (w + l = OptimizeFixed.total_trades st)%nat) /\
  0 <= OptimizeFixed.win_rate st <= 100 /\
  (OptimizeFixed.profit_factor st = PosInf \/
   exists q, OptimizeFixed.profit_factor st = Finite q /\ 0 <= q) /\
  (losses < 0 ->
   exists q, OptimizeFixed.profit_factor st = Finite q /\
             OptimizeFixed.total_return st == q * 100).
Proof.
  apply (params_report_consistent [Runs2.one_winner_params_trade]). discriminate.
Defined.

(** ** The two backtests side by side *)

Module AgreeFacts.
Import Engine.

(** With distinct labels and a positive ATR on the row, both loop bodies
    compute the same levels, run the same scan and append. *)
Lemma trade_at_agree rows i :
  Spec.distinct (map r_time rows) = true ->
  (forall row, rows !! i = Some row ->
     buy_signal row = true \/ sell_signal row = true ->
     atr_positive (atr row) = true) ->
  option_map Spec2.outcome_of (CheckAccuracy.trade_at true rows i)
  = option_map Spec2.params_outcome_of (OptimizeFixed.trade_at 1 2 2 4 rows i).
Proof.
  intros Hd H.
  unfold CheckAccuracy.trade_at, CheckAccuracy.loop_body, OptimizeFixed.trade_at.
  destruct (rows !! i) as [row|] eqn:Hrow; [|reflexivity].
  specialize (H row eq_refl).
  destruct (buy_signal row) eqn:Hb.
  - unfold CheckAccuracy.buy_trade, OptimizeFixed.buy_trade, CheckAccuracy.buy_levels.
    rewrite (H (or_introl eq_refl)). cbn [andb].
    destruct (scan_buy _ _ _) as [[ts b]|] eqn:Hs; [|reflexivity].
    destruct (LoopFacts.scan_label BUY _ _ _ _ _ _ Hs) as (k & r & _ & Hr & ->).
    destruct (LoopFacts.loc_unique rows _ r Hd Hr) as [Hp Hg].
    rewrite Hp, Hg. reflexivity.
  - destruct (sell_signal row) eqn:Hs; [|reflexivity].
    unfold CheckAccuracy.sell_trade, OptimizeFixed.sell_trade, CheckAccuracy.sell_levels.
    rewrite (H (or_intror eq_refl)). cbn [andb].
    destruct (scan_sell _ _ _) as [[ts b]|] eqn:Hscan; [|reflexivity].
    destruct (LoopFacts.scan_label SELL _ _ _ _ _ _ Hscan) as (k & r & _ & Hr & ->).
    destruct (LoopFacts.loc_unique rows _ r Hd Hr) as [Hp Hg].
    rewrite Hp, Hg. reflexivity.
Qed.

Lemma omap_agree {A B C D} (f : B -> D) (g : C -> D)
    (p : A -> option B) (q : A -> option C) (l : list A) :
  (forall x, x ∈ l -> option_map f (p x) = option_map g (q x)) ->
  map f (omap p l) = map g (omap q l).
Proof.
  induction l as [|x r IH]; intros H; [reflexivity|].
  change (omap p (x :: r)) with (match p x with Some y => y :: omap p r | None => omap p r end).
  change (omap q (x :: r)) with (match q x with Some y => y :: omap q r | None => omap q r end).
  pose proof (H x (list_elem_of_here _ _)) as Hx.
  assert (Hr : map f (omap p r) = map g (omap q r)).
  { apply IH. intros y Hy. apply H. now apply list_elem_of_further. }
  destruct (p x), (q x); simpl in Hx; try discriminate; simpl.
  - injection Hx as ->. now rewrite Hr.
  - exact Hr.
Qed.

Lemma extract_trades_agree cs :
  Spec.distinct (map r_time (CheckAccuracy.with_indicators cs)) = true ->
  Forall Spec.well_formed cs ->
  map Spec2.outcome_of
      (CheckAccuracy.extract_trades true (CheckAccuracy.with_indicators cs))
  = map Spec2.params_outcome_of
      (OptimizeFixed.extract_trades 1 2 2 4 (CheckAccuracy.with_indicators cs)).
Proof.
  intros Hd Hwf.
  rewrite LoopFacts.extract_trades_omap, LoopFacts.extract_trades_params_omap.
  apply omap_agree. intros i Hi. apply trade_at_agree; [exact Hd|].
  intros row Hrow Hsig.
  apply (SignalFacts.well_formed_signal_has_atr cs i row Hwf); [|exact Hrow|exact Hsig].
  apply elem_of_seq in Hi. lia.
Qed.

End AgreeFacts.

(** X20.  On a frame with the required columns and pairwise distinct time
    labels whose candles all have [low <= min(open, close)] and
    [max(open, close) <= high], the price-based backtest with ATR levels
    and the multiple-based backtest with multiples 1, 2, 2, 4 and the
    default thresholds record the same trades in the same order, as far
    as direction, entry price and the take-hit flag go, and so report the
    same number of trades. *)
Theorem backtests_take_same_trades (df : DataFrame) :
  has_required_cols df = true ->
  Spec.distinct (df_index df) = true ->
  Forall Spec.well_formed (candles df) ->
  let rows := CheckAccuracy.with_indicators (candles df) in
  map Spec2.outcome_of (CheckAccuracy.extract_trades true rows)
  = map Spec2.params_outcome_of (OptimizeFixed.extract_trades 1 2 2 4 rows) /\
  Spec2.trades_reported (CheckAccuracy.backtest_vectorized df true)
  = Spec2.params_trades_reported
      (OptimizeFixed.backtest_with_params df 1 2 2 4 (13 # 20) (3 # 2)) /\
  Spec2.trades_reported (CheckAccuracy.backtest_vectorized df true)
  = Some (length (CheckAccuracy.extract_trades true rows)).
Proof.
  intros Hcols Hd Hwf rows.
  pose proof (AgreeFacts.extract_trades_agree (candles df)
                (IndexFacts.rows_distinct df Hd) Hwf) as Hsame.
  fold rows in Hsame. split; [exact Hsame|].
  assert (Hlen : length (CheckAccuracy.extract_trades true rows)
                 = length (OptimizeFixed.extract_trades 1 2 2 4 rows)).
  { rewrite <- (length_map Spec2.outcome_of), Hsame. apply length_map. }
  rewrite (IndexFacts.backtest_distinct df true Hcols Hd).
  unfold OptimizeFixed.backtest_with_params.
  rewrite Hcols. cbn [negb].
  change (Engine.annotate (fun row => OptimizeFixed.is_bullish_hammer row (13 # 20) (3 # 2))
                   (fun row => OptimizeFixed.is_bearish_hammer row (13 # 20) (3 # 2))
                   (candles df)) with rows.
  fold rows. cbv zeta.
  destruct (CheckAccuracy.extract_trades true rows) as [|t ts] eqn:E1;
    destruct (OptimizeFixed.extract_trades 1 2 2 4 rows) as [|t' ts'] eqn:E2;
    simpl in Hlen; try discriminate; split; try reflexivity.
  simpl. f_equal. exact Hlen.
Qed.

(** Instance of X20: the frame of [one_winner]. *)
Lemma backtests_take_same_trades_witness :
  let df := frame_of Samples.one_winner in
  let rows := CheckAccuracy.with_indicators (candles df) in
  map Spec2.outcome_of (CheckAccuracy.extract_trades true rows)
  = map Spec2.params_outcome_of (OptimizeFixed.extract_trades 1 2 2 4 rows) /\
  Spec2.trades_reported (CheckAccuracy.backtest_vectorized df true)
  = Spec2.params_trades_reported
      (OptimizeFixed.backtest_with_params df 1 2 2 4 (13 # 20) (3 # 2)) /\
  Spec2.trades_reported (CheckAccuracy.backtest_vectorized df true)
  = Some (length (CheckAccuracy.extract_trades true rows)).
Proof.
  apply (backtests_take_same_trades (frame_of Samples.one_winner)).
  - vm_compute. reflexivity.
  - vm_compute. reflexivity.
  - apply SignalFacts.well_formedb_sound. vm_compute. reflexivity.
Defined.

(** ** The readiness check *)

Module CheckFacts.
Import AccuracyCheck.

Lemma select_columns_lookup df df' col :
  select_columns df = Some df' -> In col required_cols ->
  df_cols df' !! col = df_cols df !! col.
Proof.
  unfold select_columns. destruct (has_required_cols df); [|discriminate].
  intros H Hin. inversion H; subst df'; clear H. cbn [df_cols].
  destruct (df_cols df !! col) as [x|] eqn:E.
  - apply map_lookup_filter_Some. split; [exact E|].
    cbn. now apply list_elem_of_In.
  - apply map_lookup_filter_None. left. exact E.
Qed.

(** The selection keeps the index and the five columns, so the backtest
    sees the same candles and never misses a column. *)
Lemma select_columns_some df :
  has_required_cols df = true ->
  exists df', select_columns df = Some df' /\
              has_required_cols df' = true /\ candles df' = candles df.
Proof.
  intros Hcols. unfold select_columns. rewrite Hcols. eexists. split; [reflexivity|].
  set (df' := {| df_index := df_index df; df_cols := _ |}).
  assert (Hsel : select_columns df = Some df')
    by (unfold select_columns; rewrite Hcols; reflexivity).
  assert (Hlook : forall col, In col required_cols ->
                    df_cols df' !! col = df_cols df !! col)
    by (intros col; apply select_columns_lookup; exact Hsel).
  split.
  - apply InputFacts.has_required_cols_true. intros col Hin.
    rewrite (Hlook col Hin).
    now apply (proj1 (InputFacts.has_required_cols_true df) Hcols).
  - unfold candles, column.
    rewrite !Hlook by (simpl; tauto). reflexivity.
Qed.

Lemma select_columns_none df :
  has_required_cols df = false -> select_columns df = None.
Proof. intros H. unfold select_columns. now rewrite H. Qed.

(** [dict_set] appends under a new key and keeps the length otherwise. *)
Lemma dict_set_cases d k v :
  ((k ∉ map fst d) /\ dict_set d k v = d ++ [(k, v)]) \/
  ((k ∈ map fst d) /\ length (dict_set d k v) = length d).
Proof.
  induction d as [|[k' v'] r IH]; simpl.
  - left. split; [apply not_elem_of_nil | reflexivity].
  - case_bool_decide as Hk.
    + right. subst k'. split; [apply list_elem_of_here | reflexivity].
    + destruct IH as [[Hn E]|[Hin E]].
      * left. split; [|now rewrite E].
        intros Hi. apply elem_of_cons in Hi. destruct Hi as [->|Hi]; [now apply Hk|auto].
      * right. split; [now apply list_elem_of_further | simpl; now rewrite E].
Qed.

Section Reader.
Variable read_csv : string -> ReadResult.

Lemma reports_snoc files file :
  Spec2.reports read_csv (files ++ [file])
  = Spec2.reports read_csv files
    ++ match report_of read_csv file.1 with
       | Some m => [(file.2, m)]
       | None => []
       end.
Proof.
  unfold Spec2.reports. rewrite omap_app. f_equal.
  change (omap ?f [file]) with (match f file with Some y => [y] | None => [] end).
  cbv beta. destruct (report_of read_csv file.1); reflexivity.
Qed.

Lemma load_all_snoc files file :
  load_all read_csv (files ++ [file])
  = load_file read_csv (load_all read_csv files) file.
Proof. unfold load_all. now rewrite fold_left_app. Qed.

(** What the first loop maintains: every file raises exactly one of the
    two counters, [n_tested] counts the reports, [results] never holds
    more entries than that, and holds exactly the reports as long as no
    label came twice. *)
Lemma load_all_inv files :
  let t := load_all read_csv files in
  (n_tested t + n_failed t = length files)%nat /\
  n_tested t = length (Spec2.reports read_csv files) /\
  (length (results t) <= n_tested t)%nat /\
  (length (results t) = n_tested t -> results t = Spec2.reports read_csv files) /\
  (NoDup (map fst (Spec2.reports read_csv files)) -> results t = Spec2.reports read_csv files).
Proof.
  induction files as [|file files IH] using rev_ind.
  - cbv zeta. unfold load_all, Spec2.reports. simpl. repeat split; auto.
  - cbv zeta in *. rewrite load_all_snoc, reports_snoc.
    destruct IH as (Hsum & Hn & Hle & Heq & Hnd).
    set (t := load_all read_csv files) in *.
    unfold load_file. destruct file as [filename label]. cbn [fst snd].
    destruct (report_of read_csv filename) as [m|].
    + cbn [results n_tested n_failed]. rewrite !length_app. cbn [length].
      destruct (dict_set_cases (results t) label m) as [[Hfresh E]|[Hold E]].
      * rewrite E, length_app. cbn [length].
        split; [lia|]. split; [lia|]. split; [lia|]. split.
        -- intros H. rewrite Heq by lia. reflexivity.
        -- intros H. rewrite map_app in H. apply NoDup_app in H.
           destruct H as (H & _ & _). now rewrite (Hnd H).
      * rewrite E.
        split; [lia|]. split; [lia|]. split; [lia|]. split.
        -- intros H. lia.
        -- intros H. exfalso. rewrite map_app in H. apply NoDup_app in H.
           destruct H as (H & Hdisj & _). rewrite (Hnd H) in Hold.
           apply (Hdisj label Hold). simpl. apply list_elem_of_here.
    + cbn [results n_tested n_failed]. rewrite !length_app, app_nil_r. cbn [length].
      split; [lia|]. split; [lia|]. split; [lia|]. split; auto.
Qed.

Lemma judge_fold rs b n :
  fold_left judge rs (b, n)
  = (b && forallb (fun r => passes r.2) rs,
     (n + length (List.filter (fun r => passes r.2) rs))%nat).
Proof.
  revert b n. induction rs as [|r rs IH]; intros b n; simpl.
  - now rewrite andb_true_r, Nat.add_0_r.
  - destruct (passes r.2); rewrite IH; simpl.
    + f_equal. lia.
    + now rewrite andb_false_r.
Qed.

Lemma judge_all_spec rs :
  judge_all rs = (forallb (fun r => passes r.2) rs,
                  length (List.filter (fun r => passes r.2) rs)).
Proof. unfold judge_all. now rewrite judge_fold. Qed.

Lemma filter_all_length {A} (f : A -> bool) (l : list A) :
  length (List.filter f l) = length l -> forallb f l = true.
Proof.
  induction l as [|x l IH]; simpl; [reflexivity|].
  destruct (f x); simpl; intros H.
  - apply IH. lia.
  - pose proof (List.filter_length_le f l). lia.
Qed.

Lemma forallb_filter_length {A} (f : A -> bool) (l : list A) :
  forallb f l = true -> length (List.filter f l) = length l.
Proof.
  induction l as [|x l IH]; simpl; [reflexivity|].
  destruct (f x); simpl; intros H; [now rewrite IH | discriminate].
Qed.

(** The banner in terms of [results] and the counter of tested files. *)
Lemma verdict_ready files :
  (check_files read_csv files).2 = READY <->
  forallb (fun r => passes r.2) (results (load_all read_csv files)) = true /\
  length (results (load_all read_csv files)) = n_tested (load_all read_csv files).
Proof.
  pose proof (load_all_inv files) as Hinv. cbv zeta in Hinv.
  destruct Hinv as (_ & _ & Hle & _ & _).
  unfold check_files. set (t := load_all read_csv files) in *.
  rewrite judge_all_spec.
  destruct (results t) as [|r rs] eqn:E.
  - cbn [forallb List.filter length total_files files_passed snd andb].
    destruct (n_tested t) as [|n]; simpl; split.
    + auto.
    + reflexivity.
    + discriminate.
    + intros [_ H]. discriminate.
  - cbn [total_files files_passed snd].
    set (f := fun r0 : string * Metrics => passes r0.2).
    pose proof (List.filter_length_le f (r :: rs)) as Hf.
    destruct (forallb f (r :: rs)) eqn:Hall; cbn [andb].
    + rewrite (forallb_filter_length f _ Hall).
      destruct (Nat.eqb_spec (length (r :: rs)) (n_tested t)); split; auto.
      * intros H. discriminate.
      * intros [_ H]. contradiction.
    + split; [discriminate|]. intros [H _]. discriminate.
Qed.

Lemma forallb_reports files :
  forallb (fun r => passes r.2) (Spec2.reports read_csv files) = true <->
  forall filename label m,
    (filename, label) ∈ files -> report_of read_csv filename = Some m ->
    passes m = true.
Proof.
  rewrite forallb_forall. unfold Spec2.reports. split.
  - intros H filename label m Hin Hm.
    apply (H (label, m)). apply list_elem_of_In, list_elem_of_omap.
    exists (filename, label). split; [exact Hin|]. cbn. now rewrite Hm.
  - intros H [label m] Hin. apply list_elem_of_In, list_elem_of_omap in Hin.
    destruct Hin as ([filename label'] & Hin & Hm). cbn in Hm.
    destruct (report_of read_csv filename) as [m'|] eqn:E; [|discriminate].
    cbn in Hm. inversion Hm; subst. cbn. eapply H; eassumption.
Qed.

(** A verdict of readiness means every report passed, whatever the
    labels. *)
Lemma ready_reports_pass files :
  (check_files read_csv files).2 = READY ->
  forall filename label m,
    (filename, label) ∈ files -> report_of read_csv filename = Some m ->
    passes m = true.
Proof.
  intros H. apply verdict_ready in H. destruct H as [Hall Hlen].
  pose proof (load_all_inv files) as Hinv. cbv zeta in Hinv.
  destruct Hinv as (_ & _ & _ & Heq & _).
  rewrite (Heq Hlen) in Hall. now apply forallb_reports.
Qed.

(** The report of a frame that has the required columns and distinct
    labels. *)
Lemma report_of_frame filename df :
  read_csv filename = Frame df -> has_required_cols df = true ->
  Spec.distinct (df_index df) = true ->
  report_of read_csv filename
  = match CheckAccuracy.extract_trades true (CheckAccuracy.with_indicators (candles df)) with
    | [] => None
    | t :: ts =>
        Some (metrics_of (CheckAccuracy.compute_stats
                            (CheckAccuracy.with_indicators (candles df)) (t :: ts)))
    end.
Proof.
  intros Hread Hcols Hd. unfold report_of. rewrite Hread.
  destruct (select_columns_some df Hcols) as (df' & -> & Hcols' & Hcs).
  unfold CheckAccuracy.backtest_vectorized. rewrite Hcols', Hcs. cbn [negb]. cbv zeta.
  rewrite (LoopFacts.run_loop_distinct _ _ (IndexFacts.rows_distinct df Hd)).
  destruct (CheckAccuracy.extract_trades _ _); reflexivity.
Qed.

(** The backtest of the selected columns is the backtest of the frame. *)
Lemma backtest_select df df' use_atr :
  select_columns df = Some df' ->
  CheckAccuracy.backtest_vectorized df' use_atr
  = CheckAccuracy.backtest_vectorized df use_atr.
Proof.
  intros Hsel.
  assert (Hcols : has_required_cols df = true).
  { unfold select_columns in Hsel.
    destruct (has_required_cols df); [reflexivity | discriminate]. }
  destruct (select_columns_some df Hcols) as (df'' & Hsel' & Hcols' & Hcs).
  rewrite Hsel in Hsel'. inversion Hsel'; subst df''.
  unfold CheckAccuracy.backtest_vectorized. now rewrite Hcols, Hcols', Hcs.
Qed.

(** A file yields a report exactly when it is read into a frame whose
    backtest returns one. *)
Lemma report_of_some filename m :
  report_of read_csv filename = Some m <->
  exists df st,
    read_csv filename = Frame df /\
    CheckAccuracy.backtest_vectorized df true = Returns (Some st) /\
    m = metrics_of st.
Proof.
  unfold report_of. split.
  - destruct (read_csv filename) as [| |df]; try discriminate.
    destruct (select_columns df) as [df'|] eqn:Hsel; [|discriminate].
    rewrite (backtest_select df df' true Hsel).
    destruct (CheckAccuracy.backtest_vectorized df true) as [e|[st|]] eqn:Hrun;
      try discriminate.
    intros H. inversion H; subst m. exists df, st. auto.
  - intros (df & st & Hread & Hrun & ->). rewrite Hread.
    destruct (LoopFacts.backtest_returns _ _ _ Hrun) as (Hcols & _).
    destruct (select_columns_some df Hcols) as (df' & Hsel & _).
    rewrite Hsel, (backtest_select df df' true Hsel), Hrun. reflexivity.
Qed.

End Reader.
End CheckFacts.

(** X21.  The readiness check counts every file exactly once: as tested
    when the file is read into a frame whose backtest returns a report,
    and as failed otherwise, that is when the file is not found, when the
    read, the column selection or the backtest raises, or when no trade
    is generated.  It never counts more files as passed than as tested. *)
Theorem every_file_tested_or_failed (read_csv : string -> AccuracyCheck.ReadResult)
    (files : list (string * string)) :
  let total_stats := (AccuracyCheck.check_files read_csv files).1 in
  (AccuracyCheck.total_files total_stats + AccuracyCheck.files_failed total_stats
   = length files)%nat /\
  AccuracyCheck.total_files total_stats
  = length (Spec2.reports read_csv files) /\
  (AccuracyCheck.files_passed total_stats
   <= AccuracyCheck.total_files total_stats)%nat /\
  (forall filename m,
     AccuracyCheck.report_of read_csv filename = Some m <->
     exists df st,
       read_csv filename = AccuracyCheck.Frame df /\
       CheckAccuracy.backtest_vectorized df true = Returns (Some st) /\
       m = AccuracyCheck.metrics_of st).
Proof.
  cbv zeta. pose proof (CheckFacts.load_all_inv read_csv files) as Hinv.
  cbv zeta in Hinv. destruct Hinv as (Hsum & Hn & Hle & _ & _).
  assert (Hcount :
    (AccuracyCheck.total_files (AccuracyCheck.check_files read_csv files).1
     + AccuracyCheck.files_failed (AccuracyCheck.check_files read_csv files).1
     = length files)%nat /\
    AccuracyCheck.total_files (AccuracyCheck.check_files read_csv files).1
    = length (Spec2.reports read_csv files) /\
    (AccuracyCheck.files_passed (AccuracyCheck.check_files read_csv files).1
     <= AccuracyCheck.total_files (AccuracyCheck.check_files read_csv files).1)%nat).
  { unfold AccuracyCheck.check_files.
    set (t := AccuracyCheck.load_all read_csv files) in *.
    rewrite CheckFacts.judge_all_spec.
    destruct (AccuracyCheck.results t) as [|r rs] eqn:E;
      cbn [fst AccuracyCheck.total_files AccuracyCheck.files_failed
           AccuracyCheck.files_passed].
    - split; [exact Hsum|]. split; [exact Hn | lia].
    - split; [exact Hsum|]. split; [exact Hn|].
      pose proof (List.filter_length_le
                    (fun r0 : string * AccuracyCheck.Metrics => AccuracyCheck.passes r0.2)
                    (r :: rs)). lia. }
  destruct Hcount as (H1 & H2 & H3).
  split; [exact H1|]. split; [exact H2|]. split; [exact H3|].
  intros filename m. apply CheckFacts.report_of_some.
Qed.

(** Instance of X21: both data files hold the candles of [repeated_exit],
    whose backtest raises; neither file is counted as tested, both as
    failed. *)
Lemma every_file_tested_or_failed_witness :
  AccuracyCheck.total_files
    (AccuracyCheck.check_files (Samples2.always Samples.repeated_exit)
                               AccuracyCheck.test_files).1 = 0%nat /\
  AccuracyCheck.files_failed
    (AccuracyCheck.check_files (Samples2.always Samples.repeated_exit)
                               AccuracyCheck.test_files).1 = 2%nat.
Proof.
  pose proof (every_file_tested_or_failed (Samples2.always Samples.repeated_exit)
                                          AccuracyCheck.test_files) as H.
  cbv zeta in H. destruct H as (Hsum & Hn & _ & _).
  assert (E : Spec2.reports (Samples2.always Samples.repeated_exit)
                            AccuracyCheck.test_files = [])
    by (vm_compute; reflexivity).
  rewrite E in Hn. simpl in Hn, Hsum. split; [exact Hn | lia].
Defined.

(** X22.  When no file yields a report, the readiness check prints the
    READY banner: nothing was tested, nothing passed, and every file is
    counted as failed. *)
Theorem no_report_is_ready (read_csv : string -> AccuracyCheck.ReadResult)
    (files : list (string * string)) :
  (forall filename label,
     (filename, label) ∈ files -> AccuracyCheck.report_of read_csv filename = None) ->
  AccuracyCheck.check_files read_csv files
  = ({| AccuracyCheck.total_files := 0; AccuracyCheck.files_passed := 0;
        AccuracyCheck.files_failed := length files;
        AccuracyCheck.avg_win_rate := 0; AccuracyCheck.avg_profit_factor := 0;
        AccuracyCheck.avg_return := 0 |}, AccuracyCheck.READY).
Proof.
  intros Hnone.
  assert (Hreports : Spec2.reports read_csv files = []).
  { unfold Spec2.reports. apply WindowFacts.omap_all_none.
    intros [filename label] Hin. cbn. now rewrite (Hnone filename label Hin). }
  pose proof (CheckFacts.load_all_inv read_csv files) as Hinv.
  cbv zeta in Hinv. destruct Hinv as (Hsum & Hn & Hle & _ & _).
  rewrite Hreports in Hn. simpl in Hn.
  unfold AccuracyCheck.check_files.
  set (t := AccuracyCheck.load_all read_csv files) in *.
  assert (E : AccuracyCheck.results t = [])
    by (destruct (AccuracyCheck.results t); [reflexivity | simpl in Hle; lia]).
  rewrite E, Hn. simpl. repeat f_equal. lia.
Qed.

(** Instance of X22: the two data files, neither of them found. *)
Lemma no_report_is_ready_witness :
  AccuracyCheck.check_files Samples2.no_files AccuracyCheck.test_files
  = ({| AccuracyCheck.total_files := 0; AccuracyCheck.files_passed := 0;
        AccuracyCheck.files_failed := length AccuracyCheck.test_files;
        AccuracyCheck.avg_win_rate := 0; AccuracyCheck.avg_profit_factor := 0;
        AccuracyCheck.avg_return := 0 |}, AccuracyCheck.READY).
Proof.
  apply (no_report_is_ready Samples2.no_files AccuracyCheck.test_files).
  intros filename label _. reflexivity.
Defined.

(** X23.  With pairwise distinct labels, the READY banner is printed
    exactly when every report passes all three thresholds: win rate at
    least 55, profit factor at least 1.5, total return above 0.  Files
    without a report have no say. *)
Theorem ready_iff_all_reports_pass (read_csv : string -> AccuracyCheck.ReadResult)
    (files : list (string * string)) :
  NoDup (map snd files) ->
  (AccuracyCheck.check_files read_csv files).2 = AccuracyCheck.READY <->
  forall filename label m,
    (filename, label) ∈ files ->
    AccuracyCheck.report_of read_csv filename = Some m ->
    AccuracyCheck.passes m = true.
Proof.
  intros Hnd. split; [apply CheckFacts.ready_reports_pass|].
  intros Hall. apply CheckFacts.verdict_ready.
  pose proof (CheckFacts.load_all_inv read_csv files) as Hinv.
  cbv zeta in Hinv. destruct Hinv as (_ & Hn & _ & _ & Hres).
  assert (Hkeys : NoDup (map fst (Spec2.reports read_csv files))).
  { clear - Hnd. unfold Spec2.reports.
    induction files as [|[filename label] files IH]; [constructor|].
    simpl in Hnd. apply NoDup_cons in Hnd. destruct Hnd as [Hnew Hnd].
    change (omap ?f ((filename, label) :: files))
      with (match f (filename, label) with
            | Some y => y :: omap f files
            | None => omap f files
            end).
    cbn [fst snd]. destruct (AccuracyCheck.report_of read_csv filename); cbn [option_map];
      [|now apply IH].
    simpl. apply NoDup_cons. split; [|now apply IH].
    intros Hin. apply Hnew. apply list_elem_of_fmap in Hin.
    destruct Hin as ([label' m'] & -> & Hin). apply list_elem_of_omap in Hin.
    destruct Hin as ([filename' label''] & Hin & Hm). cbn in Hm.
    destruct (AccuracyCheck.report_of read_csv filename'); [|discriminate].
    cbn in Hm. inversion Hm; subst. cbn.
    apply list_elem_of_fmap. exists (filename', label'). split; [reflexivity | exact Hin]. }
  rewrite (Hres Hkeys). split; [|now rewrite Hn].
  now apply CheckFacts.forallb_reports.
Qed.

(** Instance of X23: both data files hold the candles of [one_winner]. *)
Lemma ready_iff_all_reports_pass_witness :
  (AccuracyCheck.check_files (Samples2.always Samples.one_winner)
                             AccuracyCheck.test_files).2 = AccuracyCheck.READY <->
  forall filename label m,
    (filename, label) ∈ AccuracyCheck.test_files ->
    AccuracyCheck.report_of (Samples2.always Samples.one_winner) filename = Some m ->
    AccuracyCheck.passes m = true.
Proof.
  apply (ready_iff_all_reports_pass (Samples2.always Samples.one_winner)
                                    AccuracyCheck.test_files).
  apply (bool_decide_eq_true_1 _). vm_compute. reflexivity.
Defined.

(** X24.  A data file with the required columns and pairwise distinct time
    labels whose backtest records trades and wins every one of them makes
    the readiness check print NOT READY: without a losing trade the
    report's profit factor is 0, below the threshold of 1.5. *)
Theorem winning_every_trade_is_not_ready
    (read_csv : string -> AccuracyCheck.ReadResult) (files : list (string * string))
    (filename label : string) (df : DataFrame) :
  (filename, label) ∈ files ->
  read_csv filename = AccuracyCheck.Frame df ->
  has_required_cols df = true ->
  Spec.distinct (df_index df) = true ->
  CheckAccuracy.extract_trades true (CheckAccuracy.with_indicators (candles df)) <> [] ->
  List.filter CheckAccuracy.is_loser
    (CheckAccuracy.extract_trades true (CheckAccuracy.with_indicators (candles df))) = [] ->
  (AccuracyCheck.check_files read_csv files).2 = AccuracyCheck.NOT_READY.
Proof.
  intros Hin Hread Hcols Hd Hne Hwin.
  destruct ((AccuracyCheck.check_files read_csv files).2) eqn:Hv; [|reflexivity].
  exfalso.
  pose proof (CheckFacts.report_of_frame read_csv filename df Hread Hcols Hd) as Hrep.
  destruct (CheckAccuracy.extract_trades true _) as [|t ts] eqn:E; [congruence|].
  pose proof (CheckFacts.ready_reports_pass read_csv files Hv filename label _ Hin Hrep)
    as Hpass.
  unfold AccuracyCheck.passes in Hpass.
  cbn [AccuracyCheck.profit_factor AccuracyCheck.metrics_of] in Hpass.
  rewrite (StatsFacts.no_loser_factor_zero _ _ Hwin) in Hpass.
  apply andb_true_iff in Hpass. destruct Hpass as [Hpass _].
  apply andb_true_iff in Hpass. destruct Hpass as [_ Hpf]. discriminate.
Qed.

(** Instance of X24: both data files hold the candles of [one_winner],
    whose only trade wins. *)
Lemma winning_every_trade_is_not_ready_witness :
  (AccuracyCheck.check_files (Samples2.always Samples.one_winner)
                             AccuracyCheck.test_files).2 = AccuracyCheck.NOT_READY.
Proof.
  apply (winning_every_trade_is_not_ready
           (Samples2.always Samples.one_winner) AccuracyCheck.test_files
           "BTC_USD_M5.csv" "BTC_USD M5" (frame_of Samples.one_winner)).
  - apply list_elem_of_here.
  - reflexivity.
  - vm_compute. reflexivity.
  - vm_compute. reflexivity.
  - vm_compute. discriminate.
  - vm_compute. reflexivity.
Defined.

(** X25.  The multiple-based backtest, in contrast, earns the ready mark
    of the optimizer whenever it reports at least one trade and no loser:
    the win rate is then 100 and the profit factor infinite. *)
Theorem winning_params_marked_ready (df : DataFrame) (bs bt ss st lo up : Q)
    (r : OptimizeFixed.Stats) :
  OptimizeFixed.backtest_with_params df bs bt ss st lo up = Returns r ->
  OptimizeFixed.total_trades r <> 0%nat ->
  OptimizeFixed.losers r = Some 0%nat ->
  Optimizer.ready r = true /\
  OptimizeFixed.win_rate r == 100 /\
  OptimizeFixed.profit_factor r = PosInf.
Proof.
  unfold OptimizeFixed.backtest_with_params.
  destruct (negb (has_required_cols df)); [discriminate|].
  cbv zeta.
  destruct (OptimizeFixed.extract_trades _ _ _ _ _) as [|t ts] eqn:E;
    intros Hr; inversion Hr; subst r; clear Hr;
    [intros H; now contradiction H|].
  intros _ Hlosers.
  assert (Hnone : List.filter OptimizeFixed.is_loser (t :: ts) = []).
  { unfold OptimizeFixed.compute_stats in Hlosers. cbn [OptimizeFixed.losers] in Hlosers.
    destruct (List.filter OptimizeFixed.is_loser (t :: ts)); [reflexivity|].
    simpl in Hlosers. discriminate. }
  assert (Hall : List.filter OptimizeFixed.is_winner (t :: ts) = t :: ts).
  { apply (StatsFacts.filter_none_all _ OptimizeFixed.is_loser); [|exact Hnone].
    intros x. apply NumFacts.gtb_leb_negb. }
  assert (Hpf : OptimizeFixed.profit_factor (OptimizeFixed.compute_stats (t :: ts)) = PosInf)
    by (apply StatsFacts.params_no_loser_factor_inf; [discriminate | exact Hnone]).
  assert (Hrate : OptimizeFixed.win_rate (OptimizeFixed.compute_stats (t :: ts)) == 100).
  { unfold OptimizeFixed.compute_stats. cbn [OptimizeFixed.win_rate].
    rewrite Hall. cbn [length Nat.ltb Nat.leb].
    assert (Hn : ~ OptimizeFixed.Qnat (S (length ts)) == 0).
    { unfold OptimizeFixed.Qnat, Qeq. simpl. lia. }
    field. exact Hn. }
  split; [|split; [exact Hrate | exact Hpf]].
  unfold Optimizer.ready. rewrite Hpf. cbn [Optimizer.ext_geb]. rewrite andb_true_r.
  apply NumFacts.geb_ge. rewrite Hrate. lra.
Qed.

(** Instance of X25: [one_winner] with multiples 1, 2, 2, 4. *)
Lemma winning_params_marked_ready_witness :
  Optimizer.ready Runs.one_winner_params_stats = true /\
  OptimizeFixed.win_rate Runs.one_winner_params_stats == 100 /\
  OptimizeFixed.profit_factor Runs.one_winner_params_stats = PosInf.
Proof.
  apply (winning_params_marked_ready (frame_of Samples.one_winner)
           1 2 2 4 (13 # 20) (3 # 2) Runs.one_winner_params_stats).
  - vm_compute. reflexivity.
  - vm_compute. discriminate.
  - vm_compute. reflexivity.
Defined.
